(** * UART baudrate detection (ASCII): a shallow embedding of
      [owfmodules/uart/baudrate_ascii.py] and the properties of its
      byte classifier, per-candidate probe, sweep and option validation. *)

From Stdlib Require Import ZArith List String Ascii Bool Lia.
Import ListNotations.
Open Scope Z_scope.

(** ** Python built-ins used by the module *)

Module Py.

(** A [str] is a sequence of code points, a [bytes] a sequence of byte
    values; the two never compare equal. *)
Inductive obj :=
| Str (cps : list Z)
| Bytes (bs : list Z).

Fixpoint list_eqb (a b : list Z) : bool :=
  match a, b with
  | [], [] => true
  | x :: a', y :: b' => (x =? y) && list_eqb a' b'
  | _, _ => false
  end.

(** [x == y] *)
Definition eqb (x y : obj) : bool :=
  match x, y with
  | Str a, Str b => list_eqb a b
  | Bytes a, Bytes b => list_eqb a b
  | _, _ => false
  end.

(** [x in l] for a list [l]: a linear scan with [==]. *)
Definition contains (x : obj) (l : list obj) : bool :=
  existsb (eqb x) l.

Definition chr (n : Z) : obj := Str [n].

(** [range(a, b)] with the default step 1. *)
Definition range2 (a b : Z) : list Z :=
  map (fun i => a + Z.of_nat i) (seq 0 (Z.to_nat (b - a))).

(** Number of elements of [range(a, b, s)] for [s <> 0]. *)
Definition range_len (a b s : Z) : Z :=
  if 0 <? s then (if a <? b then (b - a - 1) / s + 1 else 0)
  else (if b <? a then (a - b - 1) / (- s) + 1 else 0).

(** [range(a, b, s)]; [None] is the [ValueError] raised for a zero step. *)
Definition range3 (a b s : Z) : option (list Z) :=
  if s =? 0 then None
  else Some (map (fun i => a + Z.of_nat i * s)
                 (seq 0 (Z.to_nat (range_len a b s)))).

Definition is_cont (b : Z) : bool := (0x80 <=? b) && (b <=? 0xBF).
Definition between (lo b hi : Z) : bool := (lo <=? b) && (b <=? hi).

(** [bs.decode('utf-8')] in strict mode; [None] is [UnicodeDecodeError].
    Overlong forms, surrogates and values above U+10FFFF are refused. *)
Fixpoint decode (bs : list Z) : option (list Z) :=
  match bs with
  | [] => Some []
  | b0 :: r0 =>
    if between 0 b0 0x7F then option_map (cons b0) (decode r0)
    else if between 0xC2 b0 0xDF then
      match r0 with
      | b1 :: r1 =>
        if is_cont b1
        then option_map (cons ((b0 - 0xC0) * 64 + (b1 - 0x80))) (decode r1)
        else None
      | _ => None
      end
    else if between 0xE0 b0 0xEF then
      match r0 with
      | b1 :: b2 :: r2 =>
        if between (if b0 =? 0xE0 then 0xA0 else 0x80) b1
                   (if b0 =? 0xED then 0x9F else 0xBF) && is_cont b2
        then option_map
               (cons ((b0 - 0xE0) * 4096 + (b1 - 0x80) * 64 + (b2 - 0x80)))
               (decode r2)
        else None
      | _ => None
      end
    else if between 0xF0 b0 0xF4 then
      match r0 with
      | b1 :: b2 :: b3 :: r3 =>
        if between (if b0 =? 0xF0 then 0x90 else 0x80) b1
                   (if b0 =? 0xF4 then 0x8F else 0xBF)
           && is_cont b2 && is_cont b3
        then option_map
               (cons ((b0 - 0xF0) * 262144 + (b1 - 0x80) * 4096
                      + (b2 - 0x80) * 64 + (b3 - 0x80)))
               (decode r3)
        else None
      | _ => None
      end
    else None
  end.

(** Text options are modelled as [string]s of 8-bit characters. *)

Definition code (c : ascii) : Z := Z.of_N (N_of_ascii c).

(** [c.isspace()] *)
Definition is_space (c : ascii) : bool :=
  let n := code c in
  between 9 n 13 || between 28 n 32 || (n =? 0x85) || (n =? 0xA0).

Definition upper_char (c : ascii) : ascii :=
  let n := code c in
  if between 97 n 122 then ascii_of_N (Z.to_N (n - 32)) else c.

(** [s.upper()]. Only the letters a-z are mapped: the module compares
    the result with ASCII words only, and the one other 8-bit character
    whose upper case holds an ASCII letter is the sharp s, whose image SS
    occurs in none of those words. *)
Fixpoint upper (s : string) : string :=
  match s with
  | EmptyString => EmptyString
  | String c s' => String (upper_char c) (upper s')
  end.

Fixpoint lstrip (s : string) : string :=
  match s with
  | String c s' => if is_space c then lstrip s' else s
  | EmptyString => EmptyString
  end.

(** Drops trailing white space. *)
Fixpoint rstrip (s : string) : string :=
  match s with
  | EmptyString => EmptyString
  | String c s' =>
    match rstrip s' with
    | EmptyString => if is_space c then EmptyString else String c EmptyString
    | t => String c t
    end
  end.

(** [s.strip()] *)
Definition strip (s : string) : string := rstrip (lstrip s).

(** [s.split(sep)] for a one-character separator, as the pair of the
    first field and the remaining ones: the result always has a field. *)
Fixpoint split_fields (sep : ascii) (s : string) : string * list string :=
  match s with
  | EmptyString => (EmptyString, [])
  | String c s' =>
    let '(f, fs) := split_fields sep s' in
    if Ascii.eqb c sep then (EmptyString, f :: fs) else (String c f, fs)
  end.

Definition split (sep : ascii) (s : string) : list string :=
  let '(f, fs) := split_fields sep s in f :: fs.

Definition is_digit (c : ascii) : bool := between 48 (code c) 57.

(** Digits of an integer literal, single underscores allowed between
    digits; [acc] is the value read so far, [prev_digit] tells whether
    the previous character was a digit. *)
Fixpoint digits (acc : Z) (prev_digit : bool) (s : string) : option Z :=
  match s with
  | EmptyString => if prev_digit then Some acc else None
  | String c s' =>
    if is_digit c then digits (acc * 10 + (code c - 48)) true s'
    else if Ascii.eqb c "_"%char && prev_digit then digits acc false s'
    else None
  end.

Fixpoint count_digits (s : string) : Z :=
  match s with
  | EmptyString => 0
  | String c s' => (if is_digit c then 1 else 0) + count_digits s'
  end.

(** The default of [sys.get_int_max_str_digits()]. *)
Definition max_str_digits : Z := 4300.

(** An unsigned literal: refused when it holds more digits (underscores
    not counted, leading zeros counted) than the limit. *)
Definition literal (s : string) : option Z :=
  if max_str_digits <? count_digits s then None else digits 0 false s.

(** [int(s)] for a [str] in base 10; [None] is [ValueError]. *)
Definition int (s : string) : option Z :=
  match strip s with
  | String "-" s' => option_map Z.opp (literal s')
  | String "+" s' => literal s'
  | s' => literal s'
  end.

(** A [float]: the finite value [m * 2 ^ e], an infinity, or not a
    number. *)
Inductive float :=
| Finite (m e : Z)
| Infinity (negative : bool)
| NaN.

(** For the finite [m * 2 ^ e]: that many seconds are fewer nanoseconds
    than [- (2 ^ 63 + 1024)], so that their number, rounded to a float,
    falls below the range of the 64-bit clock type. *)
Definition below_clock_range (m e : Z) : bool :=
  if 0 <=? e then m * 2 ^ e * 10 ^ 9 <? - (2 ^ 63 + 1024)
  else m * 10 ^ 9 <? - (2 ^ 63 + 1024) * 2 ^ (- e).

End Py.

(** ** The acceptance alphabet ([BaudrateAscii.__init__]) *)

Definition extended_asciitable : list Py.obj :=
  map Py.chr (Py.range2 0x20 127)
  ++ [Py.Str [13]] ++ [Py.Str [10]] ++ [Py.Str [9]] ++ [Py.chr 0x1b].

(** The value named [byte] in [process_baudrate]: the decoded text when
    [tmp] is valid UTF-8, the [bytes] object itself otherwise. *)
Definition decode_or_raw (tmp : list Z) : Py.obj :=
  match Py.decode tmp with
  | Some cps => Py.Str cps
  | None => Py.Bytes tmp
  end.

(** [byte in self.extended_asciitable] for the one-byte [tmp = bytes([b])]. *)
Definition is_valid_char (b : Z) : bool :=
  Py.contains (decode_or_raw [b]) extended_asciitable.

(** ** Options, the outside world and the effects of the module *)

(** The entries of [self.options] and [self.advanced_options] that the
    module reads, plus the [detect] key of the framework configuration.
    [reset_pin] is [None] for the unset (empty) value. *)
Record options := {
  uart_interface : Z;
  mode : string;
  reset_pin : option Z;
  trigger : bool;
  reset_pol : string;
  reset_hold : Py.float;
  reset_delay : Py.float;
  baudrate_min : Z;
  baudrate_max : Z;
  baudrate_inc : Z;
  baudrate_list : string;
  trigger_char : list Z;
  detect : bool
}.

Inductive exn := ValueError | TransportError | OverflowError | OSError.

Inductive level := INFO | WARNING | ERROR | RESULT | HEADER | USER_INTERACT.

Inductive message :=
| InvalidResetPolarity
| InvalidResetPin
| InvalidMode
| EmptyOrInvalidList
| InvalidList
| Switching (baudrate : Z)
| Triggering
| NotValid (baudrate : Z)
| ValidFound (baudrate : Z)
| NoData (baudrate : Z)
| ResetAttempt
| Starting
| PressCtrlC
| PressUserButton
| Caught (e : exn).

Inductive sleep := TriggerSettle | ResetHold | ResetDelay.

(** What the module does to its collaborators, one constructor per call. *)
Inductive event :=
| Log (l : level) (m : message)
| Connect
| UartInit (interface : Z)
| GpioInit (pin : Z)
| GpioDirectionOutput
| GpioStatus (v : Z)
| SerialFlush            (* serial_instance.read(serial_instance.in_waiting) *)
| UartConfigure (baudrate : Z)
| UartFlush              (* uart_instance.receive(uart_instance.in_waiting()) *)
| WaitBytes (got : bool) (* one polling window of wait_bytes *)
| UartReceive (b : Z)    (* uart_instance.receive(1) *)
| UartTransmit (payload : list Z)
| Sleep (d : sleep)
| ProgressStart
| ProgressStatus (b : Z)
| ProgressStop
| Prompt (resp : string)
| UartPassthrough
| SerialClose
| DetectOctowire
| Miniterm.

(** The answers of the world. Each is indexed by the number of earlier
    calls of the same kind: [avail k] tells whether a byte shows up
    during the k-th polling window, [rx k] is the byte returned by the
    k-th [receive(1)], [answer k] what the operator types at the k-th
    prompt, [configure_err k rate] the exception, if any, raised by the
    k-th [configure]. Other adapter calls are taken not to fail.
    [sleep_fault secs] is the exception, if any, with which the platform
    refuses to sleep for the finite, non-negative time [secs] (a time too
    long for its clock). *)
Record world := {
  connected : bool;
  avail : nat -> bool;
  rx : nat -> Z;
  answer : nat -> string;
  configure_err : nat -> Z -> option exn;
  sleep_fault : Py.float -> option exn
}.

(** The exception, if any, raised by [time.sleep(secs)]: [ValueError] for
    not-a-number and for a negative time, [OverflowError] for an infinity
    and for a negative time below the range of the clock; for the other
    times the platform decides. *)
Definition sleep_error (w : world) (secs : Py.float) : option exn :=
  match secs with
  | Py.NaN => Some ValueError
  | Py.Infinity _ => Some OverflowError
  | Py.Finite m e =>
    if m <? 0
    then (if Py.below_clock_range m e then Some OverflowError else Some ValueError)
    else sleep_fault w secs
  end.

(** The mutable part of the module object and the history of its calls,
    latest first. *)
Record state := {
  self_reset_pin : option Z;
  trace : list event
}.

Definition is_poll (e : event) : bool :=
  match e with WaitBytes _ => true | _ => false end.
Definition is_read (e : event) : bool :=
  match e with UartReceive _ => true | _ => false end.
Definition is_transmit (e : event) : bool :=
  match e with UartTransmit _ => true | _ => false end.
Definition is_prompt (e : event) : bool :=
  match e with Prompt _ => true | _ => false end.
Definition is_configure (e : event) : bool :=
  match e with UartConfigure _ => true | _ => false end.
Definition is_miniterm (e : event) : bool :=
  match e with Miniterm => true | _ => false end.
Definition is_error (e : event) : bool :=
  match e with Log ERROR _ => true | _ => false end.

(** Number of calls of one kind made so far. *)
Definition calls (p : event -> bool) (s : state) : nat :=
  List.length (filter p (trace s)).

(** Result of a computation: a value, a raised exception, or a loop that
    was cut off by its iteration bound. *)
Inductive res (A : Type) :=
| Ret (a : A)
| Raise (e : exn)
| OutOfFuel.
Arguments Ret {A} a.
Arguments Raise {A} e.
Arguments OutOfFuel {A}.

Definition M (A : Type) : Type := state -> res A * state.

Definition ret {A} (a : A) : M A := fun s => (Ret a, s).

Definition bind {A B} (m : M A) (k : A -> M B) : M B :=
  fun s =>
    match m s with
    | (Ret a, s') => k a s'
    | (Raise e, s') => (Raise e, s')
    | (OutOfFuel, s') => (OutOfFuel, s')
    end.

Definition raise {A} (e : exn) : M A := fun s => (Raise e, s).

Definition out_of_fuel {A} : M A := fun s => (OutOfFuel, s).

(** [try: m except Exception as err: h err] *)
Definition try_except {A} (m : M A) (h : exn -> M A) : M A :=
  fun s =>
    match m s with
    | (Raise e, s') => h e s'
    | r => r
    end.

Definition emit (e : event) : M unit :=
  fun s => (Ret tt, {| self_reset_pin := self_reset_pin s;
                       trace := e :: trace s |}).

Definition get {A} (f : state -> A) : M A := fun s => (Ret (f s), s).

Definition set_reset_pin (p : option Z) : M unit :=
  fun s => (Ret tt, {| self_reset_pin := p; trace := trace s |}).

Declare Scope py_scope.
Delimit Scope py_scope with py.
Notation "x <- m ;; k" := (bind m (fun x => k))
  (at level 61, m at next level, right associativity) : py_scope.
Notation "m ;; k" := (bind m (fun _ => k))
  (at level 61, right associativity) : py_scope.
Open Scope py_scope.

Definition logger (l : level) (m : message) : M unit := emit (Log l m).

(** ** The methods of [BaudrateAscii] *)

Section Module.

Variable w : world.
Variable o : options.

(** [check_options]. In the list check the [try] block guards
    [split]/[strip]; its handler logs and then falls through to the
    final [return True]. *)
Definition check_options : M bool :=
  pin_ok <-
    match reset_pin o with
    | Some pin =>
      if negb (existsb (String.eqb (Py.upper (reset_pol o))) ["LOW"; "HIGH"]%string)
      then logger ERROR InvalidResetPolarity ;; ret false
      else if negb (existsb (Z.eqb pin) (Py.range2 0 15))
      then logger ERROR InvalidResetPin ;; ret false
      else ret true
    | None => ret true
    end ;;
  if negb pin_ok then ret false
  else if negb (existsb (String.eqb (Py.upper (mode o))) ["INCREMENTAL"; "LIST"]%string)
  then logger ERROR InvalidMode ;; ret false
  else if String.eqb (Py.upper (mode o)) "LIST"
  then
    try_except
      (let baud_list := map Py.strip (Py.split "," (baudrate_list o)) in
       match baud_list with
       | [] => logger ERROR EmptyOrInvalidList ;; ret false
       | _ :: _ => ret true
       end)
      (fun _ => logger ERROR InvalidList ;; ret true)
  else ret true.

(** [wait_bytes]: the busy poll of one window, answered by the world. *)
Definition wait_bytes : M bool :=
  k <- get (calls is_poll) ;;
  emit (WaitBytes (avail w k)) ;;
  ret (avail w k).

(** [self.uart_instance.receive(1)] *)
Definition uart_receive1 : M Z :=
  k <- get (calls is_read) ;;
  emit (UartReceive (rx w k)) ;;
  ret (rx w k).

(** [self.uart_instance.configure(baudrate=baudrate)] *)
Definition uart_configure (baudrate : Z) : M unit :=
  k <- get (calls is_configure) ;;
  emit (UartConfigure baudrate) ;;
  match configure_err w k baudrate with
  | Some e => raise e
  | None => ret tt
  end.

Definition change_baudrate (baudrate : Z) : M bool :=
  logger INFO (Switching baudrate) ;;
  try_except
    (emit SerialFlush ;;
     uart_configure baudrate ;;
     emit UartFlush ;;
     ret true)
    (fun err => logger ERROR (Caught err) ;; ret false).

(** [trigger_device]; its [time.sleep(0.2)] cannot fail. *)
Definition trigger_device : M unit :=
  logger INFO Triggering ;;
  emit (UartTransmit (trigger_char o)) ;;
  emit (Sleep TriggerSettle).

Definition uart_pt_miniterm : M unit :=
  emit UartPassthrough ;;
  emit SerialClose ;;
  (if detect o then emit DetectOctowire else ret tt) ;;
  emit Miniterm ;;
  logger USER_INTERACT PressUserButton.

(** [prompt(...)] *)
Definition prompt : M string :=
  k <- get (calls is_prompt) ;;
  emit (Prompt (answer w k)) ;;
  ret (answer w k).

Definition threshold : Z := 20.

(** Lines 210-219 of [process_baudrate]: what happens once the count has
    reached the threshold. *)
Definition on_threshold (baudrate : Z) : M bool :=
  emit ProgressStop ;;
  logger RESULT (ValidFound baudrate) ;;
  resp <- prompt ;;
  (if String.eqb (Py.upper resp) "Y" then uart_pt_miniterm else ret tt) ;;
  if String.eqb (Py.upper resp) "C" then ret false else ret true.

(** The [while True] loop of [process_baudrate], at most [fuel]
    iterations, with the local variables [count] and [loop]. *)
Fixpoint process_loop (fuel : nat) (baudrate : Z) (count loop : Z) : M bool :=
  match fuel with
  | O => out_of_fuel
  | S fuel' =>
    got <- wait_bytes ;;
    if got then
      tmp <- uart_receive1 ;;
      emit (ProgressStatus tmp) ;;
      if is_valid_char tmp then
        let count := count + 1 in
        if threshold <=? count then on_threshold baudrate
        else process_loop fuel' baudrate count loop
      else
        emit ProgressStop ;;
        logger WARNING (NotValid baudrate) ;;
        ret false
    else if trigger o && (loop <? 3) then
      let loop := loop + 1 in
      trigger_device ;;
      process_loop fuel' baudrate count loop
    else
      emit ProgressStop ;;
      logger WARNING (NoData baudrate) ;;
      ret false
  end.

Definition process_baudrate (fuel : nat) (baudrate : Z) : M bool :=
  emit ProgressStart ;;
  process_loop fuel baudrate 0 0.

(** [time.sleep(secs)] *)
Definition time_sleep (d : sleep) (secs : Py.float) : M unit :=
  emit (Sleep d) ;;
  match sleep_error w secs with
  | Some e => raise e
  | None => ret tt
  end.

Definition reset_target : M unit :=
  pin <- get self_reset_pin ;;
  match pin with
  | Some _ =>
    logger INFO ResetAttempt ;;
    (if String.eqb (Py.upper (reset_pol o)) "LOW"
     then emit (GpioStatus 0) ;; time_sleep ResetHold (reset_hold o) ;;
          emit (GpioStatus 1)
     else emit (GpioStatus 1) ;; time_sleep ResetHold (reset_hold o) ;;
          emit (GpioStatus 0)) ;;
    time_sleep ResetDelay (reset_delay o)
  | None => ret tt
  end.

Definition init : M unit :=
  emit (UartInit (uart_interface o)) ;;
  set_reset_pin None ;;
  match reset_pin o with
  | Some pin =>
    emit (GpioInit pin) ;;
    set_reset_pin (Some pin) ;;
    emit GpioDirectionOutput ;;
    if String.eqb (Py.upper (reset_pol o)) "LOW"
    then emit (GpioStatus 1)
    else emit (GpioStatus 0)
  | None => ret tt
  end.

(** The body shared by the [for] loops of [incremental_mode] and
    [list_mode]: probe the candidates in order, [break] on the first
    one for which [process_baudrate] returns [True]. *)
Fixpoint sweep (fuel : nat) (candidates : list Z) : M unit :=
  match candidates with
  | [] => ret tt
  | baudrate :: rest =>
    changed <- change_baudrate baudrate ;;
    if changed then
      reset_target ;;
      found <- process_baudrate fuel baudrate ;;
      if found then ret tt else sweep fuel rest
    else sweep fuel rest
  end.

Definition incremental_mode (fuel : nat) : M unit :=
  match Py.range3 (baudrate_min o) (baudrate_max o) (baudrate_inc o) with
  | None => raise ValueError
  | Some candidates => sweep fuel candidates
  end.

(** [[int(b.strip()) for b in ....split(",")]]: every field is converted
    before the first candidate is tried. *)
Fixpoint int_all (fields : list string) : option (list Z) :=
  match fields with
  | [] => Some []
  | b :: rest =>
    match Py.int (Py.strip b) with
    | None => None
    | Some n => option_map (cons n) (int_all rest)
    end
  end.

Definition list_mode (fuel : nat) : M unit :=
  match int_all (Py.split "," (baudrate_list o)) with
  | None => raise ValueError
  | Some candidates => sweep fuel candidates
  end.

Definition run (fuel : nat) : M unit :=
  emit Connect ;;
  if negb (connected w) then ret tt
  else
    try_except
      (valid <- check_options ;;
       if valid then
         init ;;
         logger HEADER Starting ;;
         logger HEADER PressCtrlC ;;
         if String.eqb (Py.upper (mode o)) "INCREMENTAL" then incremental_mode fuel
         else if String.eqb (Py.upper (mode o)) "LIST" then list_mode fuel
         else ret tt
       else ret tt)
      (fun err => logger ERROR (Caught err)).

End Module.

(** The history of a run in the order the calls were made. *)
Definition history (s : state) : list event := rev (trace s).

Definition fresh : state := {| self_reset_pin := None; trace := [] |}.

(** The probe result of the specification, read off the log: the latest
    of the three closing messages of [process_baudrate]. *)
Inductive outcome := Accepted | Rejected | Timeout.

Fixpoint verdict_of (tr : list event) : option outcome :=
  match tr with
  | [] => None
  | Log RESULT (ValidFound _) :: _ => Some Accepted
  | Log WARNING (NotValid _) :: _ => Some Rejected
  | Log WARNING (NoData _) :: _ => Some Timeout
  | _ :: tr' => verdict_of tr'
  end.

Definition verdict (s : state) : option outcome := verdict_of (trace s).

(** [s] after the calls [es] (latest first). *)
Definition push (es : list event) (s : state) : state :=
  {| self_reset_pin := self_reset_pin s; trace := es ++ trace s |}.

(** The acceptance alphabet in the words of the specification. *)
Definition plausible (b : Z) : bool :=
  Py.between 0x20 b 0x7E || (b =? 0x0D) || (b =? 0x0A) || (b =? 0x09) || (b =? 0x1B).

(** Number of calls of one kind among [es]. *)
Definition tally (p : event -> bool) (es : list event) : nat :=
  List.length (filter p es).

(** ** Sample configurations *)

(** The default values of the options; the reset times are the floats
    0.1 and 0.5. *)
Definition default_options : options := {|
  uart_interface := 0;
  mode := "incremental";
  reset_pin := None;
  trigger := false;
  reset_pol := "low";
  reset_hold := Py.Finite 3602879701896397 (-55);
  reset_delay := Py.Finite 1 (-1);
  baudrate_min := 300;
  baudrate_max := 115200;
  baudrate_inc := 300;
  baudrate_list := "9600,19200,38400,57600,115200";
  trigger_char := [0x0D; 0x0A];
  detect := false
|}.

Definition with_trigger (o : options) (t : bool) : options := {|
  uart_interface := uart_interface o; mode := mode o; reset_pin := reset_pin o;
  trigger := t; reset_pol := reset_pol o;
  reset_hold := reset_hold o; reset_delay := reset_delay o;
  baudrate_min := baudrate_min o; baudrate_max := baudrate_max o;
  baudrate_inc := baudrate_inc o; baudrate_list := baudrate_list o;
  trigger_char := trigger_char o; detect := detect o
|}.

Definition with_range (o : options) (lo hi step : Z) : options := {|
  uart_interface := uart_interface o; mode := mode o; reset_pin := reset_pin o;
  trigger := trigger o; reset_pol := reset_pol o;
  reset_hold := reset_hold o; reset_delay := reset_delay o;
  baudrate_min := lo; baudrate_max := hi; baudrate_inc := step;
  baudrate_list := baudrate_list o;
  trigger_char := trigger_char o; detect := detect o
|}.

Definition with_list (o : options) (pin : option Z) (l : string) : options := {|
  uart_interface := uart_interface o; mode := "list"; reset_pin := pin;
  trigger := trigger o; reset_pol := reset_pol o;
  reset_hold := reset_hold o; reset_delay := reset_delay o;
  baudrate_min := baudrate_min o; baudrate_max := baudrate_max o;
  baudrate_inc := baudrate_inc o; baudrate_list := l;
  trigger_char := trigger_char o; detect := detect o
|}.

(** A target that keeps sending the bytes [bytes k], an operator who
    always answers [resp], an adapter that accepts every rate. *)
Definition talking (bytes : nat -> Z) (resp : string) : world := {|
  connected := true;
  avail := fun _ => true;
  rx := bytes;
  answer := fun _ => resp;
  configure_err := fun _ _ => None;
  sleep_fault := fun _ => None
|}.

(** A target that never sends anything. *)
Definition mute : world := {|
  connected := true;
  avail := fun _ => false;
  rx := fun _ => 0;
  answer := fun _ => EmptyString;
  configure_err := fun _ _ => None;
  sleep_fault := fun _ => None
|}.

(** The reset settings pass [check_options]: no reset pin, or a pin in
    0..14 with a polarity that is [low] or [high] up to case. *)
Definition pin_settings_valid (o : options) : Prop :=
  match reset_pin o with
  | None => True
  | Some pin =>
    0 <= pin < 15
    /\ (Py.upper (reset_pol o) = "LOW"%string \/ Py.upper (reset_pol o) = "HIGH"%string)
  end.

(** The state that [init] leaves. *)
Definition after_init (o : options) (s : state) : state := {|
  self_reset_pin := reset_pin o;
  trace :=
    match reset_pin o with
    | Some pin =>
      [GpioStatus (if String.eqb (Py.upper (reset_pol o)) "LOW" then 1 else 0);
       GpioDirectionOutput; GpioInit pin]
    | None => []
    end ++ UartInit (uart_interface o) :: trace s
|}.

(** The state in which [run] enters the sweep. *)
Definition started (o : options) (s : state) : state :=
  push [Log HEADER PressCtrlC; Log HEADER Starting] (after_init o (push [Connect] s)).

(** The reading of "flushed at both layers before and after": in the
    history [h], both flushes occur before the [configure] call and both
    occur after it. *)
Definition flushed_around (h : list event) (baudrate : Z) : Prop :=
  exists pre post,
    h = pre ++ UartConfigure baudrate :: post
    /\ In SerialFlush pre /\ In UartFlush pre
    /\ In SerialFlush post /\ In UartFlush post.

(** The reading of "a degenerate range is reported": the run returns and
    its log holds an error. *)
Definition bad_range_reported (w : world) (o : options) (fuel : nat) : Prop :=
  (baudrate_inc o <= 0 \/ baudrate_min o >= baudrate_max o) ->
  exists s', run w o fuel fresh = (Ret tt, s') /\ (0 < calls is_error s')%nat.

(** Four letters followed by a NUL byte. *)
Definition four_then_nul (k : nat) : Z := if (k <? 4)%nat then 0x41 else 0x00.

(** A target sending the letter A for ever, an operator answering [resp];
    the states of the first turn of a sweep over 9600 and 19200. *)
Definition letters (resp : string) : world := talking (fun _ => 0x41) resp.
Definition turn_changed (resp : string) : state :=
  snd (change_baudrate (letters resp) 9600 fresh).
Definition turn_reset (resp : string) : state :=
  snd (reset_target (letters resp) default_options (turn_changed resp)).
Definition turn_probed (resp : string) : state :=
  snd (process_baudrate (letters resp) default_options 23 9600 (turn_reset resp)).

(** ** Reading a history *)

Definition rate_of (e : event) : list Z :=
  match e with UartConfigure b => [b] | _ => [] end.

(** The rates passed to [configure] among the calls [es], in the order
    of the calls. *)
Definition rates (es : list event) : list Z := rev (flat_map rate_of es).

Definition byte_of (e : event) : list Z :=
  match e with UartReceive b => [b] | _ => [] end.

(** The bytes returned by [receive(1)] among the calls [es], in the
    order they were read. *)
Definition received (es : list event) : list Z := rev (flat_map byte_of es).

Definition is_gpio (e : event) : bool :=
  match e with
  | GpioInit _ | GpioDirectionOutput | GpioStatus _ => true
  | _ => false
  end.

Definition is_uart (e : event) : bool :=
  match e with
  | UartInit _ | SerialFlush | UartConfigure _ | UartFlush | WaitBytes _
  | UartReceive _ | UartTransmit _ | UartPassthrough | SerialClose => true
  | _ => false
  end.

(** The level the reset line was last driven to. *)
Fixpoint line_level (tr : list event) : option Z :=
  match tr with
  | [] => None
  | GpioStatus v :: _ => Some v
  | _ :: tr' => line_level tr'
  end.

(** The level at which [init] parks the reset line. *)
Definition idle_level (o : options) : Z :=
  if String.eqb (Py.upper (reset_pol o)) "LOW" then 1 else 0.

(** The calls of [reset_target] (latest first) when [self.reset_pin] is
    [pin]. *)
Definition reset_events (o : options) (pin : option Z) : list event :=
  match pin with
  | Some _ =>
    Sleep ResetDelay
    :: (if String.eqb (Py.upper (reset_pol o)) "LOW"
        then [GpioStatus 1; Sleep ResetHold; GpioStatus 0]
        else [GpioStatus 0; Sleep ResetHold; GpioStatus 1])
    ++ [Log INFO ResetAttempt]
  | None => []
  end.

(** The level to which a reset pulse drives the line. *)
Definition active_level (o : options) : Z :=
  if String.eqb (Py.upper (reset_pol o)) "LOW" then 0 else 1.

(** Where [reset_target] breaks off when [self.reset_pin] is [pin]: the
    exception of the first of its two sleeps that fails, with the calls
    made until then (latest first). *)
Definition reset_failure (w : world) (o : options) (pin : option Z)
  : option (exn * list event) :=
  match pin with
  | None => None
  | Some _ =>
    match sleep_error w (reset_hold o) with
    | Some e =>
      Some (e, [Sleep ResetHold; GpioStatus (active_level o); Log INFO ResetAttempt])
    | None =>
      match sleep_error w (reset_delay o) with
      | Some e =>
        Some (e, [Sleep ResetDelay; GpioStatus (idle_level o); Sleep ResetHold;
                  GpioStatus (active_level o); Log INFO ResetAttempt])
      | None => None
      end
    end
  end.

(** [time.sleep] takes both reset times. *)
Definition sleeps_valid (w : world) (o : options) : Prop :=
  sleep_error w (reset_hold o) = None /\ sleep_error w (reset_delay o) = None.

(** The reset pulse cannot fail: no reset pin is set, or both reset
    times can be slept. *)
Definition reset_times_valid (w : world) (o : options) : Prop :=
  reset_pin o = None \/ sleeps_valid w o.

(** The calls of a turn of the sweep whose [configure] was refused. *)
Definition is_refused_event (e : event) : bool :=
  match e with
  | Log ERROR (Caught _) | UartConfigure _ | SerialFlush | Log INFO (Switching _) => true
  | _ => false
  end.

(** On a history in the order of the calls: every completed rate change
    (its last call is the protocol-layer flush) is followed at once by a
    whole reset pulse, to [active] for the hold time and back to [idle]
    for the delay, and no call of a reset pulse occurs anywhere else. *)
Fixpoint pulses_follow (active idle : Z) (h : list event) : bool :=
  match h with
  | [] => true
  | UartFlush :: h1 =>
    match h1 with
    | Log INFO ResetAttempt :: GpioStatus a :: Sleep ResetHold
      :: GpioStatus b :: Sleep ResetDelay :: h2 =>
      (a =? active) && (b =? idle) && pulses_follow active idle h2
    | _ => false
    end
  | Log INFO ResetAttempt :: _ => false
  | GpioStatus _ :: _ => false
  | Sleep ResetHold :: _ => false
  | Sleep ResetDelay :: _ => false
  | _ :: h' => pulses_follow active idle h'
  end.

(** The calls that [pulses_follow] looks at. *)
Definition is_pulse_call (e : event) : bool :=
  match e with
  | UartFlush | Log INFO ResetAttempt | GpioStatus _
  | Sleep ResetHold | Sleep ResetDelay => true
  | _ => false
  end.

Definition with_reset_times (o : options) (hold delay : Py.float) : options := {|
  uart_interface := uart_interface o; mode := mode o; reset_pin := reset_pin o;
  trigger := trigger o; reset_pol := reset_pol o;
  reset_hold := hold; reset_delay := delay;
  baudrate_min := baudrate_min o; baudrate_max := baudrate_max o;
  baudrate_inc := baudrate_inc o; baudrate_list := baudrate_list o;
  trigger_char := trigger_char o; detect := detect o
|}.

(** The calls of the hand-off (latest first) for the answer [resp]. *)
Definition handoff_events (o : options) (baudrate : Z) (resp : string) : list event :=
  (if String.eqb (Py.upper resp) "Y"
   then [Log USER_INTERACT PressUserButton; Miniterm]
        ++ (if detect o then [DetectOctowire] else [])
        ++ [SerialClose; UartPassthrough]
   else [])
  ++ [Prompt resp; Log RESULT (ValidFound baudrate); ProgressStop].

(** The shapes the calls of the probe loop can take (latest first), from
    the values [count] and [loop] of its two counters, together with the
    value returned. One rule per way through an iteration. *)
Inductive probe_trace (o : options) (baudrate : Z) :
  Z -> Z -> list event -> bool -> Prop :=
| pt_accept count loop x resp :
    is_valid_char x = true ->
    threshold <= count + 1 ->
    probe_trace o baudrate count loop
      (handoff_events o baudrate resp
       ++ [ProgressStatus x; UartReceive x; WaitBytes true])
      (negb (String.eqb (Py.upper resp) "C"))
| pt_member count loop x es r :
    is_valid_char x = true ->
    count + 1 < threshold ->
    probe_trace o baudrate (count + 1) loop es r ->
    probe_trace o baudrate count loop
      (es ++ [ProgressStatus x; UartReceive x; WaitBytes true]) r
| pt_reject count loop x :
    is_valid_char x = false ->
    probe_trace o baudrate count loop
      [Log WARNING (NotValid baudrate); ProgressStop;
       ProgressStatus x; UartReceive x; WaitBytes true] false
| pt_trigger count loop es r :
    trigger o = true ->
    loop < 3 ->
    probe_trace o baudrate count (loop + 1) es r ->
    probe_trace o baudrate count loop
      (es ++ [Sleep TriggerSettle; UartTransmit (trigger_char o);
              Log INFO Triggering; WaitBytes false]) r
| pt_timeout count loop :
    trigger o && (loop <? 3) = false ->
    probe_trace o baudrate count loop
      [Log WARNING (NoData baudrate); ProgressStop; WaitBytes false] false.

(** The calls of one turn of the sweep loop for the candidate
    [baudrate] (latest first) when [self.reset_pin] is [pin], and whether
    the loop breaks after it: either [configure] raised and the candidate
    was dropped, or the rate was changed, the target reset and probed. *)
Inductive turn_trace (o : options) (baudrate : Z) (pin : option Z) :
  list event -> bool -> Prop :=
| tt_refused e :
    turn_trace o baudrate pin
      [Log ERROR (Caught e); UartConfigure baudrate; SerialFlush;
       Log INFO (Switching baudrate)] false
| tt_probed es r :
    probe_trace o baudrate 0 0 es r ->
    turn_trace o baudrate pin
      (es ++ [ProgressStart] ++ reset_events o pin
          ++ [UartFlush; UartConfigure baudrate; SerialFlush;
              Log INFO (Switching baudrate)]) r.

(** The calls of a sweep over a list of candidates (latest first). *)
Inductive sweep_trace (o : options) (pin : option Z) :
  list Z -> list event -> Prop :=
| st_done : sweep_trace o pin [] []
| st_break baudrate rest es :
    turn_trace o baudrate pin es true ->
    sweep_trace o pin (baudrate :: rest) es
| st_next baudrate rest es es' :
    turn_trace o baudrate pin es false ->
    sweep_trace o pin rest es' ->
    sweep_trace o pin (baudrate :: rest) (es' ++ es).

(** The calls of [run] (latest first) from the connection to the start
    of the sweep. *)
Definition start_events (o : options) : list event :=
  [Log HEADER PressCtrlC; Log HEADER Starting]
  ++ match reset_pin o with
     | Some pin => [GpioStatus (idle_level o); GpioDirectionOutput; GpioInit pin]
     | None => []
     end
  ++ [UartInit (uart_interface o); Connect].

(** The mode is one of the two known ones, up to case. *)
Definition mode_known (o : options) : Prop :=
  Py.upper (mode o) = "INCREMENTAL"%string \/ Py.upper (mode o) = "LIST"%string.

(** The calls that end with an opened terminal session. *)
Definition ends_in_session (o : options) (es : list event) : Prop :=
  exists rest,
    es = [Log USER_INTERACT PressUserButton; Miniterm]
         ++ (if detect o then [DetectOctowire] else [])
         ++ [SerialClose; UartPassthrough] ++ rest
    /\ ~ In Miniterm rest.

(** The first call of a reset pulse, and the last call of a successful
    rate change. *)
Definition is_reset_attempt (e : event) : bool :=
  match e with Log INFO ResetAttempt => true | _ => false end.
Definition is_uart_flush (e : event) : bool :=
  match e with UartFlush => true | _ => false end.

(** The digit 1 written [n] times. *)
Fixpoint digit_run (n : nat) : string :=
  match n with
  | O => EmptyString
  | S n' => String "1" (digit_run n')
  end.

(** A target that sends a NUL byte at once, then nothing. *)
Definition one_nul : world := {|
  connected := true;
  avail := fun k => (k =? 0)%nat;
  rx := fun _ => 0;
  answer := fun _ => EmptyString;
  configure_err := fun _ _ => None;
  sleep_fault := fun _ => None
|}.

(** A target that sends nothing during its first three polling windows
    and the letter A from then on. *)
Definition late_talker : world := {|
  connected := true;
  avail := fun k => (3 <=? k)%nat;
  rx := fun _ => 0x41;
  answer := fun _ => EmptyString;
  configure_err := fun _ _ => None;
  sleep_fault := fun _ => None
|}.

(** An adapter that refuses its first [configure] call. *)
Definition refusing_once : world := {|
  connected := true;
  avail := fun _ => false;
  rx := fun _ => 0;
  answer := fun _ => EmptyString;
  configure_err := fun k _ => if (k =? 0)%nat then Some TransportError else None;
  sleep_fault := fun _ => None
|}.

Definition with_mode (o : options) (m : string) : options := {|
  uart_interface := uart_interface o; mode := m; reset_pin := reset_pin o;
  trigger := trigger o; reset_pol := reset_pol o;
  reset_hold := reset_hold o; reset_delay := reset_delay o;
  baudrate_min := baudrate_min o; baudrate_max := baudrate_max o;
  baudrate_inc := baudrate_inc o; baudrate_list := baudrate_list o;
  trigger_char := trigger_char o; detect := detect o
|}.

Definition with_reset (o : options) (pin : option Z) (pol : string) : options := {|
  uart_interface := uart_interface o; mode := mode o; reset_pin := pin;
  trigger := trigger o; reset_pol := pol;
  reset_hold := reset_hold o; reset_delay := reset_delay o;
  baudrate_min := baudrate_min o; baudrate_max := baudrate_max o;
  baudrate_inc := baudrate_inc o; baudrate_list := baudrate_list o;
  trigger_char := trigger_char o; detect := detect o
|}.

(** * Properties *)

(** ** The built-ins on examples *)

Example split_ex1 : Py.split "," "9600, 19200,,x" = ["9600"; " 19200"; EmptyString; "x"]%string.
Proof. reflexivity. Qed.
Example split_ex2 : Py.split "," EmptyString = [EmptyString].
Proof. reflexivity. Qed.
Example int_ex1 : Py.int " 1_000 " = Some 1000.
Proof. reflexivity. Qed.
Example int_ex2 : Py.int "-12" = Some (-12).
Proof. reflexivity. Qed.
Example int_ex3 : Py.int "abc" = None /\ Py.int EmptyString = None /\ Py.int "1__0" = None.
Proof. repeat split. Qed.
Example range3_ex : Py.range3 300 1300 300 = Some [300; 600; 900; 1200]
  /\ Py.range3 10 0 (-3) = Some [10; 7; 4; 1] /\ Py.range3 0 10 (-1) = Some [].
Proof. repeat split. Qed.
Example int_ex4 :
  Py.int (digit_run 4301) = None /\ Py.int (digit_run 4300) <> None
  /\ Py.int (String "-" (digit_run 4300)) <> None.
Proof. vm_compute. repeat split; discriminate. Qed.
Example decode_ex : Py.decode [0xE2; 0x82; 0xAC] = Some [0x20AC]
  /\ Py.decode [0x80] = None /\ Py.decode [0xC3] = None /\ Py.decode [0x41] = Some [0x41].
Proof. repeat split. Qed.

(** ** The acceptance alphabet *)

Lemma range2_In (a b x : Z) : a <= x < b -> In x (Py.range2 a b).
Proof.
  intros H. unfold Py.range2. apply in_map_iff.
  exists (Z.to_nat (x - a)). split; [lia|].
  apply in_seq. lia.
Qed.

Lemma is_valid_char_table :
  forallb (fun b => Bool.eqb (is_valid_char b) (plausible b)) (Py.range2 0 256) = true.
Proof. vm_compute. reflexivity. Qed.

Lemma is_valid_char_plausible (b : Z) :
  0 <= b < 256 -> is_valid_char b = plausible b.
Proof.
  intros H. pose proof is_valid_char_table as T.
  rewrite forallb_forall in T. apply eqb_prop, T, range2_In, H.
Qed.

(** C1: for a received byte value [b] in 0x00-0xFF, the membership test
    [byte in self.extended_asciitable] succeeds exactly when [b] lies in
    0x20-0x7E or is one of 0x0D, 0x0A, 0x09, 0x1B; every other byte value
    is rejected. *)
Theorem alphabet_membership_exact (b : Z) :
  0 <= b <= 0xFF ->
  (is_valid_char b = true <->
   0x20 <= b <= 0x7E \/ b = 0x0D \/ b = 0x0A \/ b = 0x09 \/ b = 0x1B).
Proof.
  intros H. rewrite is_valid_char_plausible by lia.
  unfold plausible, Py.between.
  rewrite !orb_true_iff, andb_true_iff, !Z.eqb_eq, !Z.leb_le. tauto.
Qed.

Lemma alphabet_membership_exact_witness :
  (is_valid_char 0x41 = true <->
   0x20 <= 0x41 <= 0x7E \/ 0x41 = 0x0D \/ 0x41 = 0x0A \/ 0x41 = 0x09 \/ 0x41 = 0x1B).
Proof. apply (alphabet_membership_exact 0x41). lia. Defined.

Example rejected_bytes :
  map is_valid_char [0x00; 0x7F; 0x80; 0x1A; 0xFF; 0x1F] = [false; false; false; false; false; false].
Proof. reflexivity. Qed.

Example accepted_bytes :
  map is_valid_char [0x20; 0x7E; 0x0D; 0x0A; 0x09; 0x1B] = [true; true; true; true; true; true].
Proof. reflexivity. Qed.

(** ** Stepping the probe loop *)

Lemma calls_push p es s :
  calls p (push es s) = (List.length (filter p es) + calls p s)%nat.
Proof. unfold calls, push; simpl. now rewrite filter_app, length_app. Qed.

Lemma push_push es1 es2 s : push es1 (push es2 s) = push (es1 ++ es2) s.
Proof. unfold push; simpl. now rewrite app_assoc. Qed.

Lemma push_nil s : push [] s = s.
Proof. now destruct s. Qed.

Section Probe.

Variable w : world.
Variable o : options.

(** One iteration that receives a byte of the alphabet. *)
Lemma loop_member fuel baudrate c l s :
  avail w (calls is_poll s) = true ->
  is_valid_char (rx w (calls is_read s)) = true ->
  process_loop w o (S fuel) baudrate c l s =
  let s' := push [ProgressStatus (rx w (calls is_read s));
                  UartReceive (rx w (calls is_read s)); WaitBytes true] s in
  if threshold <=? c + 1 then on_threshold w o baudrate s'
  else process_loop w o fuel baudrate (c + 1) l s'.
Proof.
  intros Ha Hv. cbn [process_loop].
  unfold bind at 1. unfold wait_bytes at 1. unfold bind at 1, get at 1.
  unfold bind at 1, emit at 1, ret at 1. rewrite Ha.
  unfold bind at 1. unfold uart_receive1 at 1. unfold bind at 1, get at 1.
  unfold bind at 1, emit at 1, ret at 1.
  change (calls is_read _) with (calls is_read s).
  unfold bind at 1, emit at 1. rewrite Hv.
  destruct (threshold <=? c + 1); reflexivity.
Qed.

(** One iteration that receives a byte outside the alphabet. *)
Lemma loop_non_member fuel baudrate c l s :
  avail w (calls is_poll s) = true ->
  is_valid_char (rx w (calls is_read s)) = false ->
  process_loop w o (S fuel) baudrate c l s =
  (Ret false,
   push [Log WARNING (NotValid baudrate); ProgressStop;
         ProgressStatus (rx w (calls is_read s));
         UartReceive (rx w (calls is_read s)); WaitBytes true] s).
Proof.
  intros Ha Hv. cbn [process_loop].
  unfold bind at 1. unfold wait_bytes at 1. unfold bind at 1, get at 1.
  unfold bind at 1, emit at 1, ret at 1. rewrite Ha.
  unfold bind at 1. unfold uart_receive1 at 1. unfold bind at 1, get at 1.
  unfold bind at 1, emit at 1, ret at 1.
  change (calls is_read _) with (calls is_read s).
  unfold bind at 1, emit at 1. rewrite Hv. reflexivity.
Qed.

(** One iteration whose polling window elapses. *)
Lemma loop_silent fuel baudrate c l s :
  avail w (calls is_poll s) = false ->
  process_loop w o (S fuel) baudrate c l s =
  if trigger o && (l <? 3)
  then process_loop w o fuel baudrate c (l + 1)
         (push [Sleep TriggerSettle; UartTransmit (trigger_char o);
                Log INFO Triggering; WaitBytes false] s)
  else (Ret false,
        push [Log WARNING (NoData baudrate); ProgressStop; WaitBytes false] s).
Proof.
  intros Ha. cbn [process_loop].
  unfold bind at 1. unfold wait_bytes at 1. unfold bind at 1, get at 1.
  unfold bind at 1, emit at 1, ret at 1. rewrite Ha.
  destruct (trigger o && (l <? 3)); reflexivity.
Qed.

(** The hand-off after the threshold: it always returns, and stops the
    sweep unless the answer is [C] up to case. *)
Lemma on_threshold_eq baudrate s :
  let resp := answer w (calls is_prompt s) in
  on_threshold w o baudrate s =
  (Ret (negb (String.eqb (Py.upper resp) "C")),
   push ((if String.eqb (Py.upper resp) "Y"
          then [Log USER_INTERACT PressUserButton; Miniterm]
               ++ (if detect o then [DetectOctowire] else [])
               ++ [SerialClose; UartPassthrough]
          else [])
         ++ [Prompt resp; Log RESULT (ValidFound baudrate); ProgressStop]) s).
Proof.
  intros resp. unfold on_threshold.
  unfold bind at 1, emit at 1. unfold bind at 1, logger at 1, emit at 1.
  unfold bind at 1, prompt at 1. unfold bind at 1, get at 1.
  unfold bind at 1, emit at 1, ret at 1.
  change (calls is_prompt _) with (calls is_prompt s). fold resp.
  destruct (String.eqb (Py.upper resp) "Y") eqn:HY.
  - assert (HC : String.eqb (Py.upper resp) "C" = false)
      by (apply String.eqb_eq in HY; now rewrite HY).
    rewrite HC. unfold uart_pt_miniterm. destruct (detect o); reflexivity.
  - destruct (String.eqb (Py.upper resp) "C"); reflexivity.
Qed.

End Probe.

(** ** The probe on given input *)

Lemma tally_app p es1 es2 : tally p (es1 ++ es2) = (tally p es1 + tally p es2)%nat.
Proof. unfold tally. now rewrite filter_app, length_app. Qed.

Lemma calls_push_tally p es s : calls p (push es s) = (tally p es + calls p s)%nat.
Proof. apply calls_push. Qed.

Lemma verdict_of_app_quiet es tr :
  verdict_of es = None -> verdict_of (es ++ tr) = verdict_of tr.
Proof.
  induction es as [|e es IH]; simpl; [reflexivity|].
  destruct e as [l m| | | | | | | | | | | | | | | | | | | |]; try exact IH.
  destruct l, m; try exact IH; discriminate.
Qed.

Section ProbeRuns.

Variable w : world.
Variable o : options.

(** [n] more bytes of the alphabet, available in [n] consecutive windows,
    from a point where [n] more are needed, lead to the hand-off. *)
Lemma loop_members baudrate l n : forall fuel c s,
  (0 < n <= fuel)%nat ->
  c + Z.of_nat n = threshold ->
  (forall k, (k < n)%nat ->
     avail w (calls is_poll s + k) = true /\
     is_valid_char (rx w (calls is_read s + k)) = true) ->
  exists es,
    process_loop w o fuel baudrate c l s = on_threshold w o baudrate (push es s)
    /\ tally is_poll es = n /\ tally is_read es = n
    /\ tally is_transmit es = O /\ tally is_prompt es = O.
Proof.
  induction n as [|n IH]; intros fuel c s Hf Hc H; [lia|].
  destruct fuel as [|fuel]; [lia|].
  destruct (H O ltac:(lia)) as [Ha Hv]. rewrite !Nat.add_0_r in Ha, Hv.
  rewrite (loop_member w o _ _ _ _ _ Ha Hv). cbv zeta.
  destruct n as [|n].
  - replace (threshold <=? c + 1) with true by (symmetry; apply Z.leb_le; lia).
    eexists; split; [reflexivity|]. repeat split.
  - replace (threshold <=? c + 1) with false by (symmetry; apply Z.leb_gt; lia).
    destruct (IH fuel (c + 1)
                (push [ProgressStatus (rx w (calls is_read s));
                       UartReceive (rx w (calls is_read s)); WaitBytes true] s))
      as (es & E & P1 & P2 & P3 & P4).
    + lia.
    + lia.
    + intros k Hk. rewrite !calls_push_tally. cbn [tally filter is_poll is_read List.length].
      specialize (H (S k) ltac:(lia)).
      replace (1 + calls is_poll s + k)%nat with (calls is_poll s + S k)%nat by lia.
      replace (1 + calls is_read s + k)%nat with (calls is_read s + S k)%nat by lia.
      exact H.
    + rewrite E, push_push. eexists; split; [reflexivity|].
      rewrite !tally_app, P1, P2, P3, P4. cbn. repeat split; lia.
Qed.

(** [k] bytes of the alphabet, too few to reach the threshold, followed
    by a byte outside it. *)
Lemma loop_members_then_bad baudrate l k : forall fuel c s,
  (k < fuel)%nat ->
  c + Z.of_nat k < threshold ->
  (forall i, (i < k)%nat ->
     avail w (calls is_poll s + i) = true /\
     is_valid_char (rx w (calls is_read s + i)) = true) ->
  avail w (calls is_poll s + k) = true ->
  is_valid_char (rx w (calls is_read s + k)) = false ->
  exists es,
    process_loop w o fuel baudrate c l s =
      (Ret false, push (Log WARNING (NotValid baudrate) :: es) s)
    /\ tally is_poll es = S k /\ tally is_read es = S k
    /\ tally is_transmit es = O /\ tally is_prompt es = O.
Proof.
  induction k as [|k IH]; intros fuel c s Hf Hc H Ha Hv;
    (destruct fuel as [|fuel]; [lia|]).
  - rewrite !Nat.add_0_r in Ha, Hv.
    rewrite (loop_non_member w o _ _ _ _ _ Ha Hv).
    eexists; split; [reflexivity|]. repeat split.
  - destruct (H O ltac:(lia)) as [Ha0 Hv0]. rewrite !Nat.add_0_r in Ha0, Hv0.
    rewrite (loop_member w o _ _ _ _ _ Ha0 Hv0). cbv zeta.
    replace (threshold <=? c + 1) with false by (symmetry; apply Z.leb_gt; lia).
    destruct (IH fuel (c + 1)
                (push [ProgressStatus (rx w (calls is_read s));
                       UartReceive (rx w (calls is_read s)); WaitBytes true] s))
      as (es & E & P1 & P2 & P3 & P4).
    + lia.
    + lia.
    + intros i Hi. rewrite !calls_push_tally. cbn [tally filter is_poll is_read List.length].
      specialize (H (S i) ltac:(lia)).
      replace (1 + calls is_poll s + i)%nat with (calls is_poll s + S i)%nat by lia.
      replace (1 + calls is_read s + i)%nat with (calls is_read s + S i)%nat by lia.
      exact H.
    + rewrite !calls_push_tally. cbn [tally filter is_poll List.length].
      now replace (1 + calls is_poll s + k)%nat with (calls is_poll s + S k)%nat by lia.
    + rewrite !calls_push_tally. cbn [tally filter is_read List.length].
      now replace (1 + calls is_read s + k)%nat with (calls is_read s + S k)%nat by lia.
    + rewrite E, push_push. eexists; split; [reflexivity|].
      rewrite !tally_app, P1, P2, P3, P4. cbn. repeat split; lia.
Qed.

Lemma process_baudrate_unfold fuel baudrate s :
  process_baudrate w o fuel baudrate s =
  process_loop w o fuel baudrate 0 0 (push [ProgressStart] s).
Proof. reflexivity. Qed.

(** The loop returns within [19 - count] further accepted bytes, [3 - loop]
    further triggers and one closing iteration. *)
Lemma process_loop_returns baudrate : forall fuel c l s,
  (Z.to_nat (threshold - 1 - c) + Z.to_nat (3 - l) < fuel)%nat ->
  exists r es, process_loop w o fuel baudrate c l s = (Ret r, push es s).
Proof.
  induction fuel as [|fuel IH]; intros c l s Hf; [lia|].
  destruct (avail w (calls is_poll s)) eqn:Ha.
  - destruct (is_valid_char (rx w (calls is_read s))) eqn:Hv.
    + rewrite (loop_member w o _ _ _ _ _ Ha Hv). cbv zeta.
      destruct (threshold <=? c + 1) eqn:Ht.
      * rewrite on_threshold_eq. cbv zeta. rewrite push_push. eauto.
      * apply Z.leb_gt in Ht. unfold threshold in *.
        edestruct (IH (c + 1) l) as (r & es & E); [lia|].
        rewrite E, push_push. eauto.
    + rewrite (loop_non_member w o _ _ _ _ _ Ha Hv). eauto.
  - rewrite (loop_silent w o _ _ _ _ _ Ha).
    destruct (trigger o && (l <? 3)) eqn:Ht.
    + apply andb_true_iff in Ht. destruct Ht as [_ Ht]. apply Z.ltb_lt in Ht.
      edestruct (IH c (l + 1)) as (r & es & E); [lia|].
      rewrite E, push_push. eauto.
    + eauto.
Qed.

(** Twenty-three iterations are enough for any input. *)
Lemma process_baudrate_returns fuel baudrate s :
  (23 <= fuel)%nat ->
  exists r es, process_baudrate w o fuel baudrate s = (Ret r, push es s).
Proof.
  intros Hf. rewrite process_baudrate_unfold.
  destruct (process_loop_returns baudrate fuel 0 0 (push [ProgressStart] s))
    as (r & es & E); [cbn; lia|].
  rewrite E, push_push. eauto.
Qed.

(** C2: when the next 20 polling windows each deliver a byte and the next
    20 received bytes all belong to the acceptance alphabet, the probe
    reaches [Accepted], having read exactly 20 bytes in 20 windows and
    transmitted nothing; it reads no byte after the twentieth. *)
Theorem twenty_members_accepted fuel baudrate s :
  (20 <= fuel)%nat ->
  (forall k, (k < 20)%nat ->
     avail w (calls is_poll s + k) = true /\
     is_valid_char (rx w (calls is_read s + k)) = true) ->
  exists s',
    process_baudrate w o fuel baudrate s =
      (Ret (negb (String.eqb (Py.upper (answer w (calls is_prompt s))) "C")), s')
    /\ verdict s' = Some Accepted
    /\ calls is_read s' = (calls is_read s + 20)%nat
    /\ calls is_poll s' = (calls is_poll s + 20)%nat
    /\ calls is_transmit s' = calls is_transmit s.
Proof.
  intros Hf H. rewrite process_baudrate_unfold.
  destruct (loop_members baudrate 0 20 fuel 0 (push [ProgressStart] s))
    as (es & E & P1 & P2 & P3 & P4); [lia|reflexivity|exact H|].
  rewrite E, on_threshold_eq. cbv zeta. rewrite !push_push.
  rewrite !calls_push_tally, !tally_app, P4. cbn [tally filter is_prompt List.length Nat.add].
  eexists; split; [reflexivity|].
  rewrite !calls_push_tally, !tally_app, P1, P2, P3.
  repeat split.
  - unfold verdict, push. cbn [trace]. rewrite <- !app_assoc.
    rewrite verdict_of_app_quiet; [reflexivity|].
    destruct (String.eqb _ "Y"); [destruct (detect o)|]; reflexivity.
  - destruct (String.eqb _ "Y"); [destruct (detect o)|]; cbn; lia.
  - destruct (String.eqb _ "Y"); [destruct (detect o)|]; cbn; lia.
  - destruct (String.eqb _ "Y"); [destruct (detect o)|]; cbn; lia.
Qed.

(** C3: when the first byte outside the acceptance alphabet arrives after
    [k < 20] bytes of the alphabet, the probe returns [False] with the
    verdict [Rejected] right after reading that byte: it has read exactly
    [k + 1] bytes, transmitted no trigger and asked the operator nothing,
    whatever the [k] bytes before were. *)
Theorem first_non_member_rejected fuel baudrate s (k : nat) :
  (k < 20)%nat ->
  (k < fuel)%nat ->
  (forall i, (i < k)%nat ->
     avail w (calls is_poll s + i) = true /\
     is_valid_char (rx w (calls is_read s + i)) = true) ->
  avail w (calls is_poll s + k) = true ->
  is_valid_char (rx w (calls is_read s + k)) = false ->
  exists s',
    process_baudrate w o fuel baudrate s = (Ret false, s')
    /\ verdict s' = Some Rejected
    /\ calls is_read s' = (calls is_read s + k + 1)%nat
    /\ calls is_poll s' = (calls is_poll s + k + 1)%nat
    /\ calls is_transmit s' = calls is_transmit s
    /\ calls is_prompt s' = calls is_prompt s.
Proof.
  intros Hk Hf H Ha Hv. rewrite process_baudrate_unfold.
  destruct (loop_members_then_bad baudrate 0 k fuel 0 (push [ProgressStart] s))
    as (es & E & P1 & P2 & P3 & P4);
    [lia|unfold threshold; lia|exact H|exact Ha|exact Hv|].
  rewrite E, !push_push. eexists; split; [reflexivity|].
  rewrite !calls_push_tally.
  change (Log WARNING (NotValid baudrate) :: es) with ([Log WARNING (NotValid baudrate)] ++ es).
  rewrite <- !app_assoc, !tally_app, P1, P2, P3, P4.
  repeat split; cbn; lia.
Qed.

(** With triggering enabled, [n] triggers left and a silent line, the
    loop transmits [n] times and gives up in the window after. *)
Lemma loop_silence baudrate c n : forall fuel l s,
  trigger o = true ->
  l + Z.of_nat n = 3 ->
  (n < fuel)%nat ->
  (forall k, avail w (calls is_poll s + k) = false) ->
  process_loop w o fuel baudrate c l s =
  (Ret false,
   push ([Log WARNING (NoData baudrate); ProgressStop; WaitBytes false]
         ++ List.concat (repeat [Sleep TriggerSettle; UartTransmit (trigger_char o);
                            Log INFO Triggering; WaitBytes false] n)) s).
Proof.
  induction n as [|n IH]; intros fuel l s Ht Hl Hf H;
    (destruct fuel as [|fuel]; [lia|]);
    pose proof (H 0%nat) as H0; rewrite Nat.add_0_r in H0;
    rewrite loop_silent by exact H0; rewrite Ht; cbn [andb].
  - replace (l <? 3) with false by (symmetry; apply Z.ltb_ge; lia). reflexivity.
  - replace (l <? 3) with true by (symmetry; apply Z.ltb_lt; lia).
    rewrite IH; [|exact Ht|lia|lia|].
    + rewrite push_push. f_equal. f_equal.
      change (repeat ?b (S n)) with (b :: repeat b n).
      rewrite <- app_assoc. cbn [List.concat]. f_equal.
      clear. induction n as [|n IHn]; [reflexivity|].
      cbn [repeat List.concat]. rewrite <- app_assoc, <- IHn. reflexivity.
    + intros k. rewrite calls_push_tally. cbn [tally filter is_poll List.length].
      replace (1 + calls is_poll s + k)%nat with (calls is_poll s + S k)%nat by lia.
      apply H.
Qed.

(** C4: when no byte shows up in any polling window, the probe ends with
    the verdict [Timeout] and returns [False]; with triggering enabled it
    has by then transmitted the trigger bytes exactly three times, one
    after each of the first three of its four windows; with triggering
    disabled it has polled exactly one window and transmitted nothing. *)
Theorem silent_target_times_out fuel baudrate s :
  (4 <= fuel)%nat ->
  (forall k, avail w (calls is_poll s + k) = false) ->
  exists s',
    process_baudrate w o fuel baudrate s = (Ret false, s')
    /\ verdict s' = Some Timeout
    /\ calls is_read s' = calls is_read s
    /\ (trigger o = true ->
        s' = push ([Log WARNING (NoData baudrate); ProgressStop; WaitBytes false]
                   ++ [Sleep TriggerSettle; UartTransmit (trigger_char o);
                       Log INFO Triggering; WaitBytes false]
                   ++ [Sleep TriggerSettle; UartTransmit (trigger_char o);
                       Log INFO Triggering; WaitBytes false]
                   ++ [Sleep TriggerSettle; UartTransmit (trigger_char o);
                       Log INFO Triggering; WaitBytes false]
                   ++ [ProgressStart]) s
        /\ calls is_transmit s' = (calls is_transmit s + 3)%nat
        /\ calls is_poll s' = (calls is_poll s + 4)%nat)
    /\ (trigger o = false ->
        s' = push [Log WARNING (NoData baudrate); ProgressStop; WaitBytes false;
                   ProgressStart] s
        /\ calls is_transmit s' = calls is_transmit s
        /\ calls is_poll s' = (calls is_poll s + 1)%nat).
Proof.
  intros Hf H. rewrite process_baudrate_unfold.
  destruct (trigger o) eqn:Ht.
  - rewrite (loop_silence baudrate 0 3 fuel 0 (push [ProgressStart] s) Ht);
      [|reflexivity|lia|exact H].
    rewrite push_push. eexists; split; [reflexivity|].
    repeat split; try discriminate; rewrite calls_push_tally; cbn; lia.
  - destruct fuel as [|fuel]; [lia|].
    pose proof (H 0%nat) as H0. rewrite Nat.add_0_r in H0.
    rewrite loop_silent by exact H0. rewrite Ht. cbn [andb].
    rewrite push_push. eexists; split; [reflexivity|].
    repeat split; try discriminate; rewrite calls_push_tally; cbn; lia.
Qed.

End ProbeRuns.

(** ** Where a probe can end *)

Section Outcomes.

Variable w : world.
Variable o : options.

Lemma on_threshold_facts baudrate s r s' :
  on_threshold w o baudrate s = (Ret r, s') ->
  let resp := Py.upper (answer w (calls is_prompt s)) in
  r = negb (String.eqb resp "C")
  /\ verdict s' = Some Accepted
  /\ calls is_miniterm s' =
     (calls is_miniterm s + if String.eqb resp "Y" then 1 else 0)%nat.
Proof.
  rewrite on_threshold_eq. cbv zeta. intros E. inversion E; subst; clear E.
  rewrite calls_push_tally.
  destruct (String.eqb _ "Y"); [destruct (detect o)|]; repeat split; cbn; lia.
Qed.

(** A probe that returns either went through the hand-off, or returned
    [False] on a rejected byte or a time-out without asking anything. *)
Lemma process_loop_outcome baudrate : forall fuel c l s r s',
  process_loop w o fuel baudrate c l s = (Ret r, s') ->
  (exists s1, on_threshold w o baudrate s1 = (Ret r, s')
              /\ calls is_prompt s1 = calls is_prompt s
              /\ calls is_miniterm s1 = calls is_miniterm s)
  \/ (r = false
      /\ (verdict s' = Some Rejected \/ verdict s' = Some Timeout)
      /\ calls is_prompt s' = calls is_prompt s
      /\ calls is_miniterm s' = calls is_miniterm s).
Proof.
  induction fuel as [|fuel IH]; intros c l s r s' E; [discriminate|].
  destruct (avail w (calls is_poll s)) eqn:Ha.
  - destruct (is_valid_char (rx w (calls is_read s))) eqn:Hv.
    + rewrite (loop_member w o _ _ _ _ _ Ha Hv) in E. cbv zeta in E.
      destruct (threshold <=? c + 1).
      * left. eexists; split; [exact E|]. split; reflexivity.
      * apply IH in E. destruct E as [(s1 & E & P & Q)|(R & V & P & Q)].
        -- left. exists s1. repeat split; assumption.
        -- right. repeat split; assumption.
    + rewrite (loop_non_member w o _ _ _ _ _ Ha Hv) in E.
      inversion E; subst. right. repeat split. now left.
  - rewrite (loop_silent w o _ _ _ _ _ Ha) in E.
    destruct (trigger o && (l <? 3)).
    + apply IH in E. destruct E as [(s1 & E & P & Q)|(R & V & P & Q)].
      * left. exists s1. repeat split; assumption.
      * right. repeat split; assumption.
    + inversion E; subst. right. repeat split. now right.
Qed.

(** What an accepted probe returns and whether it opened a terminal. *)
Lemma accepted_probe fuel baudrate s r s' :
  process_baudrate w o fuel baudrate s = (Ret r, s') ->
  verdict s' = Some Accepted ->
  let resp := Py.upper (answer w (calls is_prompt s)) in
  r = negb (String.eqb resp "C")
  /\ calls is_miniterm s' =
     (calls is_miniterm s + if String.eqb resp "Y" then 1 else 0)%nat.
Proof.
  rewrite process_baudrate_unfold. intros E V.
  apply process_loop_outcome in E.
  destruct E as [(s1 & E & P & Q)|(_ & [V'|V'] & _)];
    [|rewrite V in V'; discriminate..].
  apply on_threshold_facts in E. cbv zeta in E. destruct E as (R & _ & Mt).
  rewrite P, Q in *. split; assumption.
Qed.

Lemma change_baudrate_eq baudrate s :
  change_baudrate w baudrate s =
  match configure_err w (calls is_configure s) baudrate with
  | None =>
    (Ret true, push [UartFlush; UartConfigure baudrate; SerialFlush;
                     Log INFO (Switching baudrate)] s)
  | Some e =>
    (Ret false, push [Log ERROR (Caught e); UartConfigure baudrate; SerialFlush;
                      Log INFO (Switching baudrate)] s)
  end.
Proof.
  unfold change_baudrate, try_except, uart_configure, logger, bind, emit, get, ret.
  cbn [fst snd trace self_reset_pin].
  change (calls is_configure _) with (calls is_configure s).
  destruct (configure_err w (calls is_configure s) baudrate); reflexivity.
Qed.

Lemma reset_target_eq s :
  reset_target w o s =
  match reset_failure w o (self_reset_pin s) with
  | Some (e, es) => (Raise e, push es s)
  | None => (Ret tt, push (reset_events o (self_reset_pin s)) s)
  end.
Proof.
  unfold reset_target, reset_failure, reset_events, time_sleep, active_level,
    idle_level, bind, get, logger, emit, raise, ret.
  destruct (self_reset_pin s) eqn:P; [|now rewrite push_nil].
  destruct (String.eqb _ "LOW"); cbn [trace self_reset_pin];
    destruct (sleep_error w (reset_hold o)); cbn [trace self_reset_pin];
    try reflexivity;
    destruct (sleep_error w (reset_delay o)); reflexivity.
Qed.

(** One turn of the sweep loop. *)
Lemma sweep_cons fuel baudrate rest s0 s1 s2 r s3 :
  change_baudrate w baudrate s0 = (Ret true, s1) ->
  reset_target w o s1 = (Ret tt, s2) ->
  process_baudrate w o fuel baudrate s2 = (Ret r, s3) ->
  sweep w o fuel (baudrate :: rest) s0 =
  if r then (Ret tt, s3) else sweep w o fuel rest s3.
Proof.
  intros E1 E2 E3. cbn [sweep].
  unfold bind at 1. rewrite E1.
  unfold bind at 1. rewrite E2.
  unfold bind at 1. rewrite E3.
  destruct r; reflexivity.
Qed.

(** A sweep whose reset pulses cannot fail returns. *)
Lemma sweep_returns fuel : forall candidates s,
  (23 <= fuel)%nat ->
  reset_failure w o (self_reset_pin s) = None ->
  exists es, sweep w o fuel candidates s = (Ret tt, push es s).
Proof.
  induction candidates as [|b rest IH]; intros s Hf Hr.
  - exists []. now rewrite push_nil.
  - cbn [sweep]. unfold bind at 1. rewrite change_baudrate_eq.
    destruct (configure_err w (calls is_configure s) b).
    + destruct (IH (push [Log ERROR (Caught e); UartConfigure b; SerialFlush;
                          Log INFO (Switching b)] s) Hf Hr) as (es & E).
      rewrite E, push_push. eauto.
    + unfold bind at 1. rewrite reset_target_eq.
      cbn [self_reset_pin push]. rewrite Hr.
      unfold bind at 1.
      match goal with |- context [process_baudrate w o fuel b ?st] =>
        destruct (process_baudrate_returns w o fuel b st Hf) as (r & es & E)
      end.
      rewrite E, !push_push. destruct r; [unfold ret; now eauto|]. cbv beta iota.
      match goal with |- context [sweep w o fuel rest ?st] =>
        destruct (IH st Hf Hr) as (es' & E')
      end.
      rewrite E', push_push. eauto.
Qed.

(** A sweep with a reset pulse that fails never gets to a probe: it
    drops the candidates that [configure] refuses and breaks off in the
    reset pulse of the first candidate whose rate was taken. *)
Lemma sweep_reset_fails fuel e res : forall candidates s,
  reset_failure w o (self_reset_pin s) = Some (e, res) ->
  exists r es es0,
    sweep w o fuel candidates s = (r, push es s)
    /\ Forall (fun x => is_refused_event x = true) es0
    /\ (r = Ret tt /\ es = es0
        \/ exists b,
             r = Raise e
             /\ es = res ++ [UartFlush; UartConfigure b; SerialFlush;
                             Log INFO (Switching b)] ++ es0).
Proof.
  induction candidates as [|b rest IH]; intros s Hr.
  - exists (Ret tt), [], []. rewrite push_nil. repeat split; auto.
  - cbn [sweep]. unfold bind at 1. rewrite change_baudrate_eq.
    destruct (configure_err w (calls is_configure s) b) as [e'|].
    + destruct (IH (push [Log ERROR (Caught e'); UartConfigure b; SerialFlush;
                          Log INFO (Switching b)] s) Hr)
        as (r & es & es0 & E & F & H).
      rewrite E, push_push.
      exists r, (es ++ [Log ERROR (Caught e'); UartConfigure b; SerialFlush;
                        Log INFO (Switching b)]),
             (es0 ++ [Log ERROR (Caught e'); UartConfigure b; SerialFlush;
                      Log INFO (Switching b)]).
      split; [reflexivity|].
      split; [apply Forall_app; split; [exact F|repeat constructor]|].
      destruct H as [[-> ->]|(b' & -> & ->)]; [now left|].
      right. exists b'. split; [reflexivity|]. now rewrite <- !app_assoc.
    + unfold bind at 1. rewrite reset_target_eq.
      cbn [self_reset_pin push]. rewrite Hr, push_push.
      exists (Raise e), (res ++ [UartFlush; UartConfigure b; SerialFlush;
                                 Log INFO (Switching b)]), [].
      split; [reflexivity|]. split; [constructor|].
      right. exists b. split; [reflexivity|]. now rewrite app_nil_r.
Qed.

(** Every sweep ends, with or without an exception. *)
Lemma sweep_ends fuel candidates s :
  (23 <= fuel)%nat ->
  exists r es,
    sweep w o fuel candidates s = (r, push es s)
    /\ (r = Ret tt \/ exists e, r = Raise e).
Proof.
  intros Hf. destruct (reset_failure w o (self_reset_pin s)) as [[e res]|] eqn:Hr.
  - destruct (sweep_reset_fails fuel e res candidates s Hr)
      as (r & es & es0 & E & _ & [[-> _]|(b & -> & _)]); rewrite E; eauto 6.
  - destruct (sweep_returns fuel candidates s Hf Hr) as (es & E).
    rewrite E. eauto.
Qed.

End Outcomes.

(** ** Validation and the run *)

Lemma check_options_passes o s :
  pin_settings_valid o ->
  Py.upper (mode o) = "INCREMENTAL"%string \/ Py.upper (mode o) = "LIST"%string ->
  check_options o s = (Ret true, s).
Proof.
  intros Hp Hm. unfold check_options, pin_settings_valid in *.
  unfold bind at 1.
  assert (Hs : forall f : string * list string, (let '(x, y) := f in x :: y) <> []).
  { intros [x y]; discriminate. }
  assert (Hl : exists x l, map Py.strip (Py.split "," (baudrate_list o)) = x :: l).
  { unfold Py.split. destruct (Py.split_fields "," (baudrate_list o)). cbn. eauto. }
  destruct Hl as (x & l & Hl).
  destruct (reset_pin o) as [pin|].
  - destruct Hp as [Hr Hq].
    assert (E1 : existsb (String.eqb (Py.upper (reset_pol o))) ["LOW"; "HIGH"]%string = true)
      by (destruct Hq as [-> | ->]; reflexivity).
    assert (E2 : existsb (Z.eqb pin) (Py.range2 0 15) = true).
    { apply existsb_exists. exists pin. split; [apply range2_In; lia|apply Z.eqb_refl]. }
    rewrite E1, E2. cbn [negb]. unfold ret at 1. cbn [negb].
    destruct Hm as [-> | ->]; cbn [existsb String.eqb Ascii.eqb Bool.eqb orb negb]; [reflexivity|].
    unfold try_except. rewrite Hl. reflexivity.
  - unfold ret at 1. cbn [negb].
    destruct Hm as [-> | ->]; cbn [existsb String.eqb Ascii.eqb Bool.eqb orb negb]; [reflexivity|].
    unfold try_except. rewrite Hl. reflexivity.
Qed.

Lemma init_eq o s : init o s = (Ret tt, after_init o s).
Proof.
  unfold init, after_init, bind, emit, set_reset_pin, ret.
  destruct (reset_pin o); [|reflexivity].
  destruct (String.eqb _ "LOW"); reflexivity.
Qed.

Lemma calls_error_started o s : calls is_error (started o s) = calls is_error s.
Proof.
  unfold started, after_init, calls, push. cbn [trace].
  destruct (reset_pin o); reflexivity.
Qed.

Lemma bind_eq {A B} (m : M A) (k : A -> M B) s a s' :
  m s = (Ret a, s') -> bind m k s = k a s'.
Proof. intros E. unfold bind. now rewrite E. Qed.

Lemma bind_emit {B} e (k : unit -> M B) s : bind (emit e) k s = k tt (push [e] s).
Proof. reflexivity. Qed.

Lemma run_start w o fuel s :
  connected w = true ->
  pin_settings_valid o ->
  Py.upper (mode o) = "INCREMENTAL"%string \/ Py.upper (mode o) = "LIST"%string ->
  run w o fuel s =
  try_except
    (if String.eqb (Py.upper (mode o)) "INCREMENTAL" then incremental_mode w o fuel
     else if String.eqb (Py.upper (mode o)) "LIST" then list_mode w o fuel
     else ret tt)
    (fun err => logger ERROR (Caught err)) (started o s).
Proof.
  intros Hc Hp Hm. unfold run. rewrite bind_emit.
  rewrite Hc. cbn [negb]. unfold try_except.
  rewrite (bind_eq _ _ _ _ _ (check_options_passes o _ Hp Hm)).
  rewrite (bind_eq _ _ _ _ _ (init_eq o _)).
  unfold logger. rewrite !bind_emit, !push_push.
  reflexivity.
Qed.

Lemma try_except_ret {A} (m : M A) h s a s' :
  m s = (Ret a, s') -> try_except m h s = (Ret a, s').
Proof. intros E. unfold try_except. now rewrite E. Qed.

Lemma try_except_raise {A} (m : M A) h s e s' :
  m s = (Raise e, s') -> try_except m h s = h e s'.
Proof. intros E. unfold try_except. now rewrite E. Qed.

(** In incremental mode the run either logs the [ValueError] of a zero
    step or sweeps the range, logging what the sweep raises. *)
Lemma run_incremental w o fuel s :
  connected w = true ->
  pin_settings_valid o ->
  Py.upper (mode o) = "INCREMENTAL"%string ->
  (23 <= fuel)%nat ->
  run w o fuel s =
  match Py.range3 (baudrate_min o) (baudrate_max o) (baudrate_inc o) with
  | None => (Ret tt, push [Log ERROR (Caught ValueError)] (started o s))
  | Some candidates =>
    try_except (sweep w o fuel candidates)
               (fun err => logger ERROR (Caught err)) (started o s)
  end.
Proof.
  intros Hc Hp Hm Hf. rewrite run_start by auto.
  rewrite Hm. cbn [String.eqb Ascii.eqb Bool.eqb andb].
  unfold incremental_mode.
  destruct (Py.range3 _ _ _) as [cands|]; reflexivity.
Qed.

(** In list mode the run either logs the [ValueError] of a field that is
    not an integer or sweeps the listed rates, logging what the sweep
    raises. *)
Lemma run_list w o fuel s :
  connected w = true ->
  pin_settings_valid o ->
  Py.upper (mode o) = "LIST"%string ->
  (23 <= fuel)%nat ->
  run w o fuel s =
  match int_all (Py.split "," (baudrate_list o)) with
  | None => (Ret tt, push [Log ERROR (Caught ValueError)] (started o s))
  | Some candidates =>
    try_except (sweep w o fuel candidates)
               (fun err => logger ERROR (Caught err)) (started o s)
  end.
Proof.
  intros Hc Hp Hm Hf. rewrite run_start by auto.
  rewrite Hm. cbn [String.eqb Ascii.eqb Bool.eqb andb].
  unfold list_mode.
  destruct (int_all _) as [cands|]; reflexivity.
Qed.

Lemma check_options_returns o s :
  exists r es, check_options o s = (Ret r, push es s)
               /\ ~ In (Log ERROR EmptyOrInvalidList) es
               /\ ~ In (Log ERROR InvalidList) es.
Proof.
  assert (Hl : exists x l, map Py.strip (Py.split "," (baudrate_list o)) = x :: l).
  { unfold Py.split. destruct (Py.split_fields "," (baudrate_list o)). cbn. eauto. }
  destruct Hl as (x & l & Hl).
  assert (N : forall m, m <> EmptyOrInvalidList -> m <> InvalidList ->
              ~ In (Log ERROR EmptyOrInvalidList) [Log ERROR m]
              /\ ~ In (Log ERROR InvalidList) [Log ERROR m]).
  { intros m H1 H2. split; intros [H|[]]; congruence. }
  unfold check_options, bind, logger, emit, ret, try_except. rewrite Hl.
  destruct (reset_pin o) as [pin|].
  - destruct (negb (existsb (String.eqb (Py.upper (reset_pol o))) _)).
    { exists false, [Log ERROR InvalidResetPolarity]. split; [reflexivity|].
      apply N; discriminate. }
    destruct (negb (existsb (Z.eqb pin) _)).
    { exists false, [Log ERROR InvalidResetPin]. split; [reflexivity|].
      apply N; discriminate. }
    cbn [negb].
    destruct (negb (existsb (String.eqb (Py.upper (mode o))) _)).
    { exists false, [Log ERROR InvalidMode]. split; [reflexivity|].
      apply N; discriminate. }
    exists true, []. rewrite push_nil.
    destruct (String.eqb (Py.upper (mode o)) "LIST"); auto.
  - cbn [negb].
    destruct (negb (existsb (String.eqb (Py.upper (mode o))) _)).
    { exists false, [Log ERROR InvalidMode]. split; [reflexivity|].
      apply N; discriminate. }
    exists true, []. rewrite push_nil.
    destruct (String.eqb (Py.upper (mode o)) "LIST"); auto.
Qed.

(** The run always comes back: whatever the body raises is caught. *)
Lemma run_returns w o fuel s :
  (23 <= fuel)%nat -> exists s', run w o fuel s = (Ret tt, s').
Proof.
  intros Hf. unfold run. rewrite bind_emit.
  destruct (connected w); cbn [negb]; [|unfold ret; eauto].
  assert (G : forall cands st, exists s',
             try_except (sweep w o fuel cands)
                        (fun err => logger ERROR (Caught err)) st = (Ret tt, s')).
  { intros cands st.
    destruct (sweep_ends w o fuel cands st Hf) as (r & es & E & [->|(e & ->)]).
    - rewrite (try_except_ret _ _ _ _ _ E). eauto.
    - rewrite (try_except_raise _ _ _ _ _ E). unfold logger, emit. eauto. }
  unfold try_except at 1.
  destruct (check_options_returns o (push [Connect] s)) as (r & es & E & _).
  rewrite (bind_eq _ _ _ _ _ E). destruct r; [|unfold ret; eauto].
  rewrite (bind_eq _ _ _ _ _ (init_eq o _)).
  unfold logger. rewrite !bind_emit, !push_push.
  destruct (String.eqb (Py.upper (mode o)) "INCREMENTAL").
  - unfold incremental_mode. destruct (Py.range3 _ _ _) as [cands|].
    + match goal with |- context [sweep w o fuel cands ?st] =>
        destruct (G cands st) as (s' & E') end.
      unfold try_except, logger in E'. rewrite E'. eauto.
    + unfold raise, emit. eauto.
  - destruct (String.eqb (Py.upper (mode o)) "LIST"); [|unfold ret; eauto].
    unfold list_mode. destruct (int_all _) as [cands|].
    + match goal with |- context [sweep w o fuel cands ?st] =>
        destruct (G cands st) as (s' & E') end.
      unfold try_except, logger in E'. rewrite E'. eauto.
    + unfold raise, emit. eauto.
Qed.

(** ** Witnesses for the probe *)

Lemma twenty_members_accepted_witness :
  exists s',
    process_baudrate (talking (fun _ => 0x41) EmptyString) default_options 20 9600 fresh =
      (Ret true, s')
    /\ verdict s' = Some Accepted
    /\ calls is_read s' = 20%nat
    /\ calls is_poll s' = 20%nat
    /\ calls is_transmit s' = 0%nat.
Proof.
  apply (twenty_members_accepted (talking (fun _ => 0x41) EmptyString) default_options
                                 20 9600 fresh).
  - lia.
  - intros k _. split; reflexivity.
Defined.

Lemma first_non_member_rejected_witness :
  exists s',
    process_baudrate (talking four_then_nul EmptyString) default_options 23 9600 fresh =
      (Ret false, s')
    /\ verdict s' = Some Rejected
    /\ calls is_read s' = 5%nat
    /\ calls is_poll s' = 5%nat
    /\ calls is_transmit s' = 0%nat
    /\ calls is_prompt s' = 0%nat.
Proof.
  apply (first_non_member_rejected (talking four_then_nul EmptyString) default_options
                                   23 9600 fresh 4).
  - lia.
  - lia.
  - intros i Hi. split; [reflexivity|].
    do 4 (destruct i as [|i]; [reflexivity|]). lia.
  - reflexivity.
  - reflexivity.
Defined.

Lemma silent_target_times_out_witness :
  exists s',
    process_baudrate mute (with_trigger default_options true) 4 9600 fresh =
      (Ret false, s')
    /\ verdict s' = Some Timeout
    /\ calls is_read s' = 0%nat
    /\ (true = true ->
        s' = push ([Log WARNING (NoData 9600); ProgressStop; WaitBytes false]
                   ++ [Sleep TriggerSettle; UartTransmit [0x0D; 0x0A];
                       Log INFO Triggering; WaitBytes false]
                   ++ [Sleep TriggerSettle; UartTransmit [0x0D; 0x0A];
                       Log INFO Triggering; WaitBytes false]
                   ++ [Sleep TriggerSettle; UartTransmit [0x0D; 0x0A];
                       Log INFO Triggering; WaitBytes false]
                   ++ [ProgressStart]) fresh
        /\ calls is_transmit s' = 3%nat
        /\ calls is_poll s' = 4%nat)
    /\ (true = false ->
        s' = push [Log WARNING (NoData 9600); ProgressStop; WaitBytes false;
                   ProgressStart] fresh
        /\ calls is_transmit s' = 0%nat
        /\ calls is_poll s' = 1%nat).
Proof.
  apply (silent_target_times_out mute (with_trigger default_options true)
                                 4 9600 fresh).
  - lia.
  - intros k. reflexivity.
Defined.

Example probe_history_rejected :
  history (snd (process_baudrate (talking four_then_nul EmptyString) default_options 23 9600 fresh))
  = [ProgressStart;
     WaitBytes true; UartReceive 0x41; ProgressStatus 0x41;
     WaitBytes true; UartReceive 0x41; ProgressStatus 0x41;
     WaitBytes true; UartReceive 0x41; ProgressStatus 0x41;
     WaitBytes true; UartReceive 0x41; ProgressStatus 0x41;
     WaitBytes true; UartReceive 0x00; ProgressStatus 0x00;
     ProgressStop; Log WARNING (NotValid 9600)].
Proof. reflexivity. Qed.

Example probe_history_untriggered :
  process_baudrate mute default_options 1 9600 fresh
  = (Ret false,
     push (rev [ProgressStart; WaitBytes false; ProgressStop;
                Log WARNING (NoData 9600)]) fresh).
Proof. reflexivity. Qed.

(** ** Validation of the candidate list and of the range *)

Lemma split_nonempty sep v : Py.split sep v <> [].
Proof. unfold Py.split. destruct (Py.split_fields sep v). discriminate. Qed.

(** C10: whatever the text of [baudrate_list], the empty text included,
    splitting it at commas gives a list with at least one field, so
    [check_options] never takes the "Empty or invalid baudrate list"
    branch; in list mode, with reset settings that pass, it returns
    [True] and logs nothing, whatever the list holds. *)
Theorem list_contents_never_rejected (o : options) (s : state) :
  Py.upper (mode o) = "LIST"%string ->
  pin_settings_valid o ->
  map Py.strip (Py.split "," (baudrate_list o)) <> []
  /\ check_options o s = (Ret true, s)
  /\ (forall o' s', exists r es,
        check_options o' s' = (Ret r, push es s')
        /\ ~ In (Log ERROR EmptyOrInvalidList) es).
Proof.
  intros Hm Hp. split; [|split].
  - intros E. apply map_eq_nil in E. exact (split_nonempty _ _ E).
  - apply check_options_passes; auto.
  - intros o' s'. destruct (check_options_returns o' s') as (r & es & E & N & _).
    eauto.
Qed.

Lemma list_contents_never_rejected_witness :
  map Py.strip (Py.split "," EmptyString) <> []
  /\ check_options (with_list default_options None EmptyString) fresh = (Ret true, fresh)
  /\ (forall o' s', exists r es,
        check_options o' s' = (Ret r, push es s')
        /\ ~ In (Log ERROR EmptyOrInvalidList) es).
Proof.
  apply (list_contents_never_rejected (with_list default_options None EmptyString) fresh).
  - reflexivity.
  - exact I.
Defined.

(** A configuration that [check_options] refuses ends the run right
    after the connection: nothing but the error report is added. *)
Lemma refused_configuration_stops w o fuel s es :
  connected w = true ->
  check_options o (push [Connect] s) = (Ret false, push es (push [Connect] s)) ->
  run w o fuel s = (Ret tt, push es (push [Connect] s)).
Proof.
  intros Hc E. unfold run. rewrite bind_emit, Hc. cbn [negb].
  unfold try_except. rewrite (bind_eq _ _ _ _ _ E). reflexivity.
Qed.

(** In list mode a field that [int] refuses is found only by [list_mode]:
    validation passes, the adapter is initialised, then the error is
    caught and logged. *)
Lemma unparsable_list_found_late w o fuel s :
  connected w = true ->
  pin_settings_valid o ->
  Py.upper (mode o) = "LIST"%string ->
  (23 <= fuel)%nat ->
  int_all (Py.split "," (baudrate_list o)) = None ->
  check_options o (push [Connect] s) = (Ret true, push [Connect] s)
  /\ run w o fuel s = (Ret tt, push [Log ERROR (Caught ValueError)] (started o s)).
Proof.
  intros Hc Hp Hm Hf Hi. split.
  - apply check_options_passes; auto.
  - rewrite (run_list w o fuel s Hc Hp Hm Hf), Hi. reflexivity.
Qed.

(** C5 (evaluation at the failing input): with [mode = list],
    [baudrate_list = abc] and reset pin 0, [check_options] returns [True]
    without logging, and [run] creates the UART and GPIO objects and
    drives the reset line before the [ValueError] of [int] is caught and
    reported. *)
Theorem unparsable_list_reaches_hardware :
  check_options (with_list default_options (Some 0) "abc") fresh = (Ret true, fresh)
  /\ run mute (with_list default_options (Some 0) "abc") 23 fresh
     = (Ret tt,
        {| self_reset_pin := Some 0;
           trace := rev [Connect; UartInit 0; GpioInit 0; GpioDirectionOutput;
                         GpioStatus 1; Log HEADER Starting; Log HEADER PressCtrlC;
                         Log ERROR (Caught ValueError)] |}).
Proof. split; reflexivity. Qed.

Lemma reset_times_valid_no_failure w o :
  reset_times_valid w o -> reset_failure w o (reset_pin o) = None.
Proof.
  unfold reset_times_valid, sleeps_valid, reset_failure.
  intros [->|[-> ->]]; [reflexivity|]. now destruct (reset_pin o).
Qed.

Lemma started_pin o s : self_reset_pin (started o s) = reset_pin o.
Proof. reflexivity. Qed.

(** C6 (as amended): in incremental mode with a step [<= 0] or
    [min >= max], the run always returns without an uncaught exception.
    The range is reported as an error exactly for step 0, after the
    adapter has been initialised: the [ValueError] of [range] is caught
    and logged, and nothing is swept. For a positive step with
    [min >= max] and for a negative step with [min <= max] the range is
    empty and the run ends after initialisation with no error reported.
    For a negative step with [min > max] the range is not reported
    either: the run is the ordinary sweep, inside the handler of [run],
    over exactly the descending candidates [min], [min + step], ... that
    are above [max]. *)
Theorem degenerate_range_behaviour (w : world) (o : options) (fuel : nat) (s : state) :
  connected w = true ->
  Py.upper (mode o) = "INCREMENTAL"%string ->
  pin_settings_valid o ->
  (23 <= fuel)%nat ->
  baudrate_inc o <= 0 \/ baudrate_min o >= baudrate_max o ->
  (exists s', run w o fuel s = (Ret tt, s'))
  /\ (baudrate_inc o = 0 ->
      run w o fuel s = (Ret tt, push [Log ERROR (Caught ValueError)] (started o s)))
  /\ (baudrate_inc o > 0 \/ baudrate_inc o < 0 /\ baudrate_min o <= baudrate_max o ->
      run w o fuel s = (Ret tt, started o s)
      /\ calls is_error (started o s) = calls is_error s)
  /\ (baudrate_inc o < 0 /\ baudrate_min o > baudrate_max o ->
      exists n,
        (0 < n)%nat
        /\ (forall i, (i < n)%nat ->
              baudrate_max o < baudrate_min o + Z.of_nat i * baudrate_inc o)
        /\ baudrate_min o + Z.of_nat n * baudrate_inc o <= baudrate_max o
        /\ Py.range3 (baudrate_min o) (baudrate_max o) (baudrate_inc o)
           = Some (map (fun i => baudrate_min o + Z.of_nat i * baudrate_inc o)
                       (seq 0 n))
        /\ run w o fuel s
           = try_except
               (sweep w o fuel
                  (map (fun i => baudrate_min o + Z.of_nat i * baudrate_inc o)
                       (seq 0 n)))
               (fun err => logger ERROR (Caught err)) (started o s)
        /\ (reset_times_valid w o ->
            run w o fuel s
            = sweep w o fuel
                (map (fun i => baudrate_min o + Z.of_nat i * baudrate_inc o)
                     (seq 0 n))
                (started o s))).
Proof.
  intros Hc Hm Hp Hf Hd.
  split; [apply run_returns; exact Hf|].
  rewrite (run_incremental w o fuel s Hc Hp Hm Hf).
  unfold Py.range3, Py.range_len.
  split; [|split].
  - intros ->. reflexivity.
  - intros H. split; [|apply calls_error_started].
    destruct (baudrate_inc o =? 0) eqn:E0; [apply Z.eqb_eq in E0; lia|].
    destruct (0 <? baudrate_inc o) eqn:E1.
    + apply Z.ltb_lt in E1.
      replace (baudrate_min o <? baudrate_max o) with false
        by (symmetry; apply Z.ltb_ge; lia).
      reflexivity.
    + apply Z.ltb_ge in E1.
      replace (baudrate_max o <? baudrate_min o) with false
        by (symmetry; apply Z.ltb_ge; lia).
      reflexivity.
  - intros [H1 H2].
    destruct (baudrate_inc o =? 0) eqn:E0; [apply Z.eqb_eq in E0; lia|].
    replace (0 <? baudrate_inc o) with false by (symmetry; apply Z.ltb_ge; lia).
    replace (baudrate_max o <? baudrate_min o) with true
      by (symmetry; apply Z.ltb_lt; lia).
    set (a := baudrate_min o) in *. set (b := baudrate_max o) in *.
    set (st := baudrate_inc o) in *.
    set (q := (a - b - 1) / - st).
    assert (Hq : 0 <= q) by (apply Z.div_pos; lia).
    assert (Hq1 : - st * q <= a - b - 1) by (apply Z.mul_div_le; lia).
    assert (Hq2 : a - b - 1 < - st * (q + 1)).
    { pose proof (Z.mod_pos_bound (a - b - 1) (- st) ltac:(lia)) as Hm'.
      pose proof (Z.div_mod (a - b - 1) (- st) ltac:(lia)) as Hdm. fold q in Hdm.
      lia. }
    exists (Z.to_nat (q + 1)).
    split; [lia|]. split; [intros i Hi; nia|]. split; [nia|].
    split; [reflexivity|]. split; [reflexivity|].
    intros Hv.
    destruct (sweep_returns w o fuel
                (map (fun i : nat => a + Z.of_nat i * st) (seq 0 (Z.to_nat (q + 1))))
                (started o s) Hf)
      as (es & E); [now apply reset_times_valid_no_failure|].
    now rewrite (try_except_ret _ _ _ _ _ E).
Qed.

Lemma degenerate_range_behaviour_witness :
  (exists s', run mute (with_range default_options 300 115200 0) 23 fresh = (Ret tt, s'))
  /\ (0 = 0 ->
      run mute (with_range default_options 300 115200 0) 23 fresh
      = (Ret tt, push [Log ERROR (Caught ValueError)]
                      (started (with_range default_options 300 115200 0) fresh)))
  /\ (0 > 0 \/ 0 < 0 /\ 300 <= 115200 ->
      run mute (with_range default_options 300 115200 0) 23 fresh
      = (Ret tt, started (with_range default_options 300 115200 0) fresh)
      /\ calls is_error (started (with_range default_options 300 115200 0) fresh)
         = calls is_error fresh)
  /\ (0 < 0 /\ 300 > 115200 ->
      exists n,
        (0 < n)%nat
        /\ (forall i, (i < n)%nat -> 115200 < 300 + Z.of_nat i * 0)
        /\ 300 + Z.of_nat n * 0 <= 115200
        /\ Py.range3 300 115200 0
           = Some (map (fun i => 300 + Z.of_nat i * 0) (seq 0 n))
        /\ run mute (with_range default_options 300 115200 0) 23 fresh
           = try_except
               (sweep mute (with_range default_options 300 115200 0) 23
                  (map (fun i => 300 + Z.of_nat i * 0) (seq 0 n)))
               (fun err => logger ERROR (Caught err))
               (started (with_range default_options 300 115200 0) fresh)
        /\ (reset_times_valid mute (with_range default_options 300 115200 0) ->
            run mute (with_range default_options 300 115200 0) 23 fresh
            = sweep mute (with_range default_options 300 115200 0) 23
                (map (fun i => 300 + Z.of_nat i * 0) (seq 0 n))
                (started (with_range default_options 300 115200 0) fresh))).
Proof.
  apply (degenerate_range_behaviour mute (with_range default_options 300 115200 0)
                                    23 fresh).
  - reflexivity.
  - reflexivity.
  - exact I.
  - lia.
  - left. cbn. lia.
Defined.

Example descending_range_candidates :
  Py.range3 900 300 (-300) = Some [900; 600]
  /\ Py.range3 900 299 (-300) = Some [900; 600; 300]
  /\ Py.range3 115200 300 (-38400) = Some [115200; 76800; 38400].
Proof. repeat split. Qed.

(** C6 (as stated) fails: with [min = max = 300] and step 300 the run
    returns and its log holds no error. *)
Lemma empty_range_not_reported :
  ~ bad_range_reported mute (with_range default_options 300 300 300) 23.
Proof.
  intros H. destruct H as (s' & E & P).
  - right. cbn. lia.
  - vm_compute in E. inversion E; subst. vm_compute in P. lia.
Qed.

Example negative_step_not_reported :
  ~ bad_range_reported mute (with_range default_options 300 115200 (-300)) 23.
Proof.
  intros H. destruct H as (s' & E & P).
  - left. cbn. lia.
  - vm_compute in E. inversion E; subst. vm_compute in P. lia.
Qed.

Example descending_range_is_swept :
  history (snd (run mute (with_range default_options 900 300 (-300)) 23 fresh))
  = [Connect; UartInit 0; Log HEADER Starting; Log HEADER PressCtrlC;
     Log INFO (Switching 900); SerialFlush; UartConfigure 900; UartFlush;
     ProgressStart; WaitBytes false; ProgressStop; Log WARNING (NoData 900);
     Log INFO (Switching 600); SerialFlush; UartConfigure 600; UartFlush;
     ProgressStart; WaitBytes false; ProgressStop; Log WARNING (NoData 600)].
Proof. reflexivity. Qed.

(** ** Flushing around a rate change *)

(** C7 (as amended): when [configure] succeeds, [change_baudrate] returns
    [True] after exactly these calls, in this order: the log line, one
    flush of the raw transport buffer, the reconfiguration, one flush of
    the protocol-layer buffer. The raw transport is flushed before the
    reconfiguration only, the protocol layer after it only. *)
Theorem change_baudrate_flush_order (w : world) (baudrate : Z) (s : state) :
  configure_err w (calls is_configure s) baudrate = None ->
  change_baudrate w baudrate s =
  (Ret true,
   push (rev [Log INFO (Switching baudrate); SerialFlush;
              UartConfigure baudrate; UartFlush]) s).
Proof. intros H. rewrite change_baudrate_eq, H. reflexivity. Qed.

Lemma change_baudrate_flush_order_witness :
  change_baudrate mute 9600 fresh =
  (Ret true,
   push (rev [Log INFO (Switching 9600); SerialFlush;
              UartConfigure 9600; UartFlush]) fresh).
Proof. apply (change_baudrate_flush_order mute 9600 fresh). reflexivity. Defined.

(** C7 (as stated) fails: in the history of one successful rate change
    the two flushes do not both occur on each side of [configure]. *)
Lemma flushes_not_on_both_sides :
  ~ flushed_around (history (snd (change_baudrate mute 9600 fresh))) 9600.
Proof.
  intros (pre & post & E & _ & Hu & _).
  change (history _) with [Log INFO (Switching 9600); SerialFlush;
                           UartConfigure 9600; UartFlush] in E.
  destruct pre as [|e1 [|e2 [|e3 [|e4 pre]]]]; cbn in E, Hu;
    inversion E; subst; clear E;
    repeat match goal with
           | H : _ \/ _ |- _ => destruct H
           | H : False |- _ => contradiction
           | H : _ = UartFlush |- _ => discriminate H
           end.
  all: match goal with
       | H : [] = ?p ++ _ :: _ |- _ => destruct p; discriminate H
       end.
Qed.

(** ** The hand-off to the operator *)

Lemma upper_eq_C s : Py.upper s = "C"%string <-> s = "c"%string \/ s = "C"%string.
Proof.
  destruct s as [|a [|b t]].
  - split; [discriminate|intros [H|H]; discriminate].
  - destruct a as [[] [] [] [] [] [] [] []]; vm_compute;
      (split; [intros H; try discriminate H; auto|intros [H|H]; try discriminate H; auto]).
  - split; [intros H; inversion H|intros [H|H]; discriminate].
Qed.

Lemma upper_eq_Y s : Py.upper s = "Y"%string <-> s = "y"%string \/ s = "Y"%string.
Proof.
  destruct s as [|a [|b t]].
  - split; [discriminate|intros [H|H]; discriminate].
  - destruct a as [[] [] [] [] [] [] [] []]; vm_compute;
      (split; [intros H; try discriminate H; auto|intros [H|H]; try discriminate H; auto]).
  - split; [intros H; inversion H|intros [H|H]; discriminate].
Qed.

Section Handoff.

Variable w : world.
Variable o : options.

(** C8: when the probe of a candidate ends with an acceptance, exactly
    one of three things happens: a terminal session is opened and the
    probe returns [True]; no session is opened and the probe returns
    [True]; no session is opened and the probe returns [False]. In the
    first two the sweep stops at this candidate, in the third it goes on
    with the next candidate of the list, and the third is what the answer
    [C] (up to case) leads to. *)
Theorem acceptance_one_of_three fuel baudrate rest s0 s1 s2 r s3 :
  change_baudrate w baudrate s0 = (Ret true, s1) ->
  reset_target w o s1 = (Ret tt, s2) ->
  process_baudrate w o fuel baudrate s2 = (Ret r, s3) ->
  verdict s3 = Some Accepted ->
  let session := calls is_miniterm s3 = S (calls is_miniterm s2) in
  let no_session := calls is_miniterm s3 = calls is_miniterm s2 in
  let opened := session /\ r = true in
  let stopped := no_session /\ r = true in
  let resumed := no_session /\ r = false in
  (opened /\ ~ stopped /\ ~ resumed
   \/ ~ opened /\ stopped /\ ~ resumed
   \/ ~ opened /\ ~ stopped /\ resumed)
  /\ (opened \/ stopped -> sweep w o fuel (baudrate :: rest) s0 = (Ret tt, s3))
  /\ (resumed -> sweep w o fuel (baudrate :: rest) s0 = sweep w o fuel rest s3)
  /\ (Py.upper (answer w (calls is_prompt s2)) = "C"%string -> resumed).
Proof.
  intros E1 E2 E3 V. cbv zeta.
  rewrite (sweep_cons w o fuel baudrate rest s0 s1 s2 r s3 E1 E2 E3).
  destruct (accepted_probe w o fuel baudrate s2 r s3 E3 V) as [R Mt].
  destruct (String.eqb (Py.upper (answer w (calls is_prompt s2))) "Y") eqn:HY.
  - assert (HC : String.eqb (Py.upper (answer w (calls is_prompt s2))) "C" = false)
      by (apply String.eqb_eq in HY; now rewrite HY).
    rewrite HC in R. cbn in R. subst r. apply String.eqb_neq in HC.
    intuition (try lia; try discriminate; try congruence).
  - destruct (String.eqb (Py.upper (answer w (calls is_prompt s2))) "C") eqn:HC;
      cbn in R; subst r;
      [apply String.eqb_eq in HC|apply String.eqb_neq in HC];
      intuition (try lia; try discriminate; try congruence).
Qed.

(** C9: at the prompt that follows an acceptance, the probe returns
    [False] exactly for the answers [c] and [C], and the sweep then goes
    on with the next candidate; for every other answer, the empty one
    included, it returns [True] and the sweep stops; a terminal session
    is opened exactly for the answers [y] and [Y], after which the probe
    still returns [True]. *)
Theorem response_decides fuel baudrate rest s0 s1 s2 r s3 :
  change_baudrate w baudrate s0 = (Ret true, s1) ->
  reset_target w o s1 = (Ret tt, s2) ->
  process_baudrate w o fuel baudrate s2 = (Ret r, s3) ->
  verdict s3 = Some Accepted ->
  let resp := answer w (calls is_prompt s2) in
  (r = false <-> resp = "c"%string \/ resp = "C"%string)
  /\ (resp <> "c"%string -> resp <> "C"%string ->
      r = true /\ sweep w o fuel (baudrate :: rest) s0 = (Ret tt, s3))
  /\ (resp = "c"%string \/ resp = "C"%string ->
      sweep w o fuel (baudrate :: rest) s0 = sweep w o fuel rest s3)
  /\ (calls is_miniterm s3 = S (calls is_miniterm s2) <->
      resp = "y"%string \/ resp = "Y"%string)
  /\ (resp = "y"%string \/ resp = "Y"%string ->
      r = true /\ sweep w o fuel (baudrate :: rest) s0 = (Ret tt, s3))
  /\ (resp = EmptyString -> r = true).
Proof.
  intros E1 E2 E3 V resp.
  rewrite (sweep_cons w o fuel baudrate rest s0 s1 s2 r s3 E1 E2 E3).
  destruct (accepted_probe w o fuel baudrate s2 r s3 E3 V) as [R Mt].
  fold resp in R, Mt. rewrite <- upper_eq_C, <- upper_eq_Y.
  assert (Hc : resp <> "c"%string -> resp <> "C"%string -> Py.upper resp <> "C"%string)
    by (rewrite upper_eq_C; tauto).
  destruct (String.eqb (Py.upper resp) "C") eqn:HC; cbn in R; subst r.
  - apply String.eqb_eq in HC.
    assert (HY : String.eqb (Py.upper resp) "Y" = false) by now rewrite HC.
    rewrite HY in Mt. apply String.eqb_neq in HY.
    repeat split; auto; try tauto; try lia.
    + intros H. rewrite H in HC. discriminate.
  - apply String.eqb_neq in HC.
    repeat split; auto; try tauto; try discriminate.
    + destruct (String.eqb (Py.upper resp) "Y") eqn:HY.
      * intros _. now apply String.eqb_eq.
      * intros H. lia.
    + intros H. apply String.eqb_eq in H. rewrite H in Mt. lia.
Qed.

End Handoff.

(** ** Witnesses for the hand-off *)

Lemma acceptance_one_of_three_witness :
  let session :=
    calls is_miniterm (turn_probed "c") = S (calls is_miniterm (turn_reset "c")) in
  let no_session :=
    calls is_miniterm (turn_probed "c") = calls is_miniterm (turn_reset "c") in
  let opened := session /\ false = true in
  let stopped := no_session /\ false = true in
  let resumed := no_session /\ false = false in
  (opened /\ ~ stopped /\ ~ resumed
   \/ ~ opened /\ stopped /\ ~ resumed
   \/ ~ opened /\ ~ stopped /\ resumed)
  /\ (opened \/ stopped ->
      sweep (letters "c") default_options 23 [9600; 19200] fresh
      = (Ret tt, turn_probed "c"))
  /\ (resumed ->
      sweep (letters "c") default_options 23 [9600; 19200] fresh
      = sweep (letters "c") default_options 23 [19200] (turn_probed "c"))
  /\ (Py.upper (answer (letters "c") (calls is_prompt (turn_reset "c"))) = "C"%string
      -> resumed).
Proof.
  apply (acceptance_one_of_three (letters "c") default_options 23 9600 [19200]
           fresh (turn_changed "c") (turn_reset "c") false (turn_probed "c"));
    vm_compute; reflexivity.
Defined.

Lemma response_decides_witness :
  let resp := answer (letters "y") (calls is_prompt (turn_reset "y")) in
  (true = false <-> resp = "c"%string \/ resp = "C"%string)
  /\ (resp <> "c"%string -> resp <> "C"%string ->
      true = true
      /\ sweep (letters "y") default_options 23 [9600; 19200] fresh
         = (Ret tt, turn_probed "y"))
  /\ (resp = "c"%string \/ resp = "C"%string ->
      sweep (letters "y") default_options 23 [9600; 19200] fresh
      = sweep (letters "y") default_options 23 [19200] (turn_probed "y"))
  /\ (calls is_miniterm (turn_probed "y") = S (calls is_miniterm (turn_reset "y")) <->
      resp = "y"%string \/ resp = "Y"%string)
  /\ (resp = "y"%string \/ resp = "Y"%string ->
      true = true
      /\ sweep (letters "y") default_options 23 [9600; 19200] fresh
         = (Ret tt, turn_probed "y"))
  /\ (resp = EmptyString -> true = true).
Proof.
  apply (response_decides (letters "y") default_options 23 9600 [19200]
           fresh (turn_changed "y") (turn_reset "y") true (turn_probed "y"));
    vm_compute; reflexivity.
Defined.

Example sweep_history_continue :
  history (snd (sweep (talking four_then_nul "C") default_options 23 [9600] fresh))
  = [Log INFO (Switching 9600); SerialFlush; UartConfigure 9600; UartFlush;
     ProgressStart;
     WaitBytes true; UartReceive 0x41; ProgressStatus 0x41;
     WaitBytes true; UartReceive 0x41; ProgressStatus 0x41;
     WaitBytes true; UartReceive 0x41; ProgressStatus 0x41;
     WaitBytes true; UartReceive 0x41; ProgressStatus 0x41;
     WaitBytes true; UartReceive 0x00; ProgressStatus 0x00;
     ProgressStop; Log WARNING (NotValid 9600)].
Proof. vm_compute. reflexivity. Qed.

Example handoff_history_yes :
  on_threshold (letters "Y") default_options 9600 fresh
  = (Ret true,
     push (rev [ProgressStop; Log RESULT (ValidFound 9600); Prompt "Y";
                UartPassthrough; SerialClose; Miniterm;
                Log USER_INTERACT PressUserButton]) fresh).
Proof. vm_compute. reflexivity. Qed.

Example handoff_history_other :
  on_threshold (letters "maybe") default_options 9600 fresh
  = (Ret true,
     push (rev [ProgressStop; Log RESULT (ValidFound 9600); Prompt "maybe"]) fresh)
  /\ on_threshold (letters "c") default_options 9600 fresh
  = (Ret false,
     push (rev [ProgressStop; Log RESULT (ValidFound 9600); Prompt "c"]) fresh).
Proof. split; vm_compute; reflexivity. Qed.

(** * Further properties *)

(** ** The shape of a probe *)

Lemma verdict_of_app_some es tr v :
  verdict_of es = Some v -> verdict_of (es ++ tr) = Some v.
Proof.
  induction es as [|e es IH]; simpl; [discriminate|].
  destruct e as [l m| | | | | | | | | | | | | | | | | | | |]; try exact IH.
  destruct l, m; try exact IH; auto.
Qed.

Lemma rates_app es1 es2 : rates (es1 ++ es2) = rates es2 ++ rates es1.
Proof. unfold rates. now rewrite flat_map_app, rev_app_distr. Qed.

Lemma received_app es1 es2 : received (es1 ++ es2) = received es2 ++ received es1.
Proof. unfold received. now rewrite flat_map_app, rev_app_distr. Qed.

Lemma line_level_quiet es tr :
  Forall (fun e => is_gpio e = false) es -> line_level (es ++ tr) = line_level tr.
Proof.
  induction 1 as [|e es He _ IH]; [reflexivity|].
  destruct e; try discriminate He; exact IH.
Qed.

Lemma handoff_events_quiet o baudrate resp :
  Forall (fun e => is_gpio e = false) (handoff_events o baudrate resp)
  /\ rates (handoff_events o baudrate resp) = []
  /\ received (handoff_events o baudrate resp) = []
  /\ verdict_of (handoff_events o baudrate resp) = Some Accepted
  /\ tally is_poll (handoff_events o baudrate resp) = 0%nat
  /\ tally is_read (handoff_events o baudrate resp) = 0%nat
  /\ tally is_transmit (handoff_events o baudrate resp) = 0%nat
  /\ tally is_prompt (handoff_events o baudrate resp) = 1%nat.
Proof.
  unfold handoff_events.
  destruct (String.eqb (Py.upper resp) "Y"); [destruct (detect o)|];
    repeat split; repeat constructor.
Qed.

Section ProbeShape.

Variable w : world.
Variable o : options.

Lemma on_threshold_events baudrate s :
  on_threshold w o baudrate s =
  (Ret (negb (String.eqb (Py.upper (answer w (calls is_prompt s))) "C")),
   push (handoff_events o baudrate (answer w (calls is_prompt s))) s).
Proof. apply on_threshold_eq. Qed.

(** Every return of the loop follows one of the shapes. *)
Lemma process_loop_trace baudrate : forall fuel c l s r s',
  process_loop w o fuel baudrate c l s = (Ret r, s') ->
  exists es, s' = push es s /\ probe_trace o baudrate c l es r.
Proof.
  induction fuel as [|fuel IH]; intros c l s r s' E; [discriminate|].
  destruct (avail w (calls is_poll s)) eqn:Ha.
  - destruct (is_valid_char (rx w (calls is_read s))) eqn:Hv.
    + rewrite (loop_member w o _ _ _ _ _ Ha Hv) in E. cbv zeta in E.
      destruct (threshold <=? c + 1) eqn:Ht.
      * rewrite on_threshold_events in E. inversion E; subst; clear E.
        rewrite push_push. eexists; split; [reflexivity|].
        apply pt_accept; [exact Hv|now apply Z.leb_le].
      * apply IH in E. destruct E as (es & -> & T).
        rewrite push_push. eexists; split; [reflexivity|].
        apply pt_member; [exact Hv|now apply Z.leb_gt in Ht; lia|exact T].
    + rewrite (loop_non_member w o _ _ _ _ _ Ha Hv) in E.
      inversion E; subst; clear E.
      eexists; split; [reflexivity|]. now apply pt_reject.
  - rewrite (loop_silent w o _ _ _ _ _ Ha) in E.
    destruct (trigger o && (l <? 3)) eqn:Ht.
    + apply IH in E. destruct E as (es & -> & T).
      rewrite push_push. eexists; split; [reflexivity|].
      apply andb_true_iff in Ht. destruct Ht as [Ht1 Ht2].
      apply pt_trigger; [exact Ht1|now apply Z.ltb_lt|exact T].
    + inversion E; subst; clear E.
      eexists; split; [reflexivity|]. now apply pt_timeout.
Qed.

Lemma process_baudrate_trace fuel baudrate s r s' :
  process_baudrate w o fuel baudrate s = (Ret r, s') ->
  exists es, s' = push (es ++ [ProgressStart]) s /\ probe_trace o baudrate 0 0 es r.
Proof.
  rewrite process_baudrate_unfold. intros E.
  apply process_loop_trace in E. destruct E as (es & -> & T).
  rewrite push_push. eauto.
Qed.

End ProbeShape.

Section ProbeFacts.

Variable o : options.
Variable baudrate : Z.

(** The probe loop neither touches the reset line nor changes the rate. *)
Lemma probe_trace_quiet c l es r :
  probe_trace o baudrate c l es r ->
  Forall (fun e => is_gpio e = false) es /\ rates es = [].
Proof.
  induction 1 as [c l x resp Hv Ht|c l x es r Hv Ht T [IH1 IH2]|c l x Hv
                 |c l es r Ht Hl T [IH1 IH2]|c l Ht].
  - destruct (handoff_events_quiet o baudrate resp) as (Q1 & Q2 & _).
    split; [apply Forall_app; split; [exact Q1|repeat constructor]|].
    now rewrite rates_app, Q2.
  - split; [apply Forall_app; split; [exact IH1|repeat constructor]|].
    now rewrite rates_app, IH2.
  - split; repeat constructor.
  - split; [apply Forall_app; split; [exact IH1|repeat constructor]|].
    now rewrite rates_app, IH2.
  - split; repeat constructor.
Qed.

(** What was read, by verdict. *)
Lemma probe_trace_received c l es r :
  probe_trace o baudrate c l es r ->
  0 <= c < threshold ->
  0 <= l <= 3 ->
  match verdict_of es with
  | Some Accepted =>
    Forall (fun b => is_valid_char b = true) (received es)
    /\ c + Z.of_nat (List.length (received es)) = threshold
    /\ tally is_prompt es = 1%nat
  | Some Rejected =>
    r = false
    /\ tally is_prompt es = 0%nat
    /\ exists pre x,
         received es = pre ++ [x]
         /\ Forall (fun b => is_valid_char b = true) pre
         /\ is_valid_char x = false
         /\ c + Z.of_nat (List.length pre) < threshold
  | Some Timeout =>
    r = false
    /\ tally is_prompt es = 0%nat
    /\ Forall (fun b => is_valid_char b = true) (received es)
    /\ c + Z.of_nat (List.length (received es)) < threshold
    /\ tally is_transmit es = (if trigger o then Z.to_nat (3 - l) else 0%nat)
  | None => False
  end.
Proof.
  unfold threshold.
  induction 1 as [c l x resp Hv Ht|c l x es r Hv Ht T IH|c l x Hv
                 |c l es r Ht Hl T IH|c l Ht]; intros Hc Hl'.
  - destruct (handoff_events_quiet o baudrate resp) as (_ & _ & Q3 & Q4 & _ & _ & _ & Q8).
    rewrite (verdict_of_app_some _ _ _ Q4), received_app, Q3, tally_app, Q8.
    unfold threshold in Ht. cbn. repeat split; [repeat constructor; exact Hv|lia].
  - unfold threshold in Ht. specialize (IH ltac:(lia) Hl').
    destruct (verdict_of es) as [[| |]|] eqn:V; [| | |contradiction];
      rewrite (verdict_of_app_some _ _ _ V), ?received_app, !tally_app;
      cbn [received flat_map byte_of rev app tally filter is_prompt is_transmit List.length].
    + destruct IH as (F & L & P). repeat split; [constructor; assumption| |lia].
      cbn [List.length]. lia.
    + destruct IH as (R & P & pre & y & E & F & Hy & L).
      repeat split; [exact R|lia|].
      exists (x :: pre), y. rewrite E. repeat split; auto.
      cbn [List.length]. lia.
    + destruct IH as (R & P & F & L & Tr).
      repeat split; [exact R|lia|constructor; assumption| |lia].
      cbn [List.length]. lia.
  - cbn. repeat split. exists [], x. repeat split; auto. cbn. lia.
  - specialize (IH Hc ltac:(lia)).
    destruct (verdict_of es) as [[| |]|] eqn:V; [| | |contradiction];
      rewrite (verdict_of_app_some _ _ _ V), ?received_app, !tally_app;
      cbn [received flat_map byte_of rev app tally filter is_prompt is_transmit List.length].
    + destruct IH as (F & L & P). repeat split; [assumption|lia|lia].
    + destruct IH as (R & P & pre & y & E & F & Hy & L).
      repeat split; [exact R|lia|]. exists pre, y. auto.
    + destruct IH as (R & P & F & L & Tr).
      repeat split; [exact R|lia|assumption|lia|].
      rewrite Tr, Ht. lia.
  - cbn -[Z.sub Z.to_nat]. repeat split; [constructor|lia|].
    destruct (trigger o); [|reflexivity].
    cbn in Ht. apply Z.ltb_ge in Ht. lia.
Qed.

(** How many calls a probe can make. *)
Lemma probe_trace_bounds c l es r :
  probe_trace o baudrate c l es r ->
  0 <= c < threshold ->
  0 <= l <= 3 ->
  let t := match verdict_of es with Some Timeout => 1%nat | _ => 0%nat end in
  (tally is_read es + t <= Z.to_nat (threshold - c))%nat
  /\ (tally is_transmit es <= Z.to_nat (3 - l))%nat
  /\ tally is_poll es = (tally is_read es + tally is_transmit es + t)%nat
  /\ verdict_of es <> None.
Proof.
  unfold threshold.
  induction 1 as [c l x resp Hv Ht|c l x es r Hv Ht T IH|c l x Hv
                 |c l es r Ht Hl T IH|c l Ht]; intros Hc Hl'; cbv zeta.
  - destruct (handoff_events_quiet o baudrate resp) as (_ & _ & _ & Q4 & Q5 & Q6 & Q7 & _).
    rewrite (verdict_of_app_some _ _ _ Q4), !tally_app, Q5, Q6, Q7.
    unfold threshold in Ht. cbn -[Z.sub Z.to_nat].
    repeat split; try lia; discriminate.
  - unfold threshold in Ht. specialize (IH ltac:(lia) Hl'). cbv zeta in IH.
    destruct IH as (B1 & B2 & B3 & B4).
    destruct (verdict_of es) as [v|] eqn:V; [|contradiction].
    rewrite (verdict_of_app_some _ _ _ V), !tally_app.
    cbn [tally filter is_read is_transmit is_poll List.length].
    repeat split; try lia; discriminate.
  - cbn -[Z.sub Z.to_nat]. repeat split; try lia; discriminate.
  - specialize (IH Hc ltac:(lia)). cbv zeta in IH.
    destruct IH as (B1 & B2 & B3 & B4).
    destruct (verdict_of es) as [v|] eqn:V; [|contradiction].
    rewrite (verdict_of_app_some _ _ _ V), !tally_app.
    cbn [tally filter is_read is_transmit is_poll List.length].
    repeat split; try lia; discriminate.
  - cbn -[Z.sub Z.to_nat]. repeat split; try lia; discriminate.
Qed.

End ProbeFacts.

Section ProbeAnyInput.

Variable w : world.
Variable o : options.

(** More iterations than needed change nothing. *)
Lemma process_loop_mono baudrate : forall fuel fuel' c l s r s',
  (fuel <= fuel')%nat ->
  process_loop w o fuel baudrate c l s = (Ret r, s') ->
  process_loop w o fuel' baudrate c l s = (Ret r, s').
Proof.
  induction fuel as [|fuel IH]; intros fuel' c l s r s' Hf E; [discriminate|].
  destruct fuel' as [|fuel']; [lia|].
  destruct (avail w (calls is_poll s)) eqn:Ha.
  - destruct (is_valid_char (rx w (calls is_read s))) eqn:Hv.
    + rewrite (loop_member w o fuel _ _ _ _ Ha Hv) in E.
      rewrite (loop_member w o fuel' _ _ _ _ Ha Hv). cbv zeta in *.
      destruct (threshold <=? c + 1); [exact E|].
      apply (IH fuel'); [lia|exact E].
    + rewrite (loop_non_member w o fuel _ _ _ _ Ha Hv) in E.
      rewrite (loop_non_member w o fuel' _ _ _ _ Ha Hv). exact E.
  - rewrite (loop_silent w o fuel _ _ _ _ Ha) in E.
    rewrite (loop_silent w o fuel' _ _ _ _ Ha).
    destruct (trigger o && (l <? 3)); [|exact E].
    apply (IH fuel'); [lia|exact E].
Qed.

(** X3: Whatever the target sends, a probe that returns has one of three
    verdicts. [Accepted]: exactly 20 bytes were read, all of them in the
    alphabet, and the operator was asked once. [Rejected]: [False] is
    returned; the last byte read is outside the alphabet, the fewer than
    20 bytes before it are all inside. [Timeout]: [False] is returned;
    fewer than 20 bytes were read, all inside the alphabet, and the
    trigger was sent three times if enabled, never otherwise. Silent
    windows in between do not reset the count of accepted bytes. *)
Theorem probe_verdict_sound fuel baudrate s r s' :
  process_baudrate w o fuel baudrate s = (Ret r, s') ->
  exists es,
    s' = push es s
    /\ match verdict_of es with
       | Some Accepted =>
         List.length (received es) = 20%nat
         /\ Forall (fun b => is_valid_char b = true) (received es)
         /\ tally is_prompt es = 1%nat
       | Some Rejected =>
         r = false
         /\ tally is_prompt es = 0%nat
         /\ exists pre x,
              received es = pre ++ [x]
              /\ (List.length pre < 20)%nat
              /\ Forall (fun b => is_valid_char b = true) pre
              /\ is_valid_char x = false
       | Some Timeout =>
         r = false
         /\ tally is_prompt es = 0%nat
         /\ (List.length (received es) < 20)%nat
         /\ Forall (fun b => is_valid_char b = true) (received es)
         /\ tally is_transmit es = (if trigger o then 3%nat else 0%nat)
       | None => False
       end.
Proof.
  intros E. apply process_baudrate_trace in E. destruct E as (es & -> & T).
  exists (es ++ [ProgressStart]). split; [reflexivity|].
  pose proof (probe_trace_received o baudrate 0 0 es r T
                ltac:(unfold threshold; lia) ltac:(lia)) as H.
  unfold threshold in H.
  destruct (verdict_of es) as [[| |]|] eqn:V; [| | |contradiction];
    rewrite (verdict_of_app_some _ _ _ V), received_app, !tally_app;
    cbn [received flat_map byte_of rev app tally filter is_prompt is_transmit
         List.length]; rewrite ?Nat.add_0_r.
  - destruct H as (F & L & P). repeat split; [lia|assumption|assumption].
  - destruct H as (R & P & pre & x & E & F & Hx & L).
    repeat split; [assumption|assumption|].
    exists pre, x. repeat split; [assumption|lia|assumption|assumption].
  - destruct H as (R & P & F & L & Tr).
    repeat split; [assumption|assumption|lia|assumption|].
    rewrite Tr. destruct (trigger o); reflexivity.
Qed.

(** X4: With 23 iterations or more the probe always returns, with the same
    result as with exactly 23, after at most 23 polling windows, 20
    bytes read, 3 trigger transmissions and one question. *)
Theorem probe_bounded fuel baudrate s :
  (23 <= fuel)%nat ->
  exists r es,
    process_baudrate w o fuel baudrate s = (Ret r, push es s)
    /\ process_baudrate w o 23 baudrate s = (Ret r, push es s)
    /\ (tally is_poll es <= 23)%nat
    /\ (tally is_read es <= 20)%nat
    /\ (tally is_transmit es <= 3)%nat
    /\ (tally is_prompt es <= 1)%nat.
Proof.
  intros Hf.
  destruct (process_baudrate_returns w o 23 baudrate s ltac:(lia)) as (r & es0 & E).
  pose proof E as E'. apply process_baudrate_trace in E'.
  destruct E' as (es & Es & T).
  exists r, (es ++ [ProgressStart]). rewrite <- Es.
  split; [|split; [exact E|]].
  - rewrite process_baudrate_unfold in *.
    apply (process_loop_mono baudrate 23 fuel); [exact Hf|exact E].
  - pose proof (probe_trace_bounds o baudrate 0 0 es r T
                  ltac:(unfold threshold; lia) ltac:(lia)) as B.
    pose proof (probe_trace_received o baudrate 0 0 es r T
                  ltac:(unfold threshold; lia) ltac:(lia)) as R.
    cbv zeta in B. unfold threshold in B. destruct B as (B1 & B2 & B3 & _).
    rewrite !tally_app.
    cbn [tally filter is_poll is_read is_transmit is_prompt List.length].
    assert (P : (tally is_prompt es <= 1)%nat).
    { destruct (verdict_of es) as [[| |]|]; [| | |contradiction].
      - destruct R as (_ & _ & ->). lia.
      - destruct R as (_ & -> & _). lia.
      - destruct R as (_ & -> & _). lia. }
    destruct (verdict_of es) as [[| |]|]; repeat split; lia.
Qed.

End ProbeAnyInput.

Lemma probe_verdict_sound_witness :
  exists es,
    snd (process_baudrate late_talker (with_trigger default_options true) 23 9600 fresh)
    = push es fresh
    /\ match verdict_of es with
       | Some Accepted =>
         List.length (received es) = 20%nat
         /\ Forall (fun b => is_valid_char b = true) (received es)
         /\ tally is_prompt es = 1%nat
       | Some Rejected =>
         true = false
         /\ tally is_prompt es = 0%nat
         /\ exists pre x,
              received es = pre ++ [x]
              /\ (List.length pre < 20)%nat
              /\ Forall (fun b => is_valid_char b = true) pre
              /\ is_valid_char x = false
       | Some Timeout =>
         true = false
         /\ tally is_prompt es = 0%nat
         /\ (List.length (received es) < 20)%nat
         /\ Forall (fun b => is_valid_char b = true) (received es)
         /\ tally is_transmit es = (if trigger (with_trigger default_options true)
                                    then 3%nat else 0%nat)
       | None => False
       end.
Proof.
  apply (probe_verdict_sound late_talker (with_trigger default_options true)
                             23 9600 fresh true).
  vm_compute. reflexivity.
Defined.

Lemma probe_bounded_witness :
  exists r es,
    process_baudrate late_talker (with_trigger default_options true) 30 9600 fresh
    = (Ret r, push es fresh)
    /\ process_baudrate late_talker (with_trigger default_options true) 23 9600 fresh
       = (Ret r, push es fresh)
    /\ (tally is_poll es <= 23)%nat
    /\ (tally is_read es <= 20)%nat
    /\ (tally is_transmit es <= 3)%nat
    /\ (tally is_prompt es <= 1)%nat.
Proof.
  apply (probe_bounded late_talker (with_trigger default_options true) 30 9600 fresh).
  lia.
Defined.

Example late_talker_uses_every_iteration :
  let s := snd (process_baudrate late_talker (with_trigger default_options true)
                                 23 9600 fresh) in
  fst (process_baudrate late_talker (with_trigger default_options true) 23 9600 fresh)
  = Ret true
  /\ fst (process_baudrate late_talker (with_trigger default_options true) 22 9600 fresh)
     = OutOfFuel
  /\ verdict s = Some Accepted
  /\ calls is_poll s = 23%nat /\ calls is_read s = 20%nat
  /\ calls is_transmit s = 3%nat.
Proof. vm_compute. repeat split. Qed.

(** ** The shape of a sweep *)

Lemma reset_events_facts o pin :
  rates (reset_events o pin) = []
  /\ tally is_poll (reset_events o pin) = 0%nat
  /\ tally is_read (reset_events o pin) = 0%nat
  /\ tally is_transmit (reset_events o pin) = 0%nat
  /\ tally is_prompt (reset_events o pin) = 0%nat
  /\ tally is_configure (reset_events o pin) = 0%nat
  /\ verdict_of (reset_events o pin) = None
  /\ (pin = None -> reset_events o pin = [])
  /\ (pin <> None -> forall tr,
        line_level (reset_events o pin ++ tr) = Some (idle_level o)).
Proof.
  unfold reset_events, idle_level. destruct pin as [p|].
  - destruct (String.eqb (Py.upper (reset_pol o)) "LOW");
      repeat split; try discriminate.
  - repeat split. intros H. contradiction.
Qed.

Section SweepShape.

Variable w : world.
Variable o : options.

Lemma reset_target_events s :
  reset_failure w o (self_reset_pin s) = None ->
  reset_target w o s = (Ret tt, push (reset_events o (self_reset_pin s)) s).
Proof. intros H. now rewrite reset_target_eq, H. Qed.

Lemma sweep_has_trace fuel : forall candidates s s',
  reset_failure w o (self_reset_pin s) = None ->
  sweep w o fuel candidates s = (Ret tt, s') ->
  exists es, s' = push es s /\ sweep_trace o (self_reset_pin s) candidates es.
Proof.
  induction candidates as [|b rest IH]; intros s s' Hr E.
  - inversion E; subst. exists []. rewrite push_nil. split; [reflexivity|constructor].
  - cbn [sweep] in E. unfold bind at 1 in E. rewrite change_baudrate_eq in E.
    destruct (configure_err w (calls is_configure s) b) as [e|].
    + apply IH in E; [|exact Hr]. destruct E as (es & -> & T). rewrite push_push.
      eexists; split; [reflexivity|].
      eapply st_next; [apply tt_refused|exact T].
    + unfold bind at 1 in E. rewrite reset_target_events in E by exact Hr.
      unfold bind at 1 in E.
      match type of E with context [process_baudrate w o fuel b ?st] =>
        destruct (process_baudrate w o fuel b st) as [[r| |] s3] eqn:P
      end; try discriminate E.
      apply process_baudrate_trace in P. destruct P as (pes & -> & T).
      rewrite !push_push in *. cbn [self_reset_pin push] in *.
      destruct r.
      * inversion E; subst; clear E. eexists; split; [reflexivity|].
        apply st_break. rewrite <- !app_assoc. now apply tt_probed.
      * apply IH in E; [|exact Hr]. destruct E as (es & -> & T'). rewrite push_push.
        eexists; split; [reflexivity|].
        eapply st_next; [|exact T'].
        rewrite <- !app_assoc. now apply tt_probed.
Qed.

End SweepShape.

Section SweepFacts.

Variable o : options.

Lemma probe_trace_break baudrate es :
  probe_trace o baudrate 0 0 es true -> verdict_of es = Some Accepted.
Proof.
  intros T.
  pose proof (probe_trace_received o baudrate 0 0 es true T
                ltac:(unfold threshold; lia) ltac:(lia)) as H.
  destruct (verdict_of es) as [[| |]|]; [reflexivity| | |contradiction];
    destruct H as (H & _); discriminate H.
Qed.

Lemma turn_trace_facts baudrate pin es stop :
  turn_trace o baudrate pin es stop ->
  rates es = [baudrate]
  /\ (stop = true -> verdict_of es = Some Accepted)
  /\ (pin = None -> Forall (fun e => is_gpio e = false) es)
  /\ (pin <> None -> forall tr,
        line_level tr = Some (idle_level o) ->
        line_level (es ++ tr) = Some (idle_level o)).
Proof.
  destruct 1 as [e|es r T].
  - repeat split; [discriminate|repeat constructor|intros _ tr H; exact H].
  - destruct (probe_trace_quiet o baudrate 0 0 es r T) as [Q R].
    destruct (reset_events_facts o pin) as (R1 & _ & _ & _ & _ & _ & _ & R8 & R9).
    repeat split.
    + rewrite !rates_app, R, R1. reflexivity.
    + intros ->. apply verdict_of_app_some. now apply (probe_trace_break baudrate).
    + intros Hp. rewrite (R8 Hp). apply Forall_app. split; [exact Q|repeat constructor].
    + intros Hp tr _. rewrite <- !app_assoc. rewrite line_level_quiet by exact Q.
      cbn [app line_level]. apply R9. exact Hp.
Qed.

(** The rates a sweep configures are the candidates in their order, up
    to the one that was accepted; a sweep without reset pin leaves the
    GPIO alone, one with a reset pin leaves the line where it was parked. *)
Lemma sweep_trace_facts pin candidates es :
  sweep_trace o pin candidates es ->
  (exists tail, candidates = rates es ++ tail
                /\ (tail <> [] -> verdict_of es = Some Accepted))
  /\ (pin = None -> Forall (fun e => is_gpio e = false) es)
  /\ (pin <> None -> forall tr,
        line_level tr = Some (idle_level o) ->
        line_level (es ++ tr) = Some (idle_level o)).
Proof.
  induction 1 as [|b rest es T|b rest es es' T S IH].
  - repeat split; [exists []; split; [reflexivity|intros H; contradiction]
                  |constructor|intros _ tr H; exact H].
  - destruct (turn_trace_facts _ _ _ _ T) as (R & V & G & L).
    repeat split; [|exact G|exact L].
    exists rest. rewrite R. split; [reflexivity|]. intros _. now apply V.
  - destruct (turn_trace_facts _ _ _ _ T) as (R & _ & G & L).
    destruct IH as ((tail & E & V) & G' & L').
    repeat split.
    + exists tail. rewrite rates_app, R, E. split; [reflexivity|].
      intros Ht. apply verdict_of_app_some. now apply V.
    + intros Hp. apply Forall_app. split; [now apply G'|now apply G].
    + intros Hp tr Htr. rewrite <- app_assoc. apply L'; [exact Hp|].
      apply L; assumption.
Qed.

End SweepFacts.

(** ** What validation accepts *)

Lemma existsb_eqb_words s (ws : list string) :
  existsb (String.eqb s) ws = true <-> In s ws.
Proof.
  rewrite existsb_exists. split.
  - intros (x & Hx & E). apply String.eqb_eq in E. now subst.
  - intros H. exists s. split; [exact H|apply String.eqb_refl].
Qed.

Lemma existsb_range2 a b x :
  existsb (Z.eqb x) (Py.range2 a b) = true <-> a <= x < b.
Proof.
  rewrite existsb_exists. split.
  - intros (y & Hy & E). apply Z.eqb_eq in E. subst y.
    unfold Py.range2 in Hy. apply in_map_iff in Hy.
    destruct Hy as (i & <- & Hi). apply in_seq in Hi. lia.
  - intros H. exists x. split; [now apply range2_In|apply Z.eqb_refl].
Qed.

Lemma check_options_bad_polarity o s pin :
  reset_pin o = Some pin ->
  Py.upper (reset_pol o) <> "LOW"%string ->
  Py.upper (reset_pol o) <> "HIGH"%string ->
  check_options o s = (Ret false, push [Log ERROR InvalidResetPolarity] s).
Proof.
  intros Hp H1 H2. unfold check_options. rewrite Hp.
  destruct (existsb (String.eqb (Py.upper (reset_pol o))) ["LOW"; "HIGH"]%string) eqn:E.
  - apply existsb_eqb_words in E. destruct E as [E|[E|[]]]; congruence.
  - reflexivity.
Qed.

Lemma check_options_bad_pin o s pin :
  reset_pin o = Some pin ->
  Py.upper (reset_pol o) = "LOW"%string \/ Py.upper (reset_pol o) = "HIGH"%string ->
  ~ 0 <= pin < 15 ->
  check_options o s = (Ret false, push [Log ERROR InvalidResetPin] s).
Proof.
  intros Hp Hq Hr. unfold check_options. rewrite Hp.
  assert (E1 : existsb (String.eqb (Py.upper (reset_pol o))) ["LOW"; "HIGH"]%string = true)
    by (destruct Hq as [-> | ->]; reflexivity).
  rewrite E1. cbn [negb].
  destruct (existsb (Z.eqb pin) (Py.range2 0 15)) eqn:E2.
  - apply existsb_range2 in E2. contradiction.
  - reflexivity.
Qed.

Lemma check_options_bad_mode o s :
  pin_settings_valid o ->
  ~ mode_known o ->
  check_options o s = (Ret false, push [Log ERROR InvalidMode] s).
Proof.
  intros Hp Hm. unfold check_options, pin_settings_valid, mode_known in *.
  assert (E : existsb (String.eqb (Py.upper (mode o))) ["INCREMENTAL"; "LIST"]%string
              = false).
  { destruct (existsb _ _) eqn:E; [|reflexivity].
    apply existsb_eqb_words in E. destruct E as [E|[E|[]]]; symmetry in E; tauto. }
  destruct (reset_pin o) as [pin|].
  - destruct Hp as [Hr Hq].
    assert (E1 : existsb (String.eqb (Py.upper (reset_pol o))) ["LOW"; "HIGH"]%string = true)
      by (destruct Hq as [-> | ->]; reflexivity).
    assert (E2 : existsb (Z.eqb pin) (Py.range2 0 15) = true)
      by now apply existsb_range2.
    unfold bind at 1. rewrite E1, E2. cbn [negb]. unfold ret at 1. cbn [negb].
    rewrite E. reflexivity.
  - unfold bind at 1, ret at 1. cbn [negb]. rewrite E. reflexivity.
Qed.

Lemma pin_settings_cases o :
  pin_settings_valid o
  \/ (exists pin, reset_pin o = Some pin
                  /\ Py.upper (reset_pol o) <> "LOW"%string
                  /\ Py.upper (reset_pol o) <> "HIGH"%string)
  \/ (exists pin, reset_pin o = Some pin
                  /\ (Py.upper (reset_pol o) = "LOW"%string
                      \/ Py.upper (reset_pol o) = "HIGH"%string)
                  /\ ~ 0 <= pin < 15).
Proof.
  unfold pin_settings_valid. destruct (reset_pin o) as [pin|]; [|now left].
  destruct (string_dec (Py.upper (reset_pol o)) "LOW") as [E1|E1];
    destruct (string_dec (Py.upper (reset_pol o)) "HIGH") as [E2|E2];
    destruct (Z_le_dec 0 pin) as [L|L]; destruct (Z_lt_dec pin 15) as [U|U];
    try (left; split; [lia|tauto]);
    try (right; left; exists pin; tauto);
    right; right; exists pin; repeat split; try tauto; lia.
Qed.

Lemma mode_known_dec o : mode_known o \/ ~ mode_known o.
Proof.
  unfold mode_known.
  destruct (string_dec (Py.upper (mode o)) "INCREMENTAL");
    destruct (string_dec (Py.upper (mode o)) "LIST"); tauto.
Qed.

(** X1: [check_options] returns [True], logging nothing, exactly when the
    mode is [incremental] or [list] up to case and either no reset pin is
    set or the pin is in 0..14 with polarity [low] or [high] up to case.
    Otherwise it returns [False] after one error message: the polarity is
    looked at first (and only when a reset pin is set), then the pin, then
    the mode. The ranges and the list are never looked at. *)
Theorem check_options_accepts_exactly (o : options) (s : state) :
  exists r es,
    check_options o s = (Ret r, push es s)
    /\ (r = true <-> pin_settings_valid o /\ mode_known o)
    /\ (r = true -> es = [])
    /\ (r = false ->
        exists m, es = [Log ERROR m]
          /\ (m = InvalidResetPolarity \/ m = InvalidResetPin \/ m = InvalidMode)
          /\ (m = InvalidResetPolarity <->
              exists pin, reset_pin o = Some pin
                          /\ Py.upper (reset_pol o) <> "LOW"%string
                          /\ Py.upper (reset_pol o) <> "HIGH"%string)
          /\ (m = InvalidMode <-> pin_settings_valid o /\ ~ mode_known o)).
Proof.
  destruct (pin_settings_cases o) as [Hv|[(pin & Hp & H1 & H2)|(pin & Hp & Hq & Hr)]].
  - destruct (mode_known_dec o) as [Hm|Hm].
    + exists true, []. rewrite push_nil.
      split; [now apply check_options_passes|].
      repeat split; auto; discriminate.
    + exists false, [Log ERROR InvalidMode].
      split; [now apply check_options_bad_mode|].
      repeat split; try discriminate; try tauto.
      intros _. exists InvalidMode. repeat split; auto; try discriminate; try tauto.
      intros (p & Hp & H1 & H2). unfold pin_settings_valid in Hv. rewrite Hp in Hv.
      tauto.
  - exists false, [Log ERROR InvalidResetPolarity].
    split; [now apply (check_options_bad_polarity o s pin)|].
    assert (Hn : ~ pin_settings_valid o)
      by (unfold pin_settings_valid; rewrite Hp; tauto).
    repeat split; try discriminate; try tauto.
    intros _. exists InvalidResetPolarity.
    repeat split; auto; try discriminate; try tauto. eauto.
  - exists false, [Log ERROR InvalidResetPin].
    split; [now apply (check_options_bad_pin o s pin)|].
    assert (Hn : ~ pin_settings_valid o)
      by (unfold pin_settings_valid; rewrite Hp; tauto).
    repeat split; try discriminate; try tauto.
    intros _. exists InvalidResetPin.
    repeat split; auto; try discriminate; try tauto.
    intros (p & Hp' & H1 & H2). tauto.
Qed.

(** X2: When the options do not pass [check_options], [run] connects, logs
    the one error and returns: no UART or GPIO object is created and no
    other call reaches the adapter. *)
Theorem invalid_options_touch_nothing (w : world) (o : options) (fuel : nat) (s : state) :
  connected w = true ->
  ~ (pin_settings_valid o /\ mode_known o) ->
  exists m,
    run w o fuel s = (Ret tt, push [Log ERROR m; Connect] s)
    /\ (m = InvalidResetPolarity \/ m = InvalidResetPin \/ m = InvalidMode).
Proof.
  intros Hc Hn.
  destruct (pin_settings_cases o) as [Hv|[(pin & Hp & H1 & H2)|(pin & Hp & Hq & Hr)]].
  - exists InvalidMode. split; [|tauto].
    rewrite (refused_configuration_stops w o fuel s [Log ERROR InvalidMode] Hc);
      [now rewrite push_push|].
    apply check_options_bad_mode; tauto.
  - exists InvalidResetPolarity. split; [|tauto].
    rewrite (refused_configuration_stops w o fuel s [Log ERROR InvalidResetPolarity] Hc);
      [now rewrite push_push|].
    now apply (check_options_bad_polarity o _ pin).
  - exists InvalidResetPin. split; [|tauto].
    rewrite (refused_configuration_stops w o fuel s [Log ERROR InvalidResetPin] Hc);
      [now rewrite push_push|].
    now apply (check_options_bad_pin o _ pin).
Qed.

Lemma invalid_options_touch_nothing_witness :
  exists m,
    run mute (with_reset default_options (Some 15) "low") 23 fresh
    = (Ret tt, push [Log ERROR m; Connect] fresh)
    /\ (m = InvalidResetPolarity \/ m = InvalidResetPin \/ m = InvalidMode).
Proof.
  apply (invalid_options_touch_nothing mute (with_reset default_options (Some 15) "low")
                                        23 fresh).
  - reflexivity.
  - intros [[H _] _]. cbn in H. lia.
Defined.

Example check_options_examples :
  fst (check_options (with_mode default_options "List") fresh) = Ret true
  /\ fst (check_options (with_mode default_options "sweep") fresh) = Ret false
  /\ fst (check_options (with_reset default_options None "sideways") fresh) = Ret true
  /\ check_options (with_reset default_options (Some 99) "sideways") fresh
     = (Ret false, push [Log ERROR InvalidResetPolarity] fresh)
  /\ check_options (with_reset default_options (Some 15) "High") fresh
     = (Ret false, push [Log ERROR InvalidResetPin] fresh)
  /\ fst (check_options (with_reset default_options (Some 14) "High") fresh) = Ret true
  /\ fst (check_options (with_range default_options 9 3 0) fresh) = Ret true.
Proof. repeat split. Qed.


(** ** The sweep inside a run *)

Lemma started_state o s :
  started o s = {| self_reset_pin := reset_pin o;
                   trace := start_events o ++ trace s |}.
Proof.
  unfold started, after_init, push, start_events, idle_level. cbn [trace self_reset_pin].
  destruct (reset_pin o); reflexivity.
Qed.

Lemma start_events_facts o :
  rates (start_events o) = []
  /\ verdict_of (start_events o) = None
  /\ ~ In Miniterm (start_events o)
  /\ (reset_pin o = None -> Forall (fun e => is_gpio e = false) (start_events o))
  /\ (reset_pin o <> None -> forall tr,
        line_level (start_events o ++ tr) = Some (idle_level o)).
Proof.
  unfold start_events. destruct (reset_pin o) as [pin|].
  - repeat split; try discriminate.
    intros H. cbn in H. intuition discriminate.
  - repeat split; repeat constructor; try discriminate.
    + intros H. cbn in H. intuition discriminate.
    + intros H. contradiction.
Qed.


Lemma int_all_bad_field fields f :
  In f fields -> Py.int (Py.strip f) = None -> int_all fields = None.
Proof.
  induction fields as [|g fields IH]; intros Hin Hf; [contradiction|].
  cbn [int_all]. destruct Hin as [->|Hin].
  - now rewrite Hf.
  - destruct (Py.int (Py.strip g)); [|reflexivity].
    now rewrite (IH Hin Hf).
Qed.

Section RunFacts.

Variable w : world.
Variable o : options.

(** What a run over valid options does after its start, for a candidate
    list that could be built. *)
Lemma run_sweeps fuel s candidates :
  reset_times_valid w o ->
  (23 <= fuel)%nat ->
  exists es,
    try_except (sweep w o fuel candidates)
               (fun err => logger ERROR (Caught err)) (started o s)
    = (Ret tt, {| self_reset_pin := reset_pin o;
                  trace := es ++ start_events o ++ trace s |})
    /\ sweep_trace o (reset_pin o) candidates es.
Proof.
  intros Hv Hf. apply reset_times_valid_no_failure in Hv.
  destruct (sweep_returns w o fuel candidates (started o s) Hf Hv) as (es0 & E).
  rewrite (try_except_ret _ _ _ _ _ E).
  apply sweep_has_trace in E; [|exact Hv]. destruct E as (es & -> & T).
  rewrite started_state in *. cbn [self_reset_pin] in T.
  exists es. split; [reflexivity|exact T].
Qed.

End RunFacts.



(** X6: In list mode one field that [int] refuses, an empty field included
    (an empty list, a doubled or a trailing comma), keeps every rate from
    being tried, those before it too: the run initialises the adapter,
    logs the [ValueError] and returns without any [configure] call. *)
Theorem bad_field_blocks_whole_list
  (w : world) (o : options) (fuel : nat) (s : state) (f : string) :
  connected w = true ->
  pin_settings_valid o ->
  Py.upper (mode o) = "LIST"%string ->
  (23 <= fuel)%nat ->
  In f (Py.split "," (baudrate_list o)) ->
  Py.int (Py.strip f) = None ->
  run w o fuel s
  = (Ret tt, {| self_reset_pin := reset_pin o;
                trace := Log ERROR (Caught ValueError) :: start_events o ++ trace s |})
  /\ rates (Log ERROR (Caught ValueError) :: start_events o) = [].
Proof.
  intros Hc Hp Hm Hf Hin Hb.
  rewrite (run_list w o fuel s Hc Hp Hm Hf), (int_all_bad_field _ f Hin Hb).
  rewrite started_state. split; [reflexivity|].
  destruct (start_events_facts o) as (R & _).
  change (Log ERROR (Caught ValueError) :: start_events o)
    with ([Log ERROR (Caught ValueError)] ++ start_events o).
  now rewrite rates_app, R.
Qed.

Lemma bad_field_blocks_whole_list_witness :
  run mute (with_list default_options None "9600,19200,") 23 fresh
  = (Ret tt, {| self_reset_pin := None;
                trace := Log ERROR (Caught ValueError)
                         :: start_events (with_list default_options None "9600,19200,")
                         ++ trace fresh |})
  /\ rates (Log ERROR (Caught ValueError)
            :: start_events (with_list default_options None "9600,19200,")) = [].
Proof.
  apply (bad_field_blocks_whole_list mute
           (with_list default_options None "9600,19200,") 23 fresh EmptyString).
  - reflexivity.
  - exact I.
  - reflexivity.
  - lia.
  - cbn. tauto.
  - reflexivity.
Defined.

(** ** The rates of the incremental mode *)

Lemma firstn_of_seq : forall k a n, firstn k (seq a n) = seq a (Nat.min k n).
Proof.
  induction k as [|k IH]; intros a n; [reflexivity|].
  destruct n as [|n]; [reflexivity|]. cbn. now rewrite IH.
Qed.

Lemma prefix_of_map_seq (f : nat -> Z) : forall n l tail,
  map f (seq 0 n) = l ++ tail -> l = map f (seq 0 (List.length l)).
Proof.
  intros n l tail E.
  assert (H : firstn (List.length l) (map f (seq 0 n)) = l)
    by (rewrite E, firstn_app, Nat.sub_diag, firstn_all; cbn; apply app_nil_r).
  rewrite <- H at 1. rewrite firstn_map, firstn_of_seq.
  assert (L : (List.length l <= n)%nat).
  { apply (f_equal (@List.length Z)) in E.
    rewrite length_map, length_seq, length_app in E. lia. }
  now rewrite Nat.min_l by exact L.
Qed.

Lemma sweep_trace_first o pin b rest es :
  sweep_trace o pin (b :: rest) es -> exists l, rates es = b :: l.
Proof.
  intros T. inversion T as [|b' rest' es' Tt|b' rest' es1 es2 Tt Ts]; subst.
  - destruct (turn_trace_facts o _ _ _ _ Tt) as (R & _). rewrite R. eauto.
  - destruct (turn_trace_facts o _ _ _ _ Tt) as (R & _).
    rewrite rates_app, R. cbn. eauto.
Qed.

(** X7: In incremental mode with a positive step and [min < max], when the
    reset pulse cannot fail (no reset pin, or reset times that
    [time.sleep] takes), the rates
    passed to [configure] during the run are [min], [min + step],
    [min + 2 * step] and so on without a gap, at least [min] itself; each
    of them is below [max], so that [max] itself is never tried; and the
    run stops short of the last rate below [max] only on an accepted
    candidate. *)
Theorem incremental_mode_rates
  (w : world) (o : options) (fuel : nat) (s : state) :
  connected w = true ->
  pin_settings_valid o ->
  Py.upper (mode o) = "INCREMENTAL"%string ->
  (23 <= fuel)%nat ->
  reset_times_valid w o ->
  0 < baudrate_inc o ->
  baudrate_min o < baudrate_max o ->
  exists s' es n,
    run w o fuel s = (Ret tt, s')
    /\ trace s' = es ++ trace s
    /\ (0 < n)%nat
    /\ rates es = map (fun i => baudrate_min o + Z.of_nat i * baudrate_inc o) (seq 0 n)
    /\ (forall b, In b (rates es) -> baudrate_min o <= b < baudrate_max o)
    /\ (verdict s' <> Some Accepted ->
        baudrate_max o <= baudrate_min o + Z.of_nat n * baudrate_inc o).
Proof.
  intros Hc Hp Hm Hf Hrv Hs Hr.
  rewrite (run_incremental w o fuel s Hc Hp Hm Hf).
  unfold Py.range3, Py.range_len.
  replace (baudrate_inc o =? 0) with false by (symmetry; apply Z.eqb_neq; lia).
  replace (0 <? baudrate_inc o) with true by (symmetry; apply Z.ltb_lt; lia).
  replace (baudrate_min o <? baudrate_max o) with true by (symmetry; apply Z.ltb_lt; lia).
  set (a := baudrate_min o) in *. set (b := baudrate_max o) in *.
  set (st := baudrate_inc o) in *.
  set (q := (b - a - 1) / st).
  assert (Hq : 0 <= q) by (apply Z.div_pos; lia).
  assert (Hq1 : st * q <= b - a - 1) by (apply Z.mul_div_le; lia).
  assert (Hq2 : b - a - 1 < st * (q + 1)).
  { pose proof (Z.mod_pos_bound (b - a - 1) st Hs) as Hm'.
    pose proof (Z.div_mod (b - a - 1) st ltac:(lia)) as Hd. fold q in Hd. lia. }
  set (N := Z.to_nat (q + 1)).
  set (f := fun i : nat => a + Z.of_nat i * st).
  destruct (run_sweeps w o fuel s (map f (seq 0 N)) Hrv Hf) as (es & E & T).
  rewrite E.
  destruct (sweep_trace_facts o _ _ _ T) as ((tail & Ec & V) & _ & _).
  destruct (start_events_facts o) as (R & _).
  assert (HN : exists N', N = S N') by (exists (Z.to_nat q); unfold N; lia).
  destruct HN as (N' & HN).
  assert (Hfirst : exists l, rates es = a :: l).
  { rewrite HN in T. cbn [seq map] in T. apply sweep_trace_first in T.
    destruct T as (l & El). exists l. rewrite El. unfold f. f_equal. cbn. lia. }
  destruct Hfirst as (l0 & El0).
  pose proof (prefix_of_map_seq f N (rates es) tail Ec) as Hpre.
  eexists; exists (es ++ start_events o), (List.length (rates es)).
  split; [reflexivity|]. cbn [trace]. rewrite rates_app, R. cbn [app].
  assert (Hlen : (List.length (rates es) <= N)%nat).
  { apply (f_equal (@List.length Z)) in Ec.
    rewrite length_map, length_seq, length_app in Ec. lia. }
  repeat split.
  - now rewrite app_assoc.
  - rewrite El0. cbn. lia.
  - exact Hpre.
  - rewrite Hpre in H. apply in_map_iff in H. destruct H as (i & <- & Hi).
    apply in_seq in Hi. unfold f. nia.
  - rewrite Hpre in H. apply in_map_iff in H. destruct H as (i & <- & Hi).
    apply in_seq in Hi. unfold f.
    assert (Z.of_nat i <= q) by (unfold N in Hlen; lia). nia.
  - intros Hv.
    destruct tail as [|t tail].
    + rewrite app_nil_r in Ec. apply (f_equal (@List.length Z)) in Ec.
      rewrite length_map, length_seq in Ec. rewrite <- Ec. unfold N.
      rewrite Z2Nat.id by lia. nia.
    + exfalso. apply Hv. unfold verdict. cbn [trace].
      apply verdict_of_app_some. apply V. discriminate.
Qed.

Lemma incremental_mode_rates_witness :
  exists s' es n,
    run mute (with_range default_options 300 1200 300) 23 fresh = (Ret tt, s')
    /\ trace s' = es ++ trace fresh
    /\ (0 < n)%nat
    /\ rates es = map (fun i => 300 + Z.of_nat i * 300) (seq 0 n)
    /\ (forall b, In b (rates es) -> 300 <= b < 1200)
    /\ (verdict s' <> Some Accepted -> 1200 <= 300 + Z.of_nat n * 300).
Proof.
  apply (incremental_mode_rates mute (with_range default_options 300 1200 300) 23 fresh).
  - reflexivity.
  - exact I.
  - reflexivity.
  - lia.
  - now left.
  - cbn. lia.
  - cbn. lia.
Defined.

Example default_range_stops_short_of_max :
  rates (trace (snd (run mute (with_range default_options 300 1200 300) 23 fresh)))
  = [300; 600; 900]
  /\ option_map (@List.length Z) (Py.range3 300 115200 300) = Some 383%nat
  /\ option_map (fun l => last l 0) (Py.range3 300 115200 300) = Some 114900.
Proof. vm_compute. repeat split. Qed.

(** ** The reset line and the terminal session over a run *)

Lemma reset_failure_none w o pin :
  pin = None \/ sleeps_valid w o -> reset_failure w o pin = None.
Proof.
  unfold sleeps_valid, reset_failure.
  intros [->|[-> ->]]; [reflexivity|]. now destruct pin.
Qed.

Lemma reset_failure_events w o pin e res :
  reset_failure w o pin = Some (e, res) ->
  pin <> None
  /\ ~ In Miniterm res
  /\ tally is_transmit res = 0%nat
  /\ tally is_poll res = 0%nat
  /\ tally is_uart_flush res = 0%nat
  /\ (sleep_error w (reset_hold o) = Some e
      /\ res = [Sleep ResetHold; GpioStatus (active_level o); Log INFO ResetAttempt]
      \/ sleep_error w (reset_hold o) = None
         /\ sleep_error w (reset_delay o) = Some e
         /\ res = [Sleep ResetDelay; GpioStatus (idle_level o); Sleep ResetHold;
                   GpioStatus (active_level o); Log INFO ResetAttempt]).
Proof.
  unfold reset_failure. destruct pin as [p|]; [|discriminate].
  destruct (sleep_error w (reset_hold o)) as [e1|].
  - intros E. inversion E; subst.
    repeat split; try discriminate; [cbn; intuition discriminate|now left].
  - destruct (sleep_error w (reset_delay o)) as [e2|]; [|discriminate].
    intros E. inversion E; subst.
    repeat split; try discriminate; [cbn; intuition discriminate|right; auto].
Qed.

Lemma refused_events_facts es :
  Forall (fun x => is_refused_event x = true) es ->
  ~ In Miniterm es
  /\ tally is_transmit es = 0%nat
  /\ tally is_poll es = 0%nat
  /\ tally is_uart_flush es = 0%nat
  /\ Forall (fun e => is_gpio e = false) es.
Proof.
  induction 1 as [|x es Hx _ (I1 & I2 & I3 & I4 & I5)].
  - repeat split; auto.
  - destruct x as [l m| | | | | | | | | | | | | | | | | | | |];
      try discriminate Hx;
      try (destruct l, m; try discriminate Hx);
      (split; [intros [H|H]; [discriminate H|contradiction]|]);
      (split; [exact I2|]); (split; [exact I3|]); (split; [exact I4|]);
      (constructor; [reflexivity|exact I5]).
Qed.

Section RunInvariants.

Variable w : world.
Variable o : options.

(** A run over valid options whose reset pulse cannot fail ends in one
    of two ways: with the [ValueError] of the candidate list right after
    the start, or after a sweep. *)
Lemma run_cases fuel s :
  connected w = true ->
  pin_settings_valid o ->
  mode_known o ->
  (23 <= fuel)%nat ->
  reset_times_valid w o ->
  exists es,
    run w o fuel s
    = (Ret tt, {| self_reset_pin := reset_pin o;
                  trace := es ++ start_events o ++ trace s |})
    /\ (es = [Log ERROR (Caught ValueError)]
        \/ exists candidates, sweep_trace o (reset_pin o) candidates es).
Proof.
  intros Hc Hp Hm Hf Hv. destruct Hm as [Hm|Hm].
  - rewrite (run_incremental w o fuel s Hc Hp Hm Hf).
    destruct (Py.range3 _ _ _) as [cands|].
    + destruct (run_sweeps w o fuel s cands Hv Hf) as (es & E & T).
      exists es. split; [exact E|eauto].
    + exists [Log ERROR (Caught ValueError)]. rewrite started_state. auto.
  - rewrite (run_list w o fuel s Hc Hp Hm Hf).
    destruct (int_all _) as [cands|].
    + destruct (run_sweeps w o fuel s cands Hv Hf) as (es & E & T).
      exists es. split; [exact E|eauto].
    + exists [Log ERROR (Caught ValueError)]. rewrite started_state. auto.
Qed.

(** A run over valid options whose reset pulse fails never probes: it
    ends with the [ValueError] of the candidate list, or after every
    candidate was refused, or in the reset pulse that follows the first
    completed rate change. *)
Lemma run_cases_reset_fails fuel s e res :
  connected w = true ->
  pin_settings_valid o ->
  mode_known o ->
  (23 <= fuel)%nat ->
  reset_failure w o (reset_pin o) = Some (e, res) ->
  exists es es0,
    run w o fuel s
    = (Ret tt, {| self_reset_pin := reset_pin o;
                  trace := es ++ start_events o ++ trace s |})
    /\ Forall (fun x => is_refused_event x = true) es0
    /\ (es = [Log ERROR (Caught ValueError)]
        \/ es = es0
        \/ exists b,
             es = Log ERROR (Caught e)
                  :: res ++ [UartFlush; UartConfigure b; SerialFlush;
                             Log INFO (Switching b)] ++ es0).
Proof.
  intros Hc Hp Hm Hf Hr.
  assert (G : forall cands, exists es es0,
             try_except (sweep w o fuel cands)
                        (fun err => logger ERROR (Caught err)) (started o s)
             = (Ret tt, {| self_reset_pin := reset_pin o;
                           trace := es ++ start_events o ++ trace s |})
             /\ Forall (fun x => is_refused_event x = true) es0
             /\ (es = es0
                 \/ exists b,
                      es = Log ERROR (Caught e)
                           :: res ++ [UartFlush; UartConfigure b; SerialFlush;
                                      Log INFO (Switching b)] ++ es0)).
  { intros cands.
    destruct (sweep_reset_fails w o fuel e res cands (started o s) Hr)
      as (r & es & es0 & E & F & [[-> ->]|(b & -> & ->)]).
    - rewrite (try_except_ret _ _ _ _ _ E). rewrite started_state.
      exists es0, es0. auto.
    - rewrite (try_except_raise _ _ _ _ _ E). rewrite started_state.
      exists (Log ERROR (Caught e)
              :: res ++ [UartFlush; UartConfigure b; SerialFlush;
                         Log INFO (Switching b)] ++ es0), es0.
      split; [|split; [exact F|right; exists b; reflexivity]].
      unfold logger, emit, push. cbn [trace self_reset_pin app].
      now rewrite <- !app_assoc. }
  destruct Hm as [Hm|Hm].
  - rewrite (run_incremental w o fuel s Hc Hp Hm Hf).
    destruct (Py.range3 _ _ _) as [cands|].
    + destruct (G cands) as (es & es0 & E & F & H).
      exists es, es0. split; [exact E|]. split; [exact F|]. now right.
    + exists [Log ERROR (Caught ValueError)], []. rewrite started_state. auto.
  - rewrite (run_list w o fuel s Hc Hp Hm Hf).
    destruct (int_all _) as [cands|].
    + destruct (G cands) as (es & es0 & E & F & H).
      exists es, es0. split; [exact E|]. split; [exact F|]. now right.
    + exists [Log ERROR (Caught ValueError)], []. rewrite started_state. auto.
Qed.

End RunInvariants.

(** X11: With a reset pin configured and reset times that [time.sleep] takes,
    every run over valid options leaves the reset line at the level at
    which [init] parked it (1 for polarity low, 0 for high): each reset
    pulse returns to that level, and nothing else drives the line. *)
Theorem reset_line_parked_after_run
  (w : world) (o : options) (fuel : nat) (s : state) (pin : Z) :
  connected w = true ->
  pin_settings_valid o ->
  mode_known o ->
  (23 <= fuel)%nat ->
  reset_pin o = Some pin ->
  sleeps_valid w o ->
  exists s',
    run w o fuel s = (Ret tt, s')
    /\ self_reset_pin s' = Some pin
    /\ line_level (trace s') = Some (idle_level o).
Proof.
  intros Hc Hp Hm Hf Hpin Hs.
  destruct (run_cases w o fuel s Hc Hp Hm Hf (or_intror Hs)) as (es & E & Hes).
  eexists; split; [exact E|]. cbn [self_reset_pin trace]. split; [exact Hpin|].
  destruct (start_events_facts o) as (_ & _ & _ & _ & L).
  assert (Hne : reset_pin o <> None) by (rewrite Hpin; discriminate).
  destruct Hes as [->|(cands & T)].
  - cbn [app line_level]. now apply L.
  - destruct (sweep_trace_facts o _ _ _ T) as (_ & _ & L').
    apply L'; [exact Hne|now apply L].
Qed.

Lemma reset_line_parked_after_run_witness :
  exists s',
    run one_nul (with_reset (with_range default_options 300 1200 300) (Some 3) "High")
        23 fresh = (Ret tt, s')
    /\ self_reset_pin s' = Some 3
    /\ line_level (trace s')
       = Some (idle_level (with_reset (with_range default_options 300 1200 300)
                                      (Some 3) "High")).
Proof.
  apply (reset_line_parked_after_run one_nul
           (with_reset (with_range default_options 300 1200 300) (Some 3) "High")
           23 fresh 3).
  - reflexivity.
  - cbn. split; [lia|now right].
  - left. reflexivity.
  - lia.
  - reflexivity.
  - split; reflexivity.
Defined.

(** X16: With a reset pin configured and a hold time that [time.sleep]
    refuses (a negative one, say), a run over valid options never probes
    a candidate. Either no rate change completes and the line stays
    parked, or the run ends in the reset pulse of the first completed
    rate change: the line has been driven to its active level, the sleep
    raises, [run] logs the exception, and the line is left active. *)
Theorem refused_hold_time_leaves_line_active
  (w : world) (o : options) (fuel : nat) (s : state) (pin : Z) (e : exn) :
  connected w = true ->
  pin_settings_valid o ->
  mode_known o ->
  (23 <= fuel)%nat ->
  reset_pin o = Some pin ->
  sleep_error w (reset_hold o) = Some e ->
  exists s' es,
    run w o fuel s = (Ret tt, s')
    /\ trace s' = es ++ start_events o ++ trace s
    /\ tally is_poll es = 0%nat
    /\ (tally is_uart_flush es = 0%nat
        /\ line_level (trace s') = Some (idle_level o)
        \/ exists b rest,
             es = [Log ERROR (Caught e); Sleep ResetHold;
                   GpioStatus (active_level o); Log INFO ResetAttempt;
                   UartFlush; UartConfigure b; SerialFlush;
                   Log INFO (Switching b)] ++ rest
             /\ tally is_uart_flush rest = 0%nat
             /\ line_level (trace s') = Some (active_level o)).
Proof.
  intros Hc Hp Hm Hf Hpin He.
  assert (Hr : reset_failure w o (reset_pin o)
               = Some (e, [Sleep ResetHold; GpioStatus (active_level o);
                           Log INFO ResetAttempt]))
    by (unfold reset_failure; now rewrite Hpin, He).
  destruct (run_cases_reset_fails w o fuel s e _ Hc Hp Hm Hf Hr)
    as (es & es0 & E & F & H).
  destruct (refused_events_facts es0 F) as (_ & _ & F3 & F4 & F5).
  destruct (start_events_facts o) as (_ & _ & _ & _ & L).
  assert (Hne : reset_pin o <> None) by (rewrite Hpin; discriminate).
  eexists; exists es. split; [exact E|]. cbn [trace]. split; [reflexivity|].
  destruct H as [->|[->|(b & ->)]].
  - split; [reflexivity|]. left. split; [reflexivity|].
    cbn [app line_level]. now apply L.
  - split; [exact F3|]. left. split; [exact F4|].
    rewrite line_level_quiet by exact F5. now apply L.
  - split.
    + change (Log ERROR (Caught e) :: ?l) with ([Log ERROR (Caught e)] ++ l).
      rewrite !tally_app, F3. reflexivity.
    + right. exists b, es0.
      split; [reflexivity|split; [exact F4|reflexivity]].
Qed.

Lemma refused_hold_time_leaves_line_active_witness :
  exists s' es,
    run mute
        (with_reset_times
           (with_reset (with_range default_options 300 1200 300) (Some 3) "low")
           (Py.Finite (-1) 0) (Py.Finite 1 (-1)))
        23 fresh = (Ret tt, s')
    /\ trace s'
       = es ++ start_events
                 (with_reset_times
                    (with_reset (with_range default_options 300 1200 300) (Some 3) "low")
                    (Py.Finite (-1) 0) (Py.Finite 1 (-1)))
            ++ trace fresh
    /\ tally is_poll es = 0%nat
    /\ (tally is_uart_flush es = 0%nat
        /\ line_level (trace s')
           = Some (idle_level
                     (with_reset_times
                        (with_reset (with_range default_options 300 1200 300)
                                    (Some 3) "low")
                        (Py.Finite (-1) 0) (Py.Finite 1 (-1))))
        \/ exists b rest,
             es = [Log ERROR (Caught ValueError); Sleep ResetHold;
                   GpioStatus
                     (active_level
                        (with_reset_times
                           (with_reset (with_range default_options 300 1200 300)
                                       (Some 3) "low")
                           (Py.Finite (-1) 0) (Py.Finite 1 (-1))));
                   Log INFO ResetAttempt;
                   UartFlush; UartConfigure b; SerialFlush;
                   Log INFO (Switching b)] ++ rest
             /\ tally is_uart_flush rest = 0%nat
             /\ line_level (trace s')
                = Some (active_level
                          (with_reset_times
                             (with_reset (with_range default_options 300 1200 300)
                                         (Some 3) "low")
                             (Py.Finite (-1) 0) (Py.Finite 1 (-1))))).
Proof.
  apply (refused_hold_time_leaves_line_active mute
           (with_reset_times
              (with_reset (with_range default_options 300 1200 300) (Some 3) "low")
              (Py.Finite (-1) 0) (Py.Finite 1 (-1)))
           23 fresh 3 ValueError).
  - reflexivity.
  - cbn. split; [lia|now left].
  - left. reflexivity.
  - lia.
  - reflexivity.
  - reflexivity.
Defined.

Example refused_hold_time_history :
  history (snd (run mute
                    (with_reset_times
                       (with_reset (with_range default_options 300 1200 300)
                                   (Some 3) "low")
                       (Py.Finite (-1) 0) (Py.Finite 1 (-1)))
                    23 fresh))
  = [Connect; UartInit 0; GpioInit 3; GpioDirectionOutput; GpioStatus 1;
     Log HEADER Starting; Log HEADER PressCtrlC;
     Log INFO (Switching 300); SerialFlush; UartConfigure 300; UartFlush;
     Log INFO ResetAttempt; GpioStatus 0; Sleep ResetHold;
     Log ERROR (Caught ValueError)].
Proof. reflexivity. Qed.

Example sleep_error_examples :
  sleep_error mute (Py.Finite (-1) 0) = Some ValueError
  /\ sleep_error mute (Py.Finite (-1) (-40)) = Some ValueError
  /\ sleep_error mute (Py.Finite (-1) 34) = Some OverflowError
  /\ sleep_error mute Py.NaN = Some ValueError
  /\ sleep_error mute (Py.Infinity false) = Some OverflowError
  /\ sleep_error mute (Py.Infinity true) = Some OverflowError
  /\ sleep_error mute (Py.Finite 0 0) = None
  /\ sleep_error mute (reset_hold default_options) = None
  /\ sleep_error mute (reset_delay default_options) = None.
Proof. repeat split. Qed.

(** X12: Without a reset pin in the options, a run over valid options makes
    no GPIO call at all and leaves [self.reset_pin] unset, also when the
    module object still held a pin from an earlier run. *)
Theorem no_reset_pin_no_gpio
  (w : world) (o : options) (fuel : nat) (s : state) :
  connected w = true ->
  mode_known o ->
  (23 <= fuel)%nat ->
  reset_pin o = None ->
  exists s' es,
    run w o fuel s = (Ret tt, s')
    /\ trace s' = es ++ trace s
    /\ self_reset_pin s' = None
    /\ Forall (fun e => is_gpio e = false) es.
Proof.
  intros Hc Hm Hf Hpin.
  assert (Hp : pin_settings_valid o) by (unfold pin_settings_valid; now rewrite Hpin).
  destruct (run_cases w o fuel s Hc Hp Hm Hf (or_introl Hpin)) as (es & E & Hes).
  eexists; exists (es ++ start_events o). split; [exact E|].
  cbn [self_reset_pin trace]. rewrite app_assoc.
  split; [reflexivity|]. split; [exact Hpin|].
  destruct (start_events_facts o) as (_ & _ & _ & G & _).
  apply Forall_app. split; [|now apply G].
  destruct Hes as [->|(cands & T)]; [repeat constructor|].
  destruct (sweep_trace_facts o _ _ _ T) as (_ & G' & _). now apply G'.
Qed.

Lemma no_reset_pin_no_gpio_witness :
  exists s' es,
    run one_nul default_options 23 {| self_reset_pin := Some 7; trace := [] |}
    = (Ret tt, s')
    /\ trace s' = es ++ []
    /\ self_reset_pin s' = None
    /\ Forall (fun e => is_gpio e = false) es.
Proof.
  apply (no_reset_pin_no_gpio one_nul default_options 23
           {| self_reset_pin := Some 7; trace := [] |}).
  - reflexivity.
  - left. reflexivity.
  - lia.
  - reflexivity.
Defined.

Lemma ends_in_session_app o es tail :
  ends_in_session o es -> ~ In Miniterm tail -> ends_in_session o (es ++ tail).
Proof.
  intros (rest & -> & N) Nt. exists (rest ++ tail). split.
  - now rewrite <- !app_assoc.
  - intros H. apply in_app_or in H. tauto.
Qed.

Lemma probe_trace_session o baudrate c l es r :
  probe_trace o baudrate c l es r ->
  In Miniterm es -> r = true /\ ends_in_session o es.
Proof.
  induction 1 as [c l x resp Hv Ht|c l x es r Hv Ht T IH|c l x Hv
                 |c l es r Ht Hl T IH|c l Ht]; intros Hin.
  - unfold handoff_events in *.
    destruct (String.eqb (Py.upper resp) "Y") eqn:HY.
    + apply String.eqb_eq in HY. rewrite HY. split; [reflexivity|].
      eexists. rewrite <- !app_assoc. split; [reflexivity|].
      cbn. intuition discriminate.
    + exfalso. cbn in Hin. intuition discriminate.
  - apply in_app_or in Hin. destruct Hin as [Hin|Hin].
    + destruct (IH Hin) as [R S]. split; [exact R|].
      apply ends_in_session_app; [exact S|]. cbn. intuition discriminate.
    + exfalso. cbn in Hin. intuition discriminate.
  - exfalso. cbn in Hin. intuition discriminate.
  - apply in_app_or in Hin. destruct Hin as [Hin|Hin].
    + destruct (IH Hin) as [R S]. split; [exact R|].
      apply ends_in_session_app; [exact S|]. cbn. intuition discriminate.
    + exfalso. cbn in Hin. intuition discriminate.
  - exfalso. cbn in Hin. intuition discriminate.
Qed.

Lemma reset_events_no_session o pin : ~ In Miniterm (reset_events o pin).
Proof.
  unfold reset_events. destruct pin; [|intros []].
  destruct (String.eqb _ "LOW"); cbn; intuition discriminate.
Qed.

Lemma turn_trace_session o baudrate pin es stop :
  turn_trace o baudrate pin es stop ->
  In Miniterm es -> stop = true /\ ends_in_session o es.
Proof.
  destruct 1 as [e|es r T]; intros Hin.
  - exfalso. cbn in Hin. intuition discriminate.
  - apply in_app_or in Hin. destruct Hin as [Hin|Hin].
    + destruct (probe_trace_session _ _ _ _ _ _ T Hin) as [R S].
      split; [exact R|]. apply ends_in_session_app; [exact S|].
      intros H. apply in_app_or in H. destruct H as [H|H];
        [cbn in H; intuition discriminate|].
      apply in_app_or in H. destruct H as [H|H];
        [exact (reset_events_no_session o pin H)|cbn in H; intuition discriminate].
    + exfalso. apply in_app_or in Hin. destruct Hin as [H|H];
        [cbn in H; intuition discriminate|].
      apply in_app_or in H. destruct H as [H|H];
        [exact (reset_events_no_session o pin H)|cbn in H; intuition discriminate].
Qed.

Lemma sweep_trace_session o pin candidates es :
  sweep_trace o pin candidates es ->
  In Miniterm es -> ends_in_session o es.
Proof.
  induction 1 as [|b rest es T|b rest es es' T S IH]; intros Hin.
  - contradiction.
  - now apply (turn_trace_session _ _ _ _ _ T).
  - assert (N : ~ In Miniterm es).
    { intros H. destruct (turn_trace_session _ _ _ _ _ T H) as [R _]. discriminate R. }
    apply in_app_or in Hin. destruct Hin as [Hin|Hin]; [|contradiction].
    apply ends_in_session_app; [now apply IH|exact N].
Qed.

(** X13: When a run over valid options opens a terminal session, that is the
    last thing it does to the adapter: the session comes right after the
    switch to pass-through and the closing of the serial port (with the
    port detection in between if enabled), it is followed by the hint on
    the user button only, and it is the only session of the run. *)
Theorem terminal_session_ends_run
  (w : world) (o : options) (fuel : nat) (s : state) :
  connected w = true ->
  pin_settings_valid o ->
  mode_known o ->
  (23 <= fuel)%nat ->
  exists s' es,
    run w o fuel s = (Ret tt, s')
    /\ trace s' = es ++ trace s
    /\ (In Miniterm es -> ends_in_session o es).
Proof.
  intros Hc Hp Hm Hf.
  destruct (start_events_facts o) as (_ & _ & N & _).
  destruct (reset_failure w o (reset_pin o)) as [[e res]|] eqn:Hr.
  - destruct (run_cases_reset_fails w o fuel s e res Hc Hp Hm Hf Hr)
      as (es & es0 & E & F & H).
    destruct (refused_events_facts es0 F) as (F1 & _).
    destruct (reset_failure_events w o _ e res Hr) as (_ & R1 & _).
    eexists; exists (es ++ start_events o). split; [exact E|].
    cbn [trace]. rewrite app_assoc. split; [reflexivity|].
    intros Hin. exfalso.
    apply in_app_or in Hin. destruct Hin as [Hin|Hin]; [|contradiction].
    destruct H as [->|[->|(b & ->)]].
    + cbn in Hin. intuition discriminate.
    + contradiction.
    + destruct Hin as [Hin|Hin]; [discriminate Hin|].
      rewrite !in_app_iff in Hin. cbn [In] in Hin. intuition discriminate.
  - assert (Hv : reset_times_valid w o).
    { unfold reset_times_valid, sleeps_valid. unfold reset_failure in Hr.
      destruct (reset_pin o); [right|now left].
      destruct (sleep_error w (reset_hold o)); [discriminate|].
      destruct (sleep_error w (reset_delay o)); [discriminate|]. now split. }
    destruct (run_cases w o fuel s Hc Hp Hm Hf Hv) as (es & E & Hes).
    eexists; exists (es ++ start_events o). split; [exact E|].
    cbn [trace]. rewrite app_assoc. split; [reflexivity|].
    intros Hin. apply in_app_or in Hin. destruct Hin as [Hin|Hin]; [|contradiction].
    apply ends_in_session_app; [|exact N].
    destruct Hes as [->|(cands & T)].
    + exfalso. cbn in Hin. intuition discriminate.
    + now apply (sweep_trace_session _ _ _ _ T).
Qed.

Lemma terminal_session_ends_run_witness :
  exists s' es,
    run (letters "y") (with_range default_options 300 1200 300) 23 fresh = (Ret tt, s')
    /\ trace s' = es ++ trace fresh
    /\ (In Miniterm es -> ends_in_session (with_range default_options 300 1200 300) es).
Proof.
  apply (terminal_session_ends_run (letters "y")
           (with_range default_options 300 1200 300) 23 fresh).
  - reflexivity.
  - exact I.
  - left. reflexivity.
  - lia.
Defined.

Example session_history :
  history (snd (run (letters "y") (with_range default_options 300 1200 300) 20 fresh))
  = [Connect; UartInit 0; Log HEADER Starting; Log HEADER PressCtrlC;
     Log INFO (Switching 300); SerialFlush; UartConfigure 300; UartFlush;
     ProgressStart]
    ++ List.concat (repeat [WaitBytes true; UartReceive 0x41; ProgressStatus 0x41] 20)
    ++ [ProgressStop; Log RESULT (ValidFound 300); Prompt "y";
        UartPassthrough; SerialClose; Miniterm; Log USER_INTERACT PressUserButton].
Proof. vm_compute. reflexivity. Qed.

(** ** Sweeps over particular targets *)

Section Sweeps.

Variable w : world.
Variable o : options.

(** X8: When [configure] raises for a candidate, [change_baudrate] logs the
    exception and the sweep goes on with the next candidate: the
    protocol-layer flush, the reset pulse and the probe of the refused
    candidate are all skipped. *)
Theorem failed_configure_skips_candidate fuel baudrate rest s e :
  configure_err w (calls is_configure s) baudrate = Some e ->
  change_baudrate w baudrate s
  = (Ret false, push (rev [Log INFO (Switching baudrate); SerialFlush;
                           UartConfigure baudrate; Log ERROR (Caught e)]) s)
  /\ sweep w o fuel (baudrate :: rest) s
     = sweep w o fuel rest
         (push (rev [Log INFO (Switching baudrate); SerialFlush;
                     UartConfigure baudrate; Log ERROR (Caught e)]) s).
Proof.
  intros H. assert (E : change_baudrate w baudrate s
    = (Ret false, push (rev [Log INFO (Switching baudrate); SerialFlush;
                             UartConfigure baudrate; Log ERROR (Caught e)]) s))
    by (rewrite change_baudrate_eq, H; reflexivity).
  split; [exact E|]. cbn [sweep]. now rewrite (bind_eq _ _ _ _ _ E).
Qed.

Lemma push_inj es1 es2 s : push es1 s = push es2 s -> es1 = es2.
Proof.
  unfold push. intros E. inversion E as [E']. now apply app_inv_tail in E'.
Qed.

(** One turn of the sweep for an adapter that takes the rate. *)
Lemma sweep_turn_ok fuel baudrate rest s :
  configure_err w (calls is_configure s) baudrate = None ->
  reset_failure w o (self_reset_pin s) = None ->
  sweep w o fuel (baudrate :: rest) s =
  bind (process_baudrate w o fuel baudrate)
       (fun found => if found then ret tt else sweep w o fuel rest)
       (push (reset_events o (self_reset_pin s)
              ++ [UartFlush; UartConfigure baudrate; SerialFlush;
                  Log INFO (Switching baudrate)]) s).
Proof.
  intros H Hr. cbn [sweep].
  assert (E : change_baudrate w baudrate s
              = (Ret true, push [UartFlush; UartConfigure baudrate; SerialFlush;
                                 Log INFO (Switching baudrate)] s))
    by (rewrite change_baudrate_eq, H; reflexivity).
  rewrite (bind_eq _ _ _ _ _ E).
  rewrite (bind_eq _ _ _ _ _
             (reset_target_events w o
                (push [UartFlush; UartConfigure baudrate; SerialFlush;
                       Log INFO (Switching baudrate)] s) Hr)).
  now rewrite push_push.
Qed.

(** X9: Against a target that never sends anything and an adapter that takes
    every rate, when the reset pulse cannot fail (no reset pin held, or
    reset times that [time.sleep] takes), the sweep tries every
    candidate, in order and once per entry of the list; the budget of
    three triggers is granted anew to every candidate. *)
Theorem silent_sweep_tests_every_candidate fuel :
  (4 <= fuel)%nat ->
  (forall k, avail w k = false) ->
  (forall k b, configure_err w k b = None) ->
  forall candidates s,
  self_reset_pin s = None \/ sleeps_valid w o ->
  exists es,
    sweep w o fuel candidates s = (Ret tt, push es s)
    /\ rates es = candidates
    /\ tally is_transmit es
       = (if trigger o then 3 * List.length candidates else 0)%nat
    /\ tally is_poll es
       = (if trigger o then 4 * List.length candidates else List.length candidates)%nat
    /\ tally is_read es = 0%nat
    /\ tally is_prompt es = 0%nat.
Proof.
  intros Hf Ha Hcfg. induction candidates as [|b rest IH]; intros s Hs.
  - exists []. rewrite push_nil. destruct (trigger o); repeat split.
  - rewrite sweep_turn_ok
      by (try apply Hcfg; now apply reset_failure_none).
    destruct (reset_events_facts o (self_reset_pin s))
      as (R1 & R2 & R3 & R4 & R5 & _).
    set (s1 := push _ s).
    assert (E : exists pes,
               process_baudrate w o fuel b s1 = (Ret false, push pes s1)
               /\ rates pes = []
               /\ tally is_transmit pes = (if trigger o then 3 else 0)%nat
               /\ tally is_poll pes = (if trigger o then 4 else 1)%nat
               /\ tally is_read pes = 0%nat /\ tally is_prompt pes = 0%nat).
    { rewrite process_baudrate_unfold. destruct (trigger o) eqn:Ht.
      - rewrite (loop_silence w o b 0 3 fuel 0 _ Ht); [|reflexivity|lia|intros; apply Ha].
        rewrite push_push. eexists; split; [reflexivity|]. repeat split.
      - destruct fuel as [|fuel']; [lia|].
        rewrite loop_silent by apply Ha. rewrite Ht. cbn [andb].
        rewrite push_push. eexists; split; [reflexivity|]. repeat split. }
    destruct E as (pes & E & P1 & P2 & P3 & P4 & P5).
    rewrite (bind_eq _ _ _ _ _ E).
    destruct (IH (push pes s1) Hs) as (es & Es & Q1 & Q2 & Q3 & Q4 & Q5).
    rewrite Es. unfold s1. rewrite !push_push.
    eexists; split; [reflexivity|].
    rewrite !rates_app, !tally_app, R1, R2, R3, R4, R5, P1, P2, P3, P4, P5,
      Q1, Q2, Q3, Q4, Q5.
    cbn [rates flat_map rate_of rev app tally filter is_transmit is_poll is_read
         is_prompt List.length].
    destruct (trigger o); repeat split; lia.
Qed.

(** X10: Against a target that keeps sending bytes of the alphabet, with an
    operator who answers [C] (up to case) every time and an adapter that
    takes every rate, when the reset pulse cannot fail (no reset pin
    held, or reset times that [time.sleep] takes), the sweep tries
    every candidate in order: each one is accepted on 20 bytes of its
    own, the count starting afresh for every candidate, and no terminal
    session is opened. *)
Theorem continued_sweep_tests_every_candidate fuel :
  (20 <= fuel)%nat ->
  (forall k, avail w k = true) ->
  (forall k, is_valid_char (rx w k) = true) ->
  (forall k, Py.upper (answer w k) = "C"%string) ->
  (forall k b, configure_err w k b = None) ->
  forall candidates s,
  self_reset_pin s = None \/ sleeps_valid w o ->
  exists es,
    sweep w o fuel candidates s = (Ret tt, push es s)
    /\ rates es = candidates
    /\ tally is_read es = (20 * List.length candidates)%nat
    /\ tally is_prompt es = List.length candidates
    /\ tally is_transmit es = 0%nat
    /\ ~ In Miniterm es.
Proof.
  intros Hf Ha Hv Hans Hcfg. induction candidates as [|b rest IH]; intros s Hs.
  - exists []. rewrite push_nil. repeat split. intros [].
  - rewrite sweep_turn_ok
      by (try apply Hcfg; now apply reset_failure_none).
    destruct (reset_events_facts o (self_reset_pin s))
      as (R1 & R2 & R3 & R4 & R5 & _).
    pose proof (reset_events_no_session o (self_reset_pin s)) as RN.
    set (s1 := push _ s).
    assert (E : exists pes,
               process_baudrate w o fuel b s1 = (Ret false, push pes s1)
               /\ rates pes = []
               /\ tally is_read pes = 20%nat
               /\ tally is_prompt pes = 1%nat
               /\ tally is_transmit pes = 0%nat
               /\ ~ In Miniterm pes).
    { destruct (loop_members w o b 0 20 fuel 0 (push [ProgressStart] s1))
        as (es & E & P1 & P2 & P3 & P4);
        [lia|reflexivity|intros; split; [apply Ha|apply Hv]|].
      assert (E' : process_baudrate w o fuel b s1
                   = (Ret false,
                      push (handoff_events o b
                              (answer w (calls is_prompt (push es (push [ProgressStart] s1))))
                            ++ es ++ [ProgressStart]) s1)).
      { rewrite process_baudrate_unfold, E, on_threshold_events, Hans, !push_push.
        now rewrite <- app_assoc. }
      eexists; split; [exact E'|].
      pose proof E' as T. apply process_baudrate_trace in T.
      destruct T as (pes & Ep & T). apply push_inj in Ep.
      destruct (probe_trace_quiet o b 0 0 pes false T) as [_ Q].
      rewrite Ep.
      destruct (handoff_events_quiet o b
                  (answer w (calls is_prompt (push es (push [ProgressStart] s1)))))
        as (_ & _ & _ & _ & _ & H6 & H7 & H8).
      repeat split.
      - now rewrite rates_app, Q.
      - rewrite <- Ep, !tally_app, H6, P2. reflexivity.
      - rewrite <- Ep, !tally_app, H8, P4. reflexivity.
      - rewrite <- Ep, !tally_app, H7, P3. reflexivity.
      - intros Hin. apply in_app_or in Hin. destruct Hin as [Hin|Hin].
        + destruct (probe_trace_session _ _ _ _ _ _ T Hin) as [R _]. discriminate R.
        + cbn in Hin. intuition discriminate. }
    destruct E as (pes & E & P1 & P2 & P3 & P4 & P5).
    rewrite (bind_eq _ _ _ _ _ E).
    destruct (IH (push pes s1) Hs) as (es & Es & Q1 & Q2 & Q3 & Q4 & Q5).
    rewrite Es. unfold s1. rewrite !push_push.
    eexists; split; [reflexivity|].
    rewrite !rates_app, !tally_app, R1, R3, R4, R5, P1, P2, P3, P4, Q1, Q2, Q3, Q4.
    cbn [rates flat_map rate_of rev app tally filter is_transmit is_poll is_read
         is_prompt List.length].
    repeat split; try lia.
    intros Hin. rewrite !in_app_iff in Hin. cbn [In] in Hin.
    intuition discriminate.
Qed.

End Sweeps.

Lemma failed_configure_skips_candidate_witness :
  change_baudrate refusing_once 9600 fresh
  = (Ret false, push (rev [Log INFO (Switching 9600); SerialFlush;
                           UartConfigure 9600; Log ERROR (Caught TransportError)]) fresh)
  /\ sweep refusing_once default_options 23 [9600; 19200] fresh
     = sweep refusing_once default_options 23 [19200]
         (push (rev [Log INFO (Switching 9600); SerialFlush;
                     UartConfigure 9600; Log ERROR (Caught TransportError)]) fresh).
Proof.
  apply (failed_configure_skips_candidate refusing_once default_options 23 9600
           [19200] fresh TransportError).
  reflexivity.
Defined.

Lemma silent_sweep_tests_every_candidate_witness :
  exists es,
    sweep mute (with_trigger default_options true) 4 [9600; 9600; 19200] fresh
    = (Ret tt, push es fresh)
    /\ rates es = [9600; 9600; 19200]
    /\ tally is_transmit es = (3 * 3)%nat
    /\ tally is_poll es = (4 * 3)%nat
    /\ tally is_read es = 0%nat
    /\ tally is_prompt es = 0%nat.
Proof.
  apply (silent_sweep_tests_every_candidate mute (with_trigger default_options true) 4).
  - lia.
  - intros k. reflexivity.
  - intros k b. reflexivity.
  - now left.
Defined.

Lemma continued_sweep_tests_every_candidate_witness :
  exists es,
    sweep (letters "c") default_options 20 [9600; 19200] fresh
    = (Ret tt, push es fresh)
    /\ rates es = [9600; 19200]
    /\ tally is_read es = (20 * 2)%nat
    /\ tally is_prompt es = 2%nat
    /\ tally is_transmit es = 0%nat
    /\ ~ In Miniterm es.
Proof.
  apply (continued_sweep_tests_every_candidate (letters "c") default_options 20).
  - lia.
  - intros k. reflexivity.
  - intros k. reflexivity.
  - intros k. reflexivity.
  - intros k b. reflexivity.
  - now left.
Defined.

Example refused_rate_history :
  history (snd (sweep refusing_once default_options 23 [9600; 19200] fresh))
  = [Log INFO (Switching 9600); SerialFlush; UartConfigure 9600;
     Log ERROR (Caught TransportError);
     Log INFO (Switching 19200); SerialFlush; UartConfigure 19200; UartFlush;
     ProgressStart; WaitBytes false; ProgressStop; Log WARNING (NoData 19200)].
Proof. reflexivity. Qed.

(** ** What a run sends and how often it resets *)

Section Counting.

Variable o : options.

Lemma probe_trace_counts baudrate c l es r :
  probe_trace o baudrate c l es r ->
  tally is_reset_attempt es = 0%nat
  /\ tally is_uart_flush es = 0%nat
  /\ (trigger o = false -> tally is_transmit es = 0%nat).
Proof.
  induction 1 as [c l x resp Hv Ht|c l x es r Hv Ht T IH|c l x Hv
                 |c l es r Ht Hl T IH|c l Ht].
  - unfold handoff_events.
    destruct (String.eqb (Py.upper resp) "Y"); [destruct (detect o)|]; repeat split.
  - destruct IH as (I1 & I2 & I3). rewrite !tally_app, I1, I2. repeat split.
    intros H. now rewrite (I3 H).
  - repeat split.
  - destruct IH as (I1 & I2 & I3). rewrite !tally_app, I1, I2. repeat split.
    intros H. congruence.
  - repeat split.
Qed.

Lemma turn_trace_counts baudrate pin es stop :
  turn_trace o baudrate pin es stop ->
  (pin <> None -> tally is_reset_attempt es = tally is_uart_flush es)
  /\ (pin = None -> tally is_reset_attempt es = 0%nat)
  /\ (trigger o = false -> tally is_transmit es = 0%nat).
Proof.
  destruct 1 as [e|es r T]; [repeat split|].
  destruct (probe_trace_counts _ _ _ _ _ T) as (P1 & P2 & P3).
  rewrite !tally_app, P1, P2. unfold reset_events.
  destruct pin as [p|].
  - destruct (String.eqb _ "LOW"); repeat split; try congruence;
      intros H; now rewrite (P3 H).
  - repeat split; try congruence. intros H; now rewrite (P3 H).
Qed.

Lemma sweep_trace_counts pin candidates es :
  sweep_trace o pin candidates es ->
  (pin <> None -> tally is_reset_attempt es = tally is_uart_flush es)
  /\ (pin = None -> tally is_reset_attempt es = 0%nat)
  /\ (trigger o = false -> tally is_transmit es = 0%nat).
Proof.
  induction 1 as [|b rest es T|b rest es es' T S IH].
  - repeat split.
  - now apply (turn_trace_counts b pin es true).
  - destruct (turn_trace_counts _ _ _ _ T) as (T1 & T2 & T3).
    destruct IH as (I1 & I2 & I3). rewrite !tally_app.
    repeat split; intros H;
      rewrite ?(T1 H), ?(T2 H), ?(T3 H), ?(I1 H), ?(I2 H), ?(I3 H); reflexivity.
Qed.

Lemma start_events_counts :
  tally is_reset_attempt (start_events o) = 0%nat
  /\ tally is_uart_flush (start_events o) = 0%nat
  /\ tally is_transmit (start_events o) = 0%nat.
Proof. unfold start_events. destruct (reset_pin o); repeat split. Qed.

End Counting.

Lemma pulses_follow_skip active idle h1 h2 :
  Forall (fun e => is_pulse_call e = false) h1 ->
  pulses_follow active idle (h1 ++ h2) = pulses_follow active idle h2.
Proof.
  induction 1 as [|e h1 He _ IH]; [reflexivity|].
  destruct e as [l m| | | | | | | | | | | |d| | | | | | | |];
    try discriminate He; try exact IH.
  - destruct l, m; try discriminate He; exact IH.
  - destruct d; try discriminate He; exact IH.
Qed.

Lemma probe_trace_calm o baudrate c l es r :
  probe_trace o baudrate c l es r ->
  Forall (fun e => is_pulse_call e = false) es.
Proof.
  induction 1 as [c l x resp Hv Ht|c l x es r Hv Ht T IH|c l x Hv
                 |c l es r Ht Hl T IH|c l Ht].
  - unfold handoff_events.
    destruct (String.eqb (Py.upper resp) "Y"); [destruct (detect o)|];
      repeat constructor.
  - apply Forall_app. split; [exact IH|repeat constructor].
  - repeat constructor.
  - apply Forall_app. split; [exact IH|repeat constructor].
  - repeat constructor.
Qed.

Lemma turn_trace_pulses o baudrate p es stop h :
  turn_trace o baudrate (Some p) es stop ->
  pulses_follow (active_level o) (idle_level o) (rev es ++ h)
  = pulses_follow (active_level o) (idle_level o) h.
Proof.
  destruct 1 as [e|es r T]; [reflexivity|].
  pose proof (probe_trace_calm _ _ _ _ _ _ T) as C. apply Forall_rev in C.
  rewrite !rev_app_distr, <- !app_assoc.
  unfold reset_events, active_level, idle_level.
  destruct (String.eqb (Py.upper (reset_pol o)) "LOW");
    cbn [rev app pulses_follow Z.eqb Pos.eqb andb];
    now rewrite (pulses_follow_skip _ _ _ h C).
Qed.

Lemma sweep_trace_pulses o p candidates es :
  sweep_trace o (Some p) candidates es ->
  forall h,
    pulses_follow (active_level o) (idle_level o) (rev es ++ h)
    = pulses_follow (active_level o) (idle_level o) h.
Proof.
  induction 1 as [|b rest es T|b rest es es' T S IH]; intros h.
  - reflexivity.
  - now apply (turn_trace_pulses o b p es true).
  - rewrite rev_app_distr, <- app_assoc.
    rewrite (turn_trace_pulses o b p es false _ T). apply IH.
Qed.

(** X14: With the trigger option disabled, a run over valid options never
    calls [transmit]: the module itself sends no byte to the target,
    whatever the target sends and whatever the operator answers. (What
    the operator types in a terminal session opened after an acceptance
    is not sent by a call of the module.) *)
Theorem no_trigger_no_transmit
  (w : world) (o : options) (fuel : nat) (s : state) :
  connected w = true ->
  pin_settings_valid o ->
  mode_known o ->
  (23 <= fuel)%nat ->
  trigger o = false ->
  exists s' es,
    run w o fuel s = (Ret tt, s')
    /\ trace s' = es ++ trace s
    /\ tally is_transmit es = 0%nat.
Proof.
  intros Hc Hp Hm Hf Ht.
  destruct (start_events_counts o) as (_ & _ & S3).
  destruct (reset_failure w o (reset_pin o)) as [[e res]|] eqn:Hr.
  - destruct (run_cases_reset_fails w o fuel s e res Hc Hp Hm Hf Hr)
      as (es & es0 & E & F & H).
    destruct (refused_events_facts es0 F) as (_ & F2 & _).
    destruct (reset_failure_events w o _ e res Hr) as (_ & _ & R2 & _).
    eexists; exists (es ++ start_events o). split; [exact E|].
    cbn [trace]. rewrite app_assoc. split; [reflexivity|].
    rewrite tally_app, S3.
    destruct H as [->|[->|(b & ->)]]; [reflexivity|now rewrite F2|].
    change (Log ERROR (Caught e) :: ?l) with ([Log ERROR (Caught e)] ++ l).
    rewrite !tally_app, R2, F2. reflexivity.
  - assert (Hv : reset_times_valid w o).
    { unfold reset_times_valid, sleeps_valid. unfold reset_failure in Hr.
      destruct (reset_pin o); [right|now left].
      destruct (sleep_error w (reset_hold o)); [discriminate|].
      destruct (sleep_error w (reset_delay o)); [discriminate|]. now split. }
    destruct (run_cases w o fuel s Hc Hp Hm Hf Hv) as (es & E & Hes).
    eexists; exists (es ++ start_events o). split; [exact E|].
    cbn [trace]. rewrite app_assoc. split; [reflexivity|].
    rewrite tally_app, S3.
    destruct Hes as [->|(cands & T)]; [reflexivity|].
    destruct (sweep_trace_counts o _ _ _ T) as (_ & _ & C3). now rewrite (C3 Ht).
Qed.

Lemma no_trigger_no_transmit_witness :
  exists s' es,
    run late_talker (with_range default_options 300 1200 300) 23 fresh = (Ret tt, s')
    /\ trace s' = es ++ trace fresh
    /\ tally is_transmit es = 0%nat.
Proof.
  apply (no_trigger_no_transmit late_talker
           (with_range default_options 300 1200 300) 23 fresh).
  - reflexivity.
  - exact I.
  - left. reflexivity.
  - lia.
  - reflexivity.
Defined.

(** X15: With a reset pin configured and reset times that [time.sleep] takes,
    in the history of a run over valid options every completed rate
    change is followed at once by one whole reset pulse (the log line,
    the line driven to its active level, the hold time, the line driven
    back, the delay), and no call of a reset pulse occurs anywhere else
    after the start: a candidate that [configure] refused gets none. *)
Theorem one_reset_per_rate_change
  (w : world) (o : options) (fuel : nat) (s : state) (pin : Z) :
  connected w = true ->
  pin_settings_valid o ->
  mode_known o ->
  (23 <= fuel)%nat ->
  reset_pin o = Some pin ->
  sleeps_valid w o ->
  exists s' es,
    run w o fuel s = (Ret tt, s')
    /\ trace s' = es ++ start_events o ++ trace s
    /\ pulses_follow (active_level o) (idle_level o) (rev es) = true.
Proof.
  intros Hc Hp Hm Hf Hpin Hs.
  destruct (run_cases w o fuel s Hc Hp Hm Hf (or_intror Hs)) as (es & E & Hes).
  eexists; exists es. split; [exact E|]. split; [reflexivity|].
  destruct Hes as [->|(cands & T)]; [reflexivity|].
  rewrite Hpin in T.
  rewrite <- (app_nil_r (rev es)). now rewrite (sweep_trace_pulses o pin cands es T).
Qed.

Lemma one_reset_per_rate_change_witness :
  exists s' es,
    run refusing_once
        (with_reset (with_range default_options 300 1200 300) (Some 3) "low")
        23 fresh = (Ret tt, s')
    /\ trace s'
       = es ++ start_events
                 (with_reset (with_range default_options 300 1200 300) (Some 3) "low")
            ++ trace fresh
    /\ pulses_follow
         (active_level
            (with_reset (with_range default_options 300 1200 300) (Some 3) "low"))
         (idle_level
            (with_reset (with_range default_options 300 1200 300) (Some 3) "low"))
         (rev es) = true.
Proof.
  apply (one_reset_per_rate_change refusing_once
           (with_reset (with_range default_options 300 1200 300) (Some 3) "low")
           23 fresh 3).
  - reflexivity.
  - cbn. split; [lia|now left].
  - left. reflexivity.
  - lia.
  - reflexivity.
  - split; reflexivity.
Defined.

Example pulses_follow_examples :
  pulses_follow 0 1
    [Log INFO (Switching 300); SerialFlush; UartConfigure 300;
     Log ERROR (Caught TransportError);
     Log INFO (Switching 600); SerialFlush; UartConfigure 600; UartFlush;
     Log INFO ResetAttempt; GpioStatus 0; Sleep ResetHold; GpioStatus 1;
     Sleep ResetDelay; ProgressStart; WaitBytes false] = true
  /\ pulses_follow 0 1
       [Log INFO (Switching 600); SerialFlush; UartConfigure 600; UartFlush;
        Log INFO ResetAttempt; ProgressStart] = false
  /\ pulses_follow 0 1
       [Log INFO (Switching 600); SerialFlush; UartConfigure 600; UartFlush;
        ProgressStart; WaitBytes false] = false
  /\ pulses_follow 0 1
       [Log INFO (Switching 600); SerialFlush; UartConfigure 600;
        Log ERROR (Caught TransportError);
        Log INFO ResetAttempt; GpioStatus 0; Sleep ResetHold; GpioStatus 1;
        Sleep ResetDelay] = false
  /\ pulses_follow 0 1
       [UartFlush; Log INFO ResetAttempt; GpioStatus 1; Sleep ResetHold;
        GpioStatus 0; Sleep ResetDelay] = false.
Proof. repeat split. Qed.

Example reset_history :
  history (snd (run refusing_once
                    (with_reset (with_range default_options 300 900 300) (Some 3) "low")
                    23 fresh))
  = [Connect; UartInit 0; GpioInit 3; GpioDirectionOutput; GpioStatus 1;
     Log HEADER Starting; Log HEADER PressCtrlC;
     Log INFO (Switching 300); SerialFlush; UartConfigure 300;
     Log ERROR (Caught TransportError);
     Log INFO (Switching 600); SerialFlush; UartConfigure 600; UartFlush;
     Log INFO ResetAttempt; GpioStatus 0; Sleep ResetHold; GpioStatus 1;
     Sleep ResetDelay;
     ProgressStart; WaitBytes false; ProgressStop; Log WARNING (NoData 600)].
Proof. reflexivity. Qed.
